(** * spend.py: the console spending calculator, embedded and verified

    The development follows [src/spend.py] (class [SpendingCalculator]).

    - Amounts, the balance and the budgets are Python floats: they are
      modelled as binary64 primitive floats, so [+] and [-] below round
      exactly as the interpreter does.
    - Dates are naive [datetime.datetime] values: a record of the seven
      fields, compared lexicographically as CPython does.
    - [input()] is a list of pending lines: reading pops the head, and an
      empty list is end of input ([EOFError]).  Every [while True] loop of
      the source reads one line per iteration, so the loops are structural
      recursions over that list.
    - [datetime.datetime.now()] is an argument of the operation that calls it.
    - [print] is not modelled for the mutating operations; the two reporting
      operations return the values they would format, and the menus return
      the list of the screens they show.
    - Text is ASCII: [str.lower], [str.title] and [str.isdigit] are the ASCII
      restrictions of the Python methods, and the statements that depend on
      how a typed line is read say of which lines they speak.
    - [int(text)] raises [ValueError] on more than 4300 digits (the default
      limit of the interpreter); the category prompts do not catch it.
    - [float(...)], [datetime.strptime(..., "%Y-%m-%d")] and [pickle] are
      library code: they are section variables. *)

From Stdlib Require Import ZArith List String Ascii Bool Lia Floats.
From Stdlib Require Import Permutation Sorted DecimalString DecimalNat.
Import ListNotations.

Local Open Scope string_scope.
Local Open Scope list_scope.
Local Open Scope Z_scope.

(** ** Text *)

Module Text.

Definition is_upper (c : ascii) : bool :=
  let n := N_of_ascii c in (65 <=? n)%N && (n <=? 90)%N.

Definition is_lower (c : ascii) : bool :=
  let n := N_of_ascii c in (97 <=? n)%N && (n <=? 122)%N.

Definition is_cased (c : ascii) : bool := is_upper c || is_lower c.

Definition is_digit (c : ascii) : bool :=
  let n := N_of_ascii c in (48 <=? n)%N && (n <=? 57)%N.

Definition to_lower (c : ascii) : ascii :=
  if is_upper c then ascii_of_N (N_of_ascii c + 32) else c.

Definition to_upper (c : ascii) : ascii :=
  if is_lower c then ascii_of_N (N_of_ascii c - 32) else c.

(** [str.lower()] *)
Fixpoint lower (s : string) : string :=
  match s with
  | EmptyString => EmptyString
  | String c s' => String (to_lower c) (lower s')
  end.

(** [str.title()]: a cased character is upper-cased when the character before
    it is not cased, and lower-cased otherwise. *)
Fixpoint title_from (previous_is_cased : bool) (s : string) : string :=
  match s with
  | EmptyString => EmptyString
  | String c s' =>
      String (if previous_is_cased then to_lower c else to_upper c)
             (title_from (is_cased c) s')
  end.

Definition title (s : string) : string := title_from false s.

Fixpoint all_digits (s : string) : bool :=
  match s with
  | EmptyString => true
  | String c s' => is_digit c && all_digits s'
  end.

(** [str.isdigit()]: at least one character, and all of them digits. *)
Definition isdigit (s : string) : bool :=
  match s with
  | EmptyString => false
  | _ => all_digits s
  end.

Fixpoint int_from (acc : Z) (s : string) : Z :=
  match s with
  | EmptyString => acc
  | String c s' => int_from (10 * acc + (Z.of_N (N_of_ascii c) - 48)) s'
  end.

(** The default of [sys.get_int_max_str_digits()]. *)
Definition MAX_STR_DIGITS : nat := 4300.

(** [int(s)] on a string of digits: [None] is the [ValueError] that the
    interpreter raises when there are more digits than its limit. *)
Definition int (s : string) : option Z :=
  if Nat.leb (String.length s) MAX_STR_DIGITS then Some (int_from 0 s)
  else None.

(** All the characters are ASCII. *)
Fixpoint is_ascii (s : string) : bool :=
  match s with
  | EmptyString => true
  | String c s' => (N_of_ascii c <? 128)%N && is_ascii s'
  end.

(** [x in xs] for a list of strings. *)
Definition mem (x : string) (xs : list string) : bool :=
  existsb (String.eqb x) xs.

(** [xs.remove(x)]: drops the first occurrence. *)
Fixpoint remove_first (x : string) (xs : list string) : list string :=
  match xs with
  | [] => []
  | y :: ys => if String.eqb x y then ys else y :: remove_first x ys
  end.

(** [not s] on a string. *)
Definition is_empty (s : string) : bool :=
  match s with
  | EmptyString => true
  | _ => false
  end.

End Text.

(** ** Dates: the part of CPython's [datetime] the program uses *)

Module DT.

Record datetime := mk {
  year : Z;
  month : Z;
  day : Z;
  hour : Z;
  minute : Z;
  second : Z;
  microsecond : Z
}.

Definition fields (d : datetime) : list Z :=
  [year d; month d; day d; hour d; minute d; second d; microsecond d].

Fixpoint lex_compare (a b : list Z) : comparison :=
  match a, b with
  | [], [] => Eq
  | [], _ :: _ => Lt
  | _ :: _, [] => Gt
  | x :: a', y :: b' =>
      match Z.compare x y with
      | Eq => lex_compare a' b'
      | c => c
      end
  end.

Definition compare (a b : datetime) : comparison :=
  lex_compare (fields a) (fields b).

(** [a <= b] *)
Definition leb (a b : datetime) : bool :=
  match compare a b with
  | Gt => false
  | _ => true
  end.

Definition is_leap (y : Z) : bool :=
  (y mod 4 =? 0) && (negb (y mod 100 =? 0) || (y mod 400 =? 0)).

Definition days_before_year (y : Z) : Z :=
  let p := y - 1 in p * 365 + p / 4 - p / 100 + p / 400.

(** [_DAYS_IN_MONTH] *)
Definition DAYS_IN_MONTH (m : Z) : Z :=
  match m with
  | 1 => 31 | 2 => 28 | 3 => 31 | 4 => 30 | 5 => 31 | 6 => 30
  | 7 => 31 | 8 => 31 | 9 => 30 | 10 => 31 | 11 => 30 | 12 => 31
  | _ => -1
  end.

(** [_DAYS_BEFORE_MONTH] *)
Definition DAYS_BEFORE_MONTH (m : Z) : Z :=
  match m with
  | 1 => 0 | 2 => 31 | 3 => 59 | 4 => 90 | 5 => 120 | 6 => 151
  | 7 => 181 | 8 => 212 | 9 => 243 | 10 => 273 | 11 => 304 | 12 => 334
  | _ => -1
  end.

Definition days_in_month (y m : Z) : Z :=
  if (m =? 2) && is_leap y then 29 else DAYS_IN_MONTH m.

Definition days_before_month (y m : Z) : Z :=
  DAYS_BEFORE_MONTH m + (if (2 <? m) && is_leap y then 1 else 0).

Definition ymd2ord (y m d : Z) : Z :=
  days_before_year y + days_before_month y m + d.

Definition DI400Y : Z := 146097.
Definition DI100Y : Z := 36524.
Definition DI4Y : Z := 1461.
Definition MAXORDINAL : Z := 3652059.

Definition ord2ymd (ordinal : Z) : Z * Z * Z :=
  let n := ordinal - 1 in
  let n400 := n / DI400Y in
  let n := n mod DI400Y in
  let n100 := n / DI100Y in
  let n := n mod DI100Y in
  let n4 := n / DI4Y in
  let n := n mod DI4Y in
  let n1 := n / 365 in
  let n := n mod 365 in
  let y := n400 * 400 + 1 + n100 * 100 + n4 * 4 + n1 in
  if (n1 =? 4) || (n100 =? 4) then (y - 1, 12, 31)
  else
    let leapyear := (n1 =? 3) && (negb (n4 =? 24) || (n100 =? 3)) in
    let m := Z.shiftr (n + 50) 5 in
    let preceding :=
      DAYS_BEFORE_MONTH m + (if (2 <? m) && leapyear then 1 else 0) in
    if n <? preceding then
      let m' := m - 1 in
      let preceding' :=
        preceding
        - (DAYS_IN_MONTH m' + (if (m' =? 2) && leapyear then 1 else 0)) in
      (y, m', n - preceding' + 1)
    else (y, m, n - preceding + 1).

Definition toordinal (d : datetime) : Z := ymd2ord (year d) (month d) (day d).

(** [d.weekday()]: Monday is 0. *)
Definition weekday (d : datetime) : Z := (toordinal d + 6) mod 7.

(** [d.replace(day=1)] *)
Definition replace_day (d : datetime) (v : Z) : datetime :=
  mk (year d) (month d) v (hour d) (minute d) (second d) (microsecond d).

(** [d.replace(month=1, day=1)] *)
Definition replace_month_day (d : datetime) (m v : Z) : datetime :=
  mk (year d) m v (hour d) (minute d) (second d) (microsecond d).

(** [d.replace(hour=0, minute=0, second=0, microsecond=0)] *)
Definition replace_time_zero (d : datetime) : datetime :=
  mk (year d) (month d) (day d) 0 0 0 0.

(** [d - datetime.timedelta(days=n)]: [None] is the [OverflowError] CPython
    raises when the result leaves the years 1..9999. *)
Definition sub_days (d : datetime) (n : Z) : option datetime :=
  let o := toordinal d - n in
  if (0 <? o) && (o <=? MAXORDINAL) then
    let '(y, m, dd) := ord2ymd o in
    Some (mk y m dd (hour d) (minute d) (second d) (microsecond d))
  else None.

Definition micros_of_day (d : datetime) : Z :=
  ((hour d * 60 + minute d) * 60 + second d) * 1000000 + microsecond d.

(** [(a - b).days]: a timedelta is normalised so that its seconds and
    microseconds are not negative. *)
Definition diff_days (a b : datetime) : Z :=
  ((toordinal a - toordinal b) * 86400000000
   + (micros_of_day a - micros_of_day b)) / 86400000000.

(** [datetime.datetime(1970, 1, 5)] *)
Definition reference_monday : datetime := mk 1970 1 5 0 0 0 0.

End DT.

Example lower_yes : Text.lower "YeS" = "yes".
Proof. reflexivity. Qed.

Example title_bi_weekly : Text.title "bi-weekly" = "Bi-Weekly".
Proof. reflexivity. Qed.

Example int_0012 : Text.int "0012" = Some 12.
Proof. reflexivity. Qed.

Example reference_is_monday : DT.weekday DT.reference_monday = 0.
Proof. reflexivity. Qed.

Example ord_roundtrip_leap_day :
  DT.ord2ymd (DT.ymd2ord 2024 2 29) = (2024, 2, 29)
  /\ DT.ord2ymd (DT.ymd2ord 2023 12 31) = (2023, 12, 31)
  /\ DT.ymd2ord 1 1 1 = 1
  /\ DT.ymd2ord 9999 12 31 = DT.MAXORDINAL.
Proof. repeat split; reflexivity. Qed.

Example sub_days_crosses_month :
  DT.sub_days (DT.mk 2024 3 2 10 30 0 0) 5 = Some (DT.mk 2024 2 26 10 30 0 0).
Proof. reflexivity. Qed.

(** ** Python dictionaries with string keys

    Insertion order is kept, as [dict.items()] shows it: assigning to a key
    that is present replaces its value in place, and a new key goes last. *)

Module Dict.

Definition t (V : Type) : Type := list (string * V).

Fixpoint lookup {V : Type} (k : string) (d : t V) : option V :=
  match d with
  | [] => None
  | (k', v) :: d' => if String.eqb k k' then Some v else lookup k d'
  end.

(** [d.get(k, default)] *)
Definition get {V : Type} (k : string) (d : t V) (default : V) : V :=
  match lookup k d with
  | Some v => v
  | None => default
  end.

(** [k in d] *)
Definition contains {V : Type} (k : string) (d : t V) : bool :=
  match lookup k d with
  | Some _ => true
  | None => false
  end.

(** [d[k] = v] *)
Fixpoint set {V : Type} (k : string) (v : V) (d : t V) : t V :=
  match d with
  | [] => [(k, v)]
  | (k', v') :: d' =>
      if String.eqb k k' then (k, v) :: d' else (k', v') :: set k v d'
  end.

(** [del d[k]] *)
Definition del {V : Type} (k : string) (d : t V) : t V :=
  filter (fun kv => negb (String.eqb k (fst kv))) d.

Definition keys {V : Type} (d : t V) : list string := map fst d.

End Dict.

(** ** The state of a [SpendingCalculator] *)

(** [(date, category, amount)] *)
Definition expense : Type := DT.datetime * string * float.

(** [(kind, date, category, amount)] *)
Definition transaction : Type := string * DT.datetime * string * float.

Definition expense_date (e : expense) : DT.datetime := fst (fst e).
Definition expense_category (e : expense) : string := snd (fst e).
Definition expense_amount (e : expense) : float := snd e.

Record calc := mkCalc {
  expenses : list expense;
  categories : list string;
  balance : float;
  transaction_history : list transaction;
  history_length : nat;
  budget : float;
  budget_interval : string;
  category_budgets : Dict.t float
}.

Definition default_categories : list string :=
  ["Food"; "Housing"; "Transportation"; "Entertainment"; "Utilities"; "Other"].

Definition budget_intervals : list string :=
  ["Day"; "Week"; "Bi-Weekly"; "Month"; "Year"].

(** The fields as [__init__] sets them before it calls [load_data]. *)
Definition fresh : calc :=
  {| expenses := [];
     categories := default_categories;
     balance := 0%float;
     transaction_history := [];
     history_length := 5%nat;
     budget := 0%float;
     budget_interval := "Month";
     category_budgets := [] |}.

(** The dictionary [save_data] pickles and [load_data] reads with
    [data.get(key, default)]: a key may be absent. *)
Record pickled := mkPickled {
  p_expenses : option (list expense);
  p_categories : option (list string);
  p_balance : option float;
  p_transaction_history : option (list transaction);
  p_budget : option float;
  p_budget_interval : option string;
  p_category_budgets : option (Dict.t float)
}.

Definition data_of (s : calc) : pickled :=
  {| p_expenses := Some (expenses s);
     p_categories := Some (categories s);
     p_balance := Some (balance s);
     p_transaction_history := Some (transaction_history s);
     p_budget := Some (budget s);
     p_budget_interval := Some (budget_interval s);
     p_category_budgets := Some (category_budgets s) |}.

Definition or_default {A : Type} (o : option A) (default : A) : A :=
  match o with
  | Some a => a
  | None => default
  end.

Inductive exn := EOFError | OverflowError | ValueError.

Inductive outcome (A : Type) :=
| Ret (a : A)
| Raise (e : exn).

Arguments Ret {A} a.
Arguments Raise {A} e.

(** [initialize_category_budgets] *)
Definition initialize_category_budgets (s : calc) : calc :=
  {| expenses := expenses s;
     categories := categories s;
     balance := balance s;
     transaction_history := transaction_history s;
     history_length := history_length s;
     budget := budget s;
     budget_interval := budget_interval s;
     category_budgets :=
       fold_left
         (fun d category =>
            if Dict.contains category d then d else Dict.set category 0%float d)
         (categories s) (category_budgets s) |}.

(** The two lines after [append]: [pop(0)] when the list is too long. *)
Definition trim (limit : nat) (h : list transaction) : list transaction :=
  if Nat.ltb limit (List.length h) then tl h else h.

(** [self.categories[category_index]] behind the range test of the source. *)
Definition category_at (cats : list string) (category_index : Z) : option string :=
  if (0 <=? category_index) && (category_index <? Z.of_nat (List.length cats))
  then nth_error cats (Z.to_nat category_index)
  else None.

(** The prompt "Enter category number or name" of [add_expense] and
    [set_category_budget] (the two loops are the same text).  The loop
    catches [EOFError] only: the [ValueError] of [int] leaves it.
    [Text.isdigit] is [str.isdigit] on ASCII text, which is why the
    statements about this prompt speak of ASCII lines. *)
Fixpoint read_category (cats : list string) (inp : list string)
  : outcome (option string * list string) :=
  match inp with
  | [] => Ret (None, [])
  | category_input :: rest =>
      if Text.is_empty category_input then Ret (None, rest)
      else if Text.isdigit category_input then
        match Text.int category_input with
        | None => Raise ValueError
        | Some number =>
            match category_at cats (number - 1) with
            | Some category => Ret (Some category, rest)
            | None => read_category cats rest
            end
        end
      else if Text.mem category_input cats then
        Ret (Some category_input, rest)
      else read_category cats rest
  end.

(** The calculator after a call that leaves it alone when it raises. *)
Definition state_after {A : Type} (o : outcome (calc * A)) (s : calc) : calc :=
  match o with
  | Ret (s', _) => s'
  | Raise _ => s
  end.

(** [sorted(xs, key=lambda x: x[0])]: the stable sort, as an insertion sort
    that puts an expense before the first one that is not earlier. *)
Fixpoint insert_by_date (e : expense) (l : list expense) : list expense :=
  match l with
  | [] => [e]
  | x :: l' =>
      if DT.leb (expense_date e) (expense_date x) then e :: x :: l'
      else x :: insert_by_date e l'
  end.

Definition sorted_by_date (l : list expense) : list expense :=
  fold_right insert_by_date [] l.

Record summary := mkSummary {
  sorted_expenses : list expense;
  category_totals : Dict.t float;
  total_spending : float
}.

(** One iteration of the loop of [update_summary] over the sorted expenses. *)
Definition summary_step (acc : float * Dict.t float) (e : expense)
  : float * Dict.t float :=
  let '(total, totals) := acc in
  let '(_, category, amount) := e in
  ((total + amount)%float,
   Dict.set category (Dict.get category totals 0 + amount)%float totals).

(** [update_summary]: [None] is "No expenses recorded yet." *)
Definition update_summary (s : calc) : option summary :=
  match expenses s with
  | [] => None
  | _ =>
      let sorted := sorted_by_date (expenses s) in
      let '(total, totals) := fold_left summary_step sorted (0%float, []) in
      Some {| sorted_expenses := sorted;
              category_totals := totals;
              total_spending := total |}
  end.

(** [total = 0], then [total += x] for each [x] in turn: every addition is
    rounded. *)
Definition running_sum (l : list float) : float :=
  fold_left PrimFloat.add l 0%float.

(** The builtin [sum] over floats, as that accumulation.  (From CPython 3.12
    on, [sum] compensates the rounding errors of a list of floats; on an
    empty list and on a list of one float the two agree.) *)
Definition py_sum (l : list float) : float := running_sum l.

(** [start <= expense[0] <= now] *)
Definition in_window (start now : DT.datetime) (e : expense) : bool :=
  DT.leb start (expense_date e) && DT.leb (expense_date e) now.

(** [sum(expense[2] for expense in self.expenses if start <= expense[0] <= now)] *)
Definition spent_between (start now : DT.datetime) (es : list expense) : float :=
  py_sum (map expense_amount (filter (in_window start now) es)).

(** The start of the current period, by the branches of [display_status], with
    the label the branch prints. [None]: no branch matches the interval. *)
Definition interval_start (interval : string) (now : DT.datetime)
  : option (string * outcome DT.datetime) :=
  let i := Text.lower interval in
  if String.eqb i "month" then
    Some ("Spending this month", Ret (DT.replace_day now 1))
  else if String.eqb i "year" then
    Some ("Spending this year", Ret (DT.replace_month_day now 1 1))
  else if String.eqb i "day" then
    Some ("Spending today", Ret (DT.replace_time_zero now))
  else if String.eqb i "week" then
    Some ("Spending this week",
          match DT.sub_days now (DT.weekday now) with
          | Some week_start => Ret (DT.replace_time_zero week_start)
          | None => Raise OverflowError
          end)
  else if String.eqb i "bi-weekly" then
    let days_since_monday := DT.weekday now in
    let weeks_since_start := DT.diff_days now DT.reference_monday / 7 in
    let days_since_monday :=
      if negb (weeks_since_start mod 2 =? 0) then days_since_monday + 7
      else days_since_monday in
    Some ("Spending this bi-weekly period",
          match DT.sub_days now days_since_monday with
          | Some bi_weekly_start => Ret (DT.replace_time_zero bi_weekly_start)
          | None => Raise OverflowError
          end)
  else None.

Record period_status := mkPeriod {
  period_label : string;
  period_spending : float;
  period_remaining : float
}.

Record status_report := mkStatus {
  shown_balance : float;
  (** "Total Budget (interval): budget" and the lines of the period *)
  shown_budget : option (string * float * option period_status);
  (** category, budget, spent, remaining *)
  shown_category_budgets : list (string * float * float * float);
  (** newest first; the empty list is "No recent transactions." *)
  shown_transactions : list transaction
}.

(** The loop that fills [category_expenses] in [display_status]. *)
Definition category_expenses (es : list expense) : Dict.t float :=
  fold_left
    (fun d e =>
       Dict.set (expense_category e)
                (Dict.get (expense_category e) d 0 + expense_amount e)%float d)
    es [].

Definition category_lines (s : calc) : list (string * float * float * float) :=
  match category_budgets s with
  | [] => []
  | items =>
      let spent := category_expenses (expenses s) in
      map (fun '(category, budget) =>
             let expense := Dict.get category spent 0%float in
             (category, budget, expense, (budget - expense)%float))
          items
  end.

(** [display_status] *)
Definition display_status (now : DT.datetime) (s : calc) : outcome status_report :=
  let finish shown :=
    {| shown_balance := balance s;
       shown_budget := shown;
       shown_category_budgets := category_lines s;
       shown_transactions := rev (transaction_history s) |} in
  if (0 <? budget s)%float then
    match interval_start (budget_interval s) now with
    | None => Ret (finish (Some (budget_interval s, budget s, None)))
    | Some (_, Raise e) => Raise e
    | Some (label, Ret start) =>
        let spending := spent_between start now (expenses s) in
        Ret (finish
               (Some (budget_interval s, budget s,
                      Some {| period_label := label;
                              period_spending := spending;
                              period_remaining := (budget s - spending)%float |})))
    end
  else Ret (finish None).

(** ** Notions the statements use *)

(** The decimal numeral of a number, as a user types it at a prompt. *)
Definition numeral (n : nat) : string :=
  NilEmpty.string_of_uint (Nat.to_uint n).

(** Not later, by date. *)
Definition date_le (a b : expense) : Prop :=
  DT.leb (expense_date a) (expense_date b) = true.

(** The amounts of one category, in the order of the list. *)
Definition amounts_of (category : string) (l : list expense) : list float :=
  map expense_amount
      (filter (fun e => String.eqb category (expense_category e)) l).

(** The statement of the specification: the grand total does not depend on
    the order in which the expenses were entered. *)
Definition total_is_order_free : Prop :=
  forall s1 s2 : calc,
    Permutation (expenses s1) (expenses s2) ->
    option_map total_spending (update_summary s1)
    = option_map total_spending (update_summary s2).

(** ** The data file *)

(** [spending_data.pkl]: [file] is [None] when the path does not exist, and
    [writable] tells whether [open(..., "wb")] succeeds. *)
Record filesystem (blob : Type) := mkFs {
  file : option blob;
  writable : bool
}.

Arguments mkFs {blob} file writable.
Arguments file {blob} f.
Arguments writable {blob} f.

(** ** The operations *)

Section Operations.

Set Default Proof Using "Type".

(** [float(text)]: [None] is [ValueError]. *)
Variable float_of_string : string -> option float.

(** [datetime.datetime.strptime(text, "%Y-%m-%d")]: [None] is [ValueError]. *)
Variable strptime : string -> option DT.datetime.

(** [pickle.dump] and [pickle.load]; [None] is any exception of [load]. *)
Variable blob : Type.
Variable pickle_dump : pickled -> blob.
Variable pickle_load : blob -> option pickled.

(** [load_data] *)
Definition load_data (s : calc) (fs : filesystem blob) : calc :=
  match file fs with
  | None => s
  | Some b =>
      match pickle_load b with
      | None => s
      | Some data =>
          {| expenses := or_default (p_expenses data) [];
             categories := or_default (p_categories data) default_categories;
             balance := or_default (p_balance data) 0%float;
             transaction_history := or_default (p_transaction_history data) [];
             history_length := history_length s;
             budget := or_default (p_budget data) 0%float;
             budget_interval := or_default (p_budget_interval data) "Month";
             category_budgets := or_default (p_category_budgets data) [] |}
      end
  end.

(** [save_data]: a failure to open the file is reported and absorbed. *)
Definition save_data (s : calc) (fs : filesystem blob) : filesystem blob :=
  if writable fs
  then {| file := Some (pickle_dump (data_of s)); writable := writable fs |}
  else fs.

(** [__init__] *)
Definition init (fs : filesystem blob) : calc :=
  initialize_category_budgets (load_data fresh fs).

(** The prompt "Enter amount" of [add_expense]. *)
Fixpoint read_amount (inp : list string) : option float * list string :=
  match inp with
  | [] => (None, [])
  | line :: rest =>
      match float_of_string line with
      | None => read_amount rest
      | Some amount =>
          if (amount <=? 0)%float then read_amount rest
          else (Some amount, rest)
      end
  end.

(** The prompt "Enter date (YYYY-MM-DD)" of [add_expense]. *)
Fixpoint read_date (now : DT.datetime) (inp : list string)
  : option DT.datetime * list string :=
  match inp with
  | [] => (None, [])
  | date_str :: rest =>
      if Text.is_empty date_str then (Some now, rest)
      else
        match strptime date_str with
        | Some date => (Some date, rest)
        | None => read_date now rest
        end
  end.

(** Lines 128-132 of [add_expense]. *)
Definition record_expense (date : DT.datetime) (category : string)
  (amount : float) (s : calc) : calc :=
  {| expenses := expenses s ++ [(date, category, amount)];
     categories := categories s;
     balance := (balance s - amount)%float;
     transaction_history :=
       trim (history_length s)
            (transaction_history s ++ [("Expense", date, category, amount)]);
     history_length := history_length s;
     budget := budget s;
     budget_interval := budget_interval s;
     category_budgets := category_budgets s |}.

(** [add_expense]: it returns, or the [ValueError] of the category prompt
    leaves it before anything is recorded. *)
Definition add_expense (now : DT.datetime) (inp : list string) (s : calc)
  : outcome (calc * list string) :=
  match read_amount inp with
  | (None, rest) => Ret (s, rest)
  | (Some amount, rest) =>
      match read_category (categories s) rest with
      | Raise e => Raise e
      | Ret (None, rest) => Ret (s, rest)
      | Ret (Some category, rest) =>
          match read_date now rest with
          | (None, rest) => Ret (s, rest)
          | (Some date, rest) =>
              Ret (record_expense date category amount s, rest)
          end
      end
  end.

(** Lines 222-225 of [add_money]. *)
Definition record_deposit (now : DT.datetime) (amount : float) (s : calc) : calc :=
  {| expenses := expenses s;
     categories := categories s;
     balance := (balance s + amount)%float;
     transaction_history :=
       trim (history_length s)
            (transaction_history s ++ [("Deposit", now, "Deposit", amount)]);
     history_length := history_length s;
     budget := budget s;
     budget_interval := budget_interval s;
     category_budgets := category_budgets s |}.

(** [add_money] *)
Fixpoint add_money (now : DT.datetime) (inp : list string) (s : calc)
  : calc * list string :=
  match inp with
  | [] => (s, [])
  | line :: rest =>
      match float_of_string line with
      | None => add_money now rest s
      | Some amount =>
          if (amount <=? 0)%float then add_money now rest s
          else (record_deposit now amount s, rest)
      end
  end.

Definition with_categories (cats : list string) (budgets : Dict.t float)
  (s : calc) : calc :=
  {| expenses := expenses s;
     categories := cats;
     balance := balance s;
     transaction_history := transaction_history s;
     history_length := history_length s;
     budget := budget s;
     budget_interval := budget_interval s;
     category_budgets := budgets |}.

(** [add_category] *)
Fixpoint add_category (inp : list string) (s : calc) : calc * list string :=
  match inp with
  | [] => (s, [])
  | new_category :: rest =>
      if Text.is_empty new_category then (s, rest)
      else if Text.mem new_category (categories s) then add_category rest s
      else
        (with_categories (categories s ++ [new_category])
                         (Dict.set new_category 0%float (category_budgets s)) s,
         rest)
  end.

(** [delete_category] *)
Fixpoint delete_category (inp : list string) (s : calc) : calc * list string :=
  match inp with
  | [] => (s, [])
  | category_to_delete :: rest =>
      if Text.is_empty category_to_delete then (s, rest)
      else if negb (Text.mem category_to_delete (categories s))
      then delete_category rest s
      else
        (with_categories
           (Text.remove_first category_to_delete (categories s))
           (if Dict.contains category_to_delete (category_budgets s)
            then Dict.del category_to_delete (category_budgets s)
            else category_budgets s)
           s,
         rest)
  end.

Definition with_budget (b : float) (s : calc) : calc :=
  {| expenses := expenses s;
     categories := categories s;
     balance := balance s;
     transaction_history := transaction_history s;
     history_length := history_length s;
     budget := b;
     budget_interval := budget_interval s;
     category_budgets := category_budgets s |}.

(** [set_budget] *)
Fixpoint set_budget (inp : list string) (s : calc) : calc * list string :=
  match inp with
  | [] => (s, [])
  | line :: rest =>
      match float_of_string line with
      | None => set_budget rest s
      | Some b =>
          if (b <=? 0)%float then set_budget rest s
          else (with_budget b s, rest)
      end
  end.

(** The second loop of [set_category_budget]. *)
Fixpoint read_category_budget (category : string) (inp : list string) (s : calc)
  : calc * list string :=
  match inp with
  | [] => (s, [])
  | line :: rest =>
      match float_of_string line with
      | None => read_category_budget category rest s
      | Some b =>
          if (b <=? 0)%float then read_category_budget category rest s
          else
            (with_categories (categories s)
                             (Dict.set category b (category_budgets s)) s,
             rest)
      end
  end.

(** [set_category_budget] *)
Definition set_category_budget (inp : list string) (s : calc)
  : outcome (calc * list string) :=
  match read_category (categories s) inp with
  | Raise e => Raise e
  | Ret (None, rest) => Ret (s, rest)
  | Ret (Some category, rest) => Ret (read_category_budget category rest s)
  end.

Definition with_interval (interval : string) (s : calc) : calc :=
  {| expenses := expenses s;
     categories := categories s;
     balance := balance s;
     transaction_history := transaction_history s;
     history_length := history_length s;
     budget := budget s;
     budget_interval := interval;
     category_budgets := category_budgets s |}.

(** [set_budget_interval] *)
Fixpoint set_budget_interval (inp : list string) (s : calc)
  : calc * list string :=
  match inp with
  | [] => (s, [])
  | line :: rest =>
      let interval := Text.title line in
      if negb (Text.mem interval budget_intervals)
      then set_budget_interval rest s
      else (with_interval interval s, rest)
  end.

(** The assignments of [clear_all_data] before it saves. *)
Definition cleared (s : calc) : calc :=
  {| expenses := [];
     categories := categories s;
     balance := 0%float;
     transaction_history := [];
     history_length := history_length s;
     budget := 0%float;
     budget_interval := budget_interval s;
     category_budgets := [] |}.

(** [clear_all_data]: its [input()] is outside any [try], so the end of
    input leaves the method as an [EOFError]. *)
Fixpoint clear_all_data (inp : list string) (s : calc) (fs : filesystem blob)
  : outcome (calc * filesystem blob * list string) :=
  match inp with
  | [] => Raise EOFError
  | line :: rest =>
      let confirmation := Text.lower line in
      if String.eqb confirmation "yes"
      then Ret (cleared s, save_data (cleared s) fs, rest)
      else if String.eqb confirmation "no" then Ret (s, fs, rest)
      else clear_all_data rest s fs
  end.

(** ** Runs of the program

    A world is the calculator of the running process and the data file.  A
    step is one operation of the menus on any pending input at any time, the
    [save_data] of the "x" choice, a new process ([__init__] on the file as it
    is), or a change of the file's permissions from outside. *)

Definition world : Type := calc * filesystem blob.

Inductive step : world -> world -> Prop :=
| step_add_expense now inp s fs :
    step (s, fs) (state_after (add_expense now inp s) s, fs)
| step_add_money now inp s fs :
    step (s, fs) (fst (add_money now inp s), fs)
| step_set_budget inp s fs :
    step (s, fs) (fst (set_budget inp s), fs)
| step_set_category_budget inp s fs :
    step (s, fs) (state_after (set_category_budget inp s) s, fs)
| step_set_budget_interval inp s fs :
    step (s, fs) (fst (set_budget_interval inp s), fs)
| step_add_category inp s fs :
    step (s, fs) (fst (add_category inp s), fs)
| step_delete_category inp s fs :
    step (s, fs) (fst (delete_category inp s), fs)
| step_clear_all_data inp s fs s' fs' rest :
    clear_all_data inp s fs = Ret (s', fs', rest) ->
    step (s, fs) (s', fs')
| step_save s fs :
    step (s, fs) (s, save_data s fs)
| step_restart s fs :
    step (s, fs) (init fs, fs)
| step_permissions s fs w :
    step (s, fs) (s, {| file := file fs; writable := w |}).

(** The first run: there is no data file yet. *)
Definition first_run (w : world) : Prop :=
  file (snd w) = None /\ fst w = init (snd w).

Inductive reachable : world -> Prop :=
| reachable_first w : first_run w -> reachable w
| reachable_step w w' : reachable w -> step w w' -> reachable w'.

(** What the program keeps true of its calculator. *)
Record calc_ok (s : calc) : Prop := mkCalcOk {
  ok_limit : history_length s = 5%nat;
  ok_history : (List.length (transaction_history s) <= history_length s)%nat;
  ok_categories : NoDup (categories s);
  ok_budget_keys : incl (Dict.keys (category_budgets s)) (categories s)
}.

(** The data file, when there is one, was written by [save_data]. *)
Definition file_ok (fs : filesystem blob) : Prop :=
  forall b, file fs = Some b ->
            exists s0, calc_ok s0 /\ b = pickle_dump (data_of s0).

Definition world_ok (w : world) : Prop := calc_ok (fst w) /\ file_ok (snd w).

(** A category is chosen at the prompt by its number in the list (a numeral
    that [int] reads), or by its name when the name is ASCII text that is not
    a number. *)
Definition designates (cats : list string) (line category : string) : Prop :=
  Text.is_empty line = false
  /\ ((Text.isdigit line = true
       /\ exists number,
            Text.int line = Some number
            /\ 1 <= number
            /\ nth_error cats (Z.to_nat (number - 1)) = Some category)
      \/ (Text.isdigit line = false
          /\ Text.is_ascii line = true
          /\ line = category /\ In category cats)).

(** A line [clear_all_data] asks again about. *)
Definition unclear (line : string) : Prop :=
  Text.lower line <> "yes" /\ Text.lower line <> "no".

(** [pickle.load] gives back what [pickle.dump] wrote. *)
Definition pickle_round_trip : Prop :=
  forall d, pickle_load (pickle_dump d) = Some d.

(** Appending to a history of at most [limit] entries, oldest out first. *)
Definition fifo_push (limit : nat) (h : list transaction) (t : transaction)
  : list transaction :=
  if Nat.ltb (List.length h) limit then h ++ [t] else tl h ++ [t].

(** ** Basic facts *)

Lemma positive_passes_guard (a : float) :
  (0 <? a)%float = true -> (a <=? 0)%float = false.
Proof.
  rewrite ltb_spec, leb_spec. unfold SFltb, SFleb.
  change (Prim2SF 0) with (S754_zero false).
  destruct (Prim2SF a) as [sg | [ | ] | | [ | ] m e]; simpl;
    try discriminate; reflexivity.
Qed.

Lemma mem_In (x : string) (xs : list string) :
  Text.mem x xs = true <-> In x xs.
Proof.
  unfold Text.mem. rewrite existsb_exists. split.
  - intros (y & Hy & E). apply String.eqb_eq in E. now subst.
  - intros H. exists x. split; [assumption | apply String.eqb_refl].
Qed.

Lemma mem_false (x : string) (xs : list string) :
  Text.mem x xs = false <-> ~ In x xs.
Proof.
  rewrite <- mem_In. destruct (Text.mem x xs); split; congruence.
Qed.

Lemma category_at_In (cats : list string) (i : Z) (c : string) :
  category_at cats i = Some c -> In c cats.
Proof.
  unfold category_at.
  destruct ((0 <=? i) && (i <? Z.of_nat (List.length cats))); [ | discriminate].
  apply nth_error_In.
Qed.

Lemma category_at_nth (cats : list string) (i : Z) (c : string) :
  0 <= i -> nth_error cats (Z.to_nat i) = Some c -> category_at cats i = Some c.
Proof.
  intros Hi Hn. unfold category_at.
  assert (Hlt : (Z.to_nat i < List.length cats)%nat).
  { apply nth_error_Some. congruence. }
  replace ((0 <=? i) && (i <? Z.of_nat (List.length cats))) with true;
    [assumption | ].
  symmetry. apply andb_true_iff. split; [apply Z.leb_le | apply Z.ltb_lt]; lia.
Qed.

Lemma designates_In (cats : list string) (line c : string) :
  designates cats line c -> In c cats.
Proof.
  intros (_ & [(_ & n & _ & _ & Hn) | (_ & _ & _ & Hin)]); [ | assumption].
  eapply nth_error_In; eassumption.
Qed.

Lemma read_category_designated (cats : list string) (line c : string)
  (rest : list string) :
  designates cats line c ->
  read_category cats (line :: rest) = Ret (Some c, rest).
Proof.
  intros (Hne & [(Hd & n & Hi & Hpos & Hn) | (Hd & _ & -> & Hin)]);
    cbn [read_category]; rewrite Hne, Hd.
  - rewrite Hi, (category_at_nth cats _ c); [reflexivity | lia | assumption].
  - apply mem_In in Hin. now rewrite Hin.
Qed.

Lemma read_category_In (cats inp : list string) (c : string) (rest : list string) :
  read_category cats inp = Ret (Some c, rest) -> In c cats.
Proof.
  induction inp as [ | line inp IH]; cbn [read_category]; [discriminate | ].
  destruct (Text.is_empty line); [discriminate | ].
  destruct (Text.isdigit line).
  - destruct (Text.int line) as [n | ]; [ | discriminate].
    destruct (category_at cats (n - 1)) as [c' | ] eqn:E.
    + intros [= <- _]. eapply category_at_In; eassumption.
    + assumption.
  - destruct (Text.mem line cats) eqn:E.
    + intros [= <- _]. now apply mem_In.
    + assumption.
Qed.

(** [int] reads the lines within the limit of digits and no other. *)

Lemma int_short (line : string) :
  (String.length line <= Text.MAX_STR_DIGITS)%nat ->
  Text.int line = Some (Text.int_from 0 line).
Proof.
  intros H. unfold Text.int. apply Nat.leb_le in H. now rewrite H.
Qed.

Lemma int_long (line : string) :
  (Text.MAX_STR_DIGITS < String.length line)%nat -> Text.int line = None.
Proof.
  intros H. unfold Text.int. apply Nat.leb_gt in H. now rewrite H.
Qed.

Lemma int_Some (line : string) (n : Z) :
  Text.int line = Some n ->
  (String.length line <= Text.MAX_STR_DIGITS)%nat /\ n = Text.int_from 0 line.
Proof.
  unfold Text.int.
  destruct (Nat.leb (String.length line) Text.MAX_STR_DIGITS) eqn:E;
    [ | discriminate].
  intros [= <-]. apply Nat.leb_le in E. now split.
Qed.


(** Every category of the list can be chosen: by its number. *)

Lemma all_digits_numeral (d : Decimal.uint) :
  Text.all_digits (NilEmpty.string_of_uint d) = true.
Proof. induction d; simpl; auto. Qed.

Lemma int_from_numeral (d : Decimal.uint) (acc : nat) :
  Text.int_from (Z.of_nat acc) (NilEmpty.string_of_uint d)
  = Z.of_nat (Nat.of_uint_acc d acc).
Proof.
  revert acc.
  induction d as [ | d IH | d IH | d IH | d IH | d IH | d IH | d IH | d IH
                   | d IH | d IH ]; intros acc;
    cbn [NilEmpty.string_of_uint Text.int_from Nat.of_uint_acc];
    try reflexivity; rewrite Nat.tail_mul_spec, <- IH; f_equal;
    match goal with
    | |- context [N_of_ascii ?c] =>
        let v := eval vm_compute in (Z.of_N (N_of_ascii c)) in
        change (Z.of_N (N_of_ascii c)) with v
    end; lia.
Qed.

Lemma int_from_numeral_0 (n : nat) :
  Text.int_from 0 (numeral n) = Z.of_nat n.
Proof.
  unfold numeral. rewrite (int_from_numeral _ 0).
  change (Nat.of_uint_acc (Nat.to_uint n) 0) with (Nat.of_uint (Nat.to_uint n)).
  now rewrite DecimalNat.Unsigned.of_to.
Qed.

Lemma int_numeral (n : nat) :
  (String.length (numeral n) <= Text.MAX_STR_DIGITS)%nat ->
  Text.int (numeral n) = Some (Z.of_nat n).
Proof.
  intros H. rewrite (int_short _ H). now rewrite int_from_numeral_0.
Qed.

Lemma numeral_not_empty (n : nat) : Text.is_empty (numeral (S n)) = false.
Proof.
  pose proof (int_from_numeral_0 (S n)) as H. unfold numeral in *.
  destruct (Nat.to_uint (S n)); try reflexivity. cbn in H. lia.
Qed.

Lemma isdigit_numeral (n : nat) : Text.isdigit (numeral (S n)) = true.
Proof.
  pose proof (numeral_not_empty n) as H. unfold Text.isdigit.
  destruct (numeral (S n)) eqn:E; [discriminate | ].
  rewrite <- E. apply all_digits_numeral.
Qed.

Lemma number_designates (cats : list string) (i : nat) (c : string) :
  nth_error cats i = Some c ->
  (String.length (numeral (S i)) <= Text.MAX_STR_DIGITS)%nat ->
  designates cats (numeral (S i)) c.
Proof.
  intros Hn Hs. split; [apply numeral_not_empty | ]. left.
  split; [apply isdigit_numeral | ]. exists (Z.of_nat (S i)).
  split; [now apply int_numeral | ].
  split; [lia | ].
  replace (Z.to_nat (Z.of_nat (S i) - 1)) with i by lia. assumption.
Qed.

(** ** Dictionaries *)

Lemma dict_keys_set {V : Type} (k : string) (v : V) (d : Dict.t V) :
  incl (Dict.keys (Dict.set k v d)) (k :: Dict.keys d).
Proof.
  induction d as [ | [k' v'] d IH]; simpl.
  - apply incl_refl.
  - destruct (String.eqb k k') eqn:E; simpl.
    + apply String.eqb_eq in E. subst k'. apply incl_tl, incl_refl.
    + intros x [<- | Hx]; [right; now left | ].
      destruct (IH x Hx) as [<- | Hx']; [now left | right; now right].
Qed.

Lemma dict_keys_del {V : Type} (k x : string) (d : Dict.t V) :
  In x (Dict.keys (Dict.del k d)) <-> In x (Dict.keys d) /\ x <> k.
Proof.
  unfold Dict.keys, Dict.del. rewrite !in_map_iff. split.
  - intros ([k' v] & <- & Hin). apply filter_In in Hin as (Hin & Hk).
    simpl in *. split.
    + exists (k', v). now split.
    + intros ->. now rewrite String.eqb_refl in Hk.
  - intros (([k' v] & <- & Hin) & Hne). exists (k', v). split; [reflexivity | ].
    apply filter_In. split; [assumption | ]. simpl in *.
    destruct (String.eqb k k') eqn:E; [ | reflexivity].
    apply String.eqb_eq in E. congruence.
Qed.

Lemma dict_contains_keys {V : Type} (k : string) (d : Dict.t V) :
  Dict.contains k d = true <-> In k (Dict.keys d).
Proof.
  unfold Dict.contains. induction d as [ | [k' v] d IH]; simpl.
  - split; [discriminate | intros []].
  - destruct (String.eqb k k') eqn:E.
    + apply String.eqb_eq in E. subst. split; auto.
    + apply String.eqb_neq in E. rewrite IH. split; [auto | ].
      intros [H | H]; [congruence | assumption].
Qed.

Lemma dict_lookup_set_same {V : Type} (k : string) (v : V) (d : Dict.t V) :
  Dict.lookup k (Dict.set k v d) = Some v.
Proof.
  induction d as [ | [k' v'] d IH]; simpl.
  - now rewrite String.eqb_refl.
  - destruct (String.eqb k k') eqn:E; simpl.
    + now rewrite String.eqb_refl.
    + now rewrite E.
Qed.

Lemma dict_lookup_set_other {V : Type} (k k' : string) (v : V) (d : Dict.t V) :
  k' <> k -> Dict.lookup k' (Dict.set k v d) = Dict.lookup k' d.
Proof.
  intros Hne. induction d as [ | [k0 v0] d IH]; simpl.
  - apply String.eqb_neq in Hne. now rewrite Hne.
  - destruct (String.eqb k k0) eqn:E; simpl.
    + apply String.eqb_eq in E. subst k0.
      apply String.eqb_neq in Hne. now rewrite Hne.
    + now rewrite IH.
Qed.

(** ** Lists of categories *)

Lemma remove_first_In (x y : string) (xs : list string) :
  In y (Text.remove_first x xs) -> In y xs.
Proof.
  induction xs as [ | z xs IH]; simpl; [intros [] | ].
  destruct (String.eqb x z); simpl; [now right | ].
  intros [H | H]; [now left | right; now apply IH].
Qed.

Lemma remove_first_NoDup (x : string) (xs : list string) :
  NoDup xs -> NoDup (Text.remove_first x xs).
Proof.
  induction 1 as [ | z xs Hz Hnd IH]; simpl; [constructor | ].
  destruct (String.eqb x z); [assumption | ].
  constructor; [ | assumption].
  intros Hin. apply Hz. eapply remove_first_In; eassumption.
Qed.


Lemma remove_first_keeps (x y : string) (xs : list string) :
  y <> x -> In y xs -> In y (Text.remove_first x xs).
Proof.
  intros Hne. induction xs as [ | z xs IH]; simpl; [intros [] | ].
  destruct (String.eqb x z) eqn:E.
  - apply String.eqb_eq in E. subst z. intros [H | H]; [congruence | assumption].
  - simpl. intros [H | H]; [now left | right; now apply IH].
Qed.

(** ** Adding an expense *)

Lemma read_amount_valid (line : string) (amount : float) (rest : list string) :
  float_of_string line = Some amount ->
  (0 <? amount)%float = true ->
  read_amount (line :: rest) = (Some amount, rest).
Proof.
  intros Hparse Hpos. simpl. rewrite Hparse.
  now rewrite (positive_passes_guard amount Hpos).
Qed.

Lemma read_date_parsed (now date : DT.datetime) (line : string)
  (rest : list string) :
  Text.is_empty line = false ->
  strptime line = Some date ->
  read_date now (line :: rest) = (Some date, rest).
Proof.
  intros Hne Hparse. simpl. now rewrite Hne, Hparse.
Qed.

(** C1, amended.  For a positive amount, a category of the list and a
    well-formed date: the category is chosen at the prompt by its number
    (when [int] reads the numeral) or by its name, and however it is chosen,
    [add_expense] returns having read the three lines and nothing more,
    appends the one expense [(date, category, amount)], makes the balance the
    binary64 difference [balance - amount] (the rounded one: it can be the
    old balance), appends the one transaction
    [("Expense", date, category, amount)] to the history (which the
    operation then trims), and leaves the other fields alone. *)
Theorem add_expense_valid_input
  (now : DT.datetime) (s : calc)
  (amount_line date_line : string) (rest : list string)
  (amount : float) (category : string) (date : DT.datetime) :
  float_of_string amount_line = Some amount ->
  (0 <? amount)%float = true ->
  In category (categories s) ->
  Text.is_empty date_line = false ->
  strptime date_line = Some date ->
  (forall i,
      nth_error (categories s) i = Some category ->
      (String.length (numeral (S i)) <= Text.MAX_STR_DIGITS)%nat ->
      designates (categories s) (numeral (S i)) category)
  /\ forall category_line,
       designates (categories s) category_line category ->
       exists s',
         add_expense now (amount_line :: category_line :: date_line :: rest) s
         = Ret (s', rest)
         /\ expenses s' = expenses s ++ [(date, category, amount)]
         /\ balance s' = (balance s - amount)%float
         /\ transaction_history s'
            = trim (history_length s)
                   (transaction_history s
                    ++ [("Expense", date, category, amount)])
         /\ categories s' = categories s
         /\ history_length s' = history_length s
         /\ budget s' = budget s
         /\ budget_interval s' = budget_interval s
         /\ category_budgets s' = category_budgets s.
Proof.
  intros Hparse Hpos Hin Hne Hdate.
  split; [intros i Hi Hs; now apply number_designates | ].
  intros category_line Hcat.
  exists (record_expense date category amount s).
  unfold add_expense.
  rewrite (read_amount_valid _ _ _ Hparse Hpos).
  rewrite (read_category_designated _ _ _ _ Hcat).
  rewrite (read_date_parsed now _ _ _ Hne Hdate).
  repeat split.
Qed.

(** C10. An empty line at the date prompt is neither an error nor asked
    again: the third line ends the dialogue, and the expense is recorded with
    the current date-time as its date. *)
Theorem add_expense_empty_date_is_now
  (now : DT.datetime) (s : calc)
  (amount_line category_line : string) (rest : list string)
  (amount : float) (category : string) :
  float_of_string amount_line = Some amount ->
  (0 <? amount)%float = true ->
  designates (categories s) category_line category ->
  add_expense now (amount_line :: category_line :: "" :: rest) s
  = Ret (record_expense now category amount s, rest)
  /\ expenses (record_expense now category amount s)
     = expenses s ++ [(now, category, amount)]
  /\ read_date now ("" :: rest) = (Some now, rest).
Proof.
  intros Hparse Hpos Hcat. unfold add_expense.
  rewrite (read_amount_valid _ _ _ Hparse Hpos).
  rewrite (read_category_designated _ _ _ _ Hcat).
  repeat split.
Qed.

(** ** The data file *)

(** C2. When the file can be written, [save_data] followed by [load_data]
    (into any calculator) gives the seven persisted fields the values they
    had when saved. *)
Theorem save_then_load (s loaded_into : calc) (fs : filesystem blob) :
  pickle_round_trip ->
  writable fs = true ->
  let s' := load_data loaded_into (save_data s fs) in
  expenses s' = expenses s
  /\ categories s' = categories s
  /\ balance s' = balance s
  /\ transaction_history s' = transaction_history s
  /\ budget s' = budget s
  /\ budget_interval s' = budget_interval s
  /\ category_budgets s' = category_budgets s.
Proof.
  intros Hrt Hw. unfold load_data, save_data. rewrite Hw. simpl.
  rewrite Hrt. simpl. repeat split.
Qed.

(** ** Clearing all data *)

Lemma clear_all_data_asks_again (junk : list string) (inp : list string)
  (s : calc) (fs : filesystem blob) :
  Forall unclear junk ->
  clear_all_data (junk ++ inp) s fs = clear_all_data inp s fs.
Proof.
  induction 1 as [ | line junk [Hyes Hno] _ IH]; simpl; [reflexivity | ].
  apply String.eqb_neq in Hyes, Hno. now rewrite Hyes, Hno.
Qed.


(** C7. When the answer is "no" (in any letter case, after any number of
    answers that are neither "yes" nor "no"), [clear_all_data] returns the
    calculator and the data file exactly as they were. *)
Theorem clear_all_data_no
  (junk : list string) (line : string) (rest : list string)
  (s : calc) (fs : filesystem blob) :
  Forall unclear junk ->
  Text.lower line = "no" ->
  clear_all_data (junk ++ line :: rest) s fs = Ret (s, fs, rest).
Proof.
  intros Hjunk Hno.
  rewrite (clear_all_data_asks_again junk _ s fs Hjunk). simpl.
  rewrite Hno. reflexivity.
Qed.

(** ** What every operation keeps *)

Lemma trim_length (limit : nat) (h : list transaction) (t : transaction) :
  (List.length h <= limit)%nat ->
  (List.length (trim limit (h ++ [t])) <= limit)%nat.
Proof.
  intros Hle. unfold trim.
  destruct (Nat.ltb limit (List.length (h ++ [t]))) eqn:E.
  - destruct h as [ | x h]; simpl in *; [lia | ].
    rewrite length_app. simpl. lia.
  - apply Nat.ltb_ge in E. assumption.
Qed.

(** First in, first out: a full history loses its head to the new entry. *)
Lemma trim_full (limit : nat) (h : list transaction) (t : transaction) :
  (0 < limit)%nat ->
  List.length h = limit -> trim limit (h ++ [t]) = tl h ++ [t].
Proof.
  intros Hpos Hlen. unfold trim.
  replace (Nat.ltb limit (List.length (h ++ [t]))) with true.
  - destruct h as [ | x h]; simpl in *; [lia | reflexivity].
  - symmetry. apply Nat.ltb_lt. rewrite length_app. simpl. lia.
Qed.

Lemma trim_room (limit : nat) (h : list transaction) (t : transaction) :
  (List.length h < limit)%nat -> trim limit (h ++ [t]) = h ++ [t].
Proof.
  intros Hlen. unfold trim.
  replace (Nat.ltb limit (List.length (h ++ [t]))) with false; [reflexivity | ].
  symmetry. apply Nat.ltb_ge. rewrite length_app. simpl. lia.
Qed.

Lemma record_expense_ok (date : DT.datetime) (category : string)
  (amount : float) (s : calc) :
  calc_ok s -> calc_ok (record_expense date category amount s).
Proof.
  intros [Hl Hh Hc Hk]. constructor; simpl; try assumption.
  now apply trim_length.
Qed.

Lemma record_deposit_ok (now : DT.datetime) (amount : float) (s : calc) :
  calc_ok s -> calc_ok (record_deposit now amount s).
Proof.
  intros [Hl Hh Hc Hk]. constructor; simpl; try assumption.
  now apply trim_length.
Qed.

Lemma add_expense_ok (now : DT.datetime) (inp : list string) (s : calc) :
  calc_ok s -> calc_ok (state_after (add_expense now inp s) s).
Proof.
  intros Hok. unfold add_expense.
  destruct (read_amount inp) as [[amount | ] rest]; [ | assumption].
  destruct (read_category (categories s) rest) as [[[category | ] rest'] | e];
    [ | assumption | assumption].
  destruct (read_date now rest') as [[date | ] rest'']; [ | assumption].
  now apply record_expense_ok.
Qed.

Lemma add_money_ok (now : DT.datetime) (inp : list string) (s : calc) :
  calc_ok s -> calc_ok (fst (add_money now inp s)).
Proof.
  intros Hok. induction inp as [ | line inp IH]; simpl; [assumption | ].
  destruct (float_of_string line) as [amount | ]; [ | assumption].
  destruct (amount <=? 0)%float; [assumption | ].
  now apply record_deposit_ok.
Qed.

Lemma set_budget_ok (inp : list string) (s : calc) :
  calc_ok s -> calc_ok (fst (set_budget inp s)).
Proof.
  intros Hok. induction inp as [ | line inp IH]; simpl; [assumption | ].
  destruct (float_of_string line) as [b | ]; [ | assumption].
  destruct (b <=? 0)%float; [assumption | ].
  destruct Hok. now constructor.
Qed.

Lemma set_budget_interval_ok (inp : list string) (s : calc) :
  calc_ok s -> calc_ok (fst (set_budget_interval inp s)).
Proof.
  intros Hok. induction inp as [ | line inp IH]; [assumption | ].
  cbn -[Text.mem Text.title budget_intervals].
  destruct (negb (Text.mem (Text.title line) budget_intervals));
    [assumption | ].
  destruct Hok. now constructor.
Qed.

Lemma read_category_budget_ok (category : string) (inp : list string) (s : calc) :
  In category (categories s) ->
  calc_ok s -> calc_ok (fst (read_category_budget category inp s)).
Proof.
  intros Hin Hok. induction inp as [ | line inp IH]; simpl; [assumption | ].
  destruct (float_of_string line) as [b | ]; [ | assumption].
  destruct (b <=? 0)%float; [assumption | ].
  destruct Hok as [Hl Hh Hc Hk]. constructor; simpl; try assumption.
  intros k Hk'. apply dict_keys_set in Hk' as [<- | Hk']; auto.
Qed.

Lemma set_category_budget_ok (inp : list string) (s : calc) :
  calc_ok s -> calc_ok (state_after (set_category_budget inp s) s).
Proof.
  intros Hok. unfold set_category_budget.
  destruct (read_category (categories s) inp)
    as [[[category | ] rest] | e] eqn:E; [ | assumption | assumption].
  pose proof (read_category_budget_ok category rest s) as H.
  destruct (read_category_budget category rest s) as [s' rest'].
  apply H; [ | assumption].
  eapply read_category_In; eassumption.
Qed.

Lemma add_category_ok (inp : list string) (s : calc) :
  calc_ok s -> calc_ok (fst (add_category inp s)).
Proof.
  intros Hok. induction inp as [ | line inp IH]; simpl; [assumption | ].
  destruct (Text.is_empty line); [assumption | ].
  destruct (Text.mem line (categories s)) eqn:E; [assumption | ].
  apply mem_false in E.
  destruct Hok as [Hl Hh Hc Hk]. constructor; simpl; try assumption.
  - apply (Permutation_NoDup (l := line :: categories s)).
    + apply Permutation_cons_append.
    + now constructor.
  - intros k Hk'. apply in_or_app.
    apply dict_keys_set in Hk' as [<- | Hk']; [right; now left | left; auto].
Qed.

Lemma delete_category_ok (inp : list string) (s : calc) :
  calc_ok s -> calc_ok (fst (delete_category inp s)).
Proof.
  intros Hok. induction inp as [ | line inp IH]; simpl; [assumption | ].
  destruct (Text.is_empty line); [assumption | ].
  destruct (negb (Text.mem line (categories s))); [assumption | ].
  destruct Hok as [Hl Hh Hc Hk]. constructor; simpl; try assumption.
  - now apply remove_first_NoDup.
  - intros k Hk'.
    destruct (Dict.contains line (category_budgets s)) eqn:E.
    + apply dict_keys_del in Hk' as (Hk' & Hne).
      apply remove_first_keeps; auto.
    + assert (Hne : k <> line).
      { intros ->. apply dict_contains_keys in Hk'. congruence. }
      apply remove_first_keeps; auto.
Qed.

Lemma cleared_ok (s : calc) : calc_ok s -> calc_ok (cleared s).
Proof.
  intros [Hl Hh Hc Hk]. constructor; simpl; try assumption.
  - lia.
  - intros k [].
Qed.

Lemma save_data_ok (s : calc) (fs : filesystem blob) :
  calc_ok s -> file_ok fs -> file_ok (save_data s fs).
Proof.
  intros Hok Hfs. unfold save_data.
  destruct (writable fs); [ | assumption].
  intros b [= <-]. exists s. now split.
Qed.

Lemma clear_all_data_ok (inp : list string) (s : calc) (fs : filesystem blob)
  (s' : calc) (fs' : filesystem blob) (rest : list string) :
  clear_all_data inp s fs = Ret (s', fs', rest) ->
  world_ok (s, fs) -> world_ok (s', fs').
Proof.
  intros Hrun [Hok Hfs]. simpl in *.
  induction inp as [ | line inp IH]; simpl in Hrun; [discriminate | ].
  destruct (String.eqb (Text.lower line) "yes").
  - injection Hrun as <- <- _. split; simpl.
    + now apply cleared_ok.
    + apply save_data_ok; [now apply cleared_ok | assumption].
  - destruct (String.eqb (Text.lower line) "no").
    + injection Hrun as <- <- _. now split.
    + now apply IH.
Qed.

Lemma initialize_keys (cats : list string) (d : Dict.t float) (bound : list string) :
  incl cats bound -> incl (Dict.keys d) bound ->
  incl (Dict.keys
          (fold_left
             (fun d category =>
                if Dict.contains category d then d
                else Dict.set category 0%float d)
             cats d))
       bound.
Proof.
  revert d. induction cats as [ | c cats IH]; intros d Hc Hd; simpl;
    [assumption | ].
  apply IH.
  - intros x Hx. apply Hc. now right.
  - destruct (Dict.contains c d); [assumption | ].
    intros k Hk. apply dict_keys_set in Hk as [<- | Hk]; auto.
    apply Hc. now left.
Qed.

Lemma initialize_category_budgets_ok (s : calc) :
  calc_ok s -> calc_ok (initialize_category_budgets s).
Proof.
  intros [Hl Hh Hc Hk]. constructor; simpl; try assumption.
  apply initialize_keys; [apply incl_refl | assumption].
Qed.

Lemma fresh_ok : calc_ok fresh.
Proof.
  constructor; simpl.
  - reflexivity.
  - lia.
  - unfold default_categories.
    repeat (constructor;
            [simpl; intros H; repeat destruct H as [H | H];
             try discriminate H; exact H | ]).
    constructor.
  - intros k [].
Qed.

Lemma init_ok (fs : filesystem blob) :
  pickle_round_trip -> file_ok fs -> calc_ok (init fs).
Proof.
  intros Hrt Hfs. unfold init. apply initialize_category_budgets_ok.
  unfold load_data. destruct (file fs) as [b | ] eqn:E; [ | apply fresh_ok].
  destruct (Hfs b E) as (s0 & [Hl Hh Hc Hk] & ->).
  rewrite Hrt. simpl. constructor; simpl; try assumption; try reflexivity.
  now rewrite <- Hl.
Qed.

Lemma step_ok (w w' : world) :
  pickle_round_trip -> step w w' -> world_ok w -> world_ok w'.
Proof.
  intros Hrt Hstep. destruct Hstep; intros [Hok Hfs]; simpl in *.
  - split; [now apply add_expense_ok | assumption].
  - split; [now apply add_money_ok | assumption].
  - split; [now apply set_budget_ok | assumption].
  - split; [now apply set_category_budget_ok | assumption].
  - split; [now apply set_budget_interval_ok | assumption].
  - split; [now apply add_category_ok | assumption].
  - split; [now apply delete_category_ok | assumption].
  - eapply clear_all_data_ok; [eassumption | now split].
  - split; [assumption | now apply save_data_ok].
  - split; [now apply init_ok | assumption].
  - split; [assumption | ]. intros b Hb. simpl in Hb. now apply Hfs.
Qed.

Lemma reachable_ok (w : world) :
  pickle_round_trip -> reachable w -> world_ok w.
Proof.
  intros Hrt. induction 1 as [[s fs] [Hfile Hinit] | w w' _ IH Hstep].
  - simpl in *. assert (Hfs : file_ok fs).
    { intros b Hb. congruence. }
    split; simpl; [ | assumption]. subst s. now apply init_ok.
  - eapply step_ok; eassumption.
Qed.

(** ** The bounded history *)

Lemma trim_is_fifo (limit : nat) (h : list transaction) (t : transaction) :
  (0 < limit)%nat -> (List.length h <= limit)%nat ->
  trim limit (h ++ [t]) = fifo_push limit h t.
Proof.
  intros Hpos Hle. unfold fifo_push.
  destruct (Nat.ltb (List.length h) limit) eqn:E.
  - apply Nat.ltb_lt in E. now apply trim_room.
  - apply Nat.ltb_ge in E. apply trim_full; lia.
Qed.

(** A date prompt's line that is accepted: empty for the current date-time,
    or a date that [strptime] reads. *)
Definition dated_by (now : DT.datetime) (line : string) (date : DT.datetime)
  : Prop :=
  (line = "" /\ date = now)
  \/ (Text.is_empty line = false /\ strptime line = Some date).

Lemma read_date_dated_by (now date : DT.datetime) (line : string)
  (rest : list string) :
  dated_by now line date -> read_date now (line :: rest) = (Some date, rest).
Proof.
  intros [[-> ->] | [Hne Hparse]]; [reflexivity | ].
  now apply read_date_parsed.
Qed.

Lemma add_expense_accepted
  (now : DT.datetime) (s : calc)
  (amount_line category_line date_line : string) (rest : list string)
  (amount : float) (category : string) (date : DT.datetime) :
  float_of_string amount_line = Some amount ->
  (amount <=? 0)%float = false ->
  designates (categories s) category_line category ->
  dated_by now date_line date ->
  add_expense now (amount_line :: category_line :: date_line :: rest) s
  = Ret (record_expense date category amount s, rest).
Proof.
  intros Hparse Hpos Hcat Hdate. unfold add_expense.
  cbn [read_amount]. rewrite Hparse, Hpos.
  rewrite (read_category_designated _ _ _ _ Hcat).
  now rewrite (read_date_dated_by now date _ _ Hdate).
Qed.

Lemma add_money_accepted
  (now : DT.datetime) (s : calc) (line : string) (rest : list string)
  (amount : float) :
  float_of_string line = Some amount ->
  (amount <=? 0)%float = false ->
  add_money now (line :: rest) s = (record_deposit now amount s, rest).
Proof.
  intros Hparse Hpos. cbn [add_money]. now rewrite Hparse, Hpos.
Qed.

(** C3. In every world reached from the first run, the bound is 5 and the
    history holds at most 5 transactions; and each accepted entry of
    [add_expense] and of [add_money] (a number that passes the guard, a
    category chosen at the prompt, a date that is read) appends its one
    transaction first-in first-out: after the others while fewer than 5 are
    held, and after all but the oldest, the head of the list, which is
    dropped, once 5 are held. *)
Theorem history_bounded_fifo (w : world) :
  pickle_round_trip ->
  reachable w ->
  history_length (fst w) = 5%nat
  /\ (List.length (transaction_history (fst w)) <= 5)%nat
  /\ (forall now amount_line category_line date_line rest amount category date,
        float_of_string amount_line = Some amount ->
        (amount <=? 0)%float = false ->
        designates (categories (fst w)) category_line category ->
        dated_by now date_line date ->
        exists s',
          add_expense now (amount_line :: category_line :: date_line :: rest)
                      (fst w)
          = Ret (s', rest)
          /\ ((List.length (transaction_history (fst w)) < 5)%nat ->
              transaction_history s'
              = transaction_history (fst w)
                ++ [("Expense", date, category, amount)])
          /\ (List.length (transaction_history (fst w)) = 5%nat ->
              transaction_history s'
              = tl (transaction_history (fst w))
                ++ [("Expense", date, category, amount)]))
  /\ (forall now line rest amount,
        float_of_string line = Some amount ->
        (amount <=? 0)%float = false ->
        exists s',
          add_money now (line :: rest) (fst w) = (s', rest)
          /\ ((List.length (transaction_history (fst w)) < 5)%nat ->
              transaction_history s'
              = transaction_history (fst w)
                ++ [("Deposit", now, "Deposit", amount)])
          /\ (List.length (transaction_history (fst w)) = 5%nat ->
              transaction_history s'
              = tl (transaction_history (fst w))
                ++ [("Deposit", now, "Deposit", amount)])).
Proof.
  intros Hrt Hreach. destruct (reachable_ok w Hrt Hreach) as [Hok _].
  destruct Hok as [Hl Hh _ _].
  split; [assumption | ]. split; [now rewrite <- Hl | ]. split.
  - intros now amount_line category_line date_line rest amount category date
           Hparse Hpos Hcat Hdate.
    exists (record_expense date category amount (fst w)).
    split; [now apply add_expense_accepted | ].
    cbn [record_expense transaction_history]. rewrite Hl.
    split; intros H; [now apply trim_room | apply trim_full; [lia | exact H]].
  - intros now line rest amount Hparse Hpos.
    exists (record_deposit now amount (fst w)).
    split; [now apply add_money_accepted | ].
    cbn [record_deposit transaction_history]. rewrite Hl.
    split; intros H; [now apply trim_room | apply trim_full; [lia | exact H]].
Qed.

(** ** Category budgets *)

(** C9. In every world reached from the first run (the initialisation, then
    any operations, saves and new runs), each key of [category_budgets] is a
    category of the list; hence no operation, [add_category],
    [delete_category], [set_category_budget] and [clear_all_data] among them,
    leads out of that. *)
Theorem budget_keys_within_categories (w : world) :
  pickle_round_trip ->
  reachable w ->
  incl (Dict.keys (category_budgets (fst w))) (categories (fst w))
  /\ forall w', step w w' ->
       incl (Dict.keys (category_budgets (fst w'))) (categories (fst w')).
Proof.
  intros Hrt Hreach. split.
  - apply (reachable_ok w Hrt Hreach).
  - intros w' Hstep.
    apply (step_ok w w' Hrt Hstep (reachable_ok w Hrt Hreach)).
Qed.

(** ** Deleting a category *)

Lemma weekday_range (d : DT.datetime) : 0 <= DT.weekday d <= 6.
Proof.
  unfold DT.weekday.
  pose proof (Z.mod_pos_bound (DT.toordinal d + 6) 7). lia.
Qed.

Lemma sub_days_defined (d : DT.datetime) (n : Z) :
  0 < DT.toordinal d - n <= DT.MAXORDINAL ->
  exists r, DT.sub_days d n = Some r.
Proof.
  intros [Hlo Hhi]. unfold DT.sub_days.
  replace ((0 <? DT.toordinal d - n) && (DT.toordinal d - n <=? DT.MAXORDINAL))
    with true.
  - destruct (DT.ord2ymd (DT.toordinal d - n)) as [[y m] dd]. eauto.
  - symmetry. apply andb_true_iff.
    split; [now apply Z.ltb_lt | now apply Z.leb_le].
Qed.

Lemma interval_start_returns (interval : string) (now : DT.datetime) :
  14 <= DT.toordinal now <= DT.MAXORDINAL ->
  interval_start interval now = None
  \/ exists label start, interval_start interval now = Some (label, Ret start).
Proof.
  intros Hnow. pose proof (weekday_range now) as Hw. unfold interval_start.
  destruct (String.eqb (Text.lower interval) "month"); [right; eauto | ].
  destruct (String.eqb (Text.lower interval) "year"); [right; eauto | ].
  destruct (String.eqb (Text.lower interval) "day"); [right; eauto | ].
  destruct (String.eqb (Text.lower interval) "week").
  { right. destruct (sub_days_defined now (DT.weekday now)) as [r ->];
      [lia | eauto]. }
  destruct (String.eqb (Text.lower interval) "bi-weekly"); [ | now left].
  right.
  match goal with
  | |- context [DT.sub_days now ?n] =>
      destruct (sub_days_defined now n) as [r ->]; [ | eauto]
  end.
  destruct (negb _); lia.
Qed.

Lemma display_status_returns (now : DT.datetime) (s : calc) :
  14 <= DT.toordinal now <= DT.MAXORDINAL ->
  exists report, display_status now s = Ret report.
Proof.
  intros Hnow. unfold display_status.
  destruct (0 <? budget s)%float; [ | eauto].
  destruct (interval_start_returns (budget_interval s) now Hnow)
    as [-> | (label & start & ->)]; eauto.
Qed.




(** ** More of the dialogues

    What follows covers the operations beyond the statements above: what
    each dialogue accepts, what it asks again about, and what it leaves
    alone. *)

(** [rest] is what is left of [inp] after some lines were read. *)
Definition suffix (rest inp : list string) : Prop :=
  exists read, inp = read ++ rest.

(** A line the amount prompts ask again about: [float] rejects it, or the
    number is zero or negative. *)
Definition bad_amount (line : string) : Prop :=
  float_of_string line = None
  \/ exists a, float_of_string line = Some a /\ (a <=? 0)%float = true.

(** A line the category prompt asks again about: a number that [int] reads
    and that is outside the list, or an ASCII text that is no category; an
    empty line gives up instead, and a number of more digits than [int]
    reads raises. *)
Definition bad_category (cats : list string) (line : string) : Prop :=
  Text.is_empty line = false
  /\ ((Text.isdigit line = true
       /\ exists number,
            Text.int line = Some number
            /\ category_at cats (number - 1) = None)
      \/ (Text.isdigit line = false
          /\ Text.is_ascii line = true
          /\ Text.mem line cats = false)).

(** A line the category prompt raises [ValueError] on. *)
Definition too_long_number (line : string) : Prop :=
  Text.isdigit line = true
  /\ (Text.MAX_STR_DIGITS < String.length line)%nat.

(** A line the date prompt asks again about. *)
Definition bad_date (line : string) : Prop :=
  Text.is_empty line = false /\ strptime line = None.

Lemma suffix_refl (inp : list string) : suffix inp inp.
Proof. now exists []. Qed.

Lemma suffix_nil (inp : list string) : suffix [] inp.
Proof. exists inp. now rewrite app_nil_r. Qed.

Lemma suffix_cons (line : string) (rest inp : list string) :
  suffix rest inp -> suffix rest (line :: inp).
Proof. intros [read ->]. now exists (line :: read). Qed.

Lemma suffix_trans (a b c : list string) :
  suffix a b -> suffix b c -> suffix a c.
Proof.
  intros [r1 ->] [r2 ->]. exists (r2 ++ r1). now rewrite app_assoc.
Qed.


Lemma suffix_length (rest inp : list string) :
  suffix rest inp -> (List.length rest <= List.length inp)%nat.
Proof. intros [read ->]. rewrite length_app. lia. Qed.

Lemma suffix_Forall (P : string -> Prop) (rest inp : list string) :
  suffix rest inp -> Forall P inp -> Forall P rest.
Proof. intros [read ->] H. now apply Forall_app in H as [_ H]. Qed.

(** *** Floats that pass the guard [amount <= 0] *)

Lemma guard_passed (a : float) :
  (a <=? 0)%float = false ->
  (0 <? a)%float = true \/ PrimFloat.is_nan a = true.
Proof.
  unfold PrimFloat.is_nan. rewrite ltb_spec, leb_spec, eqb_spec.
  unfold SFltb, SFleb, SFeqb.
  change (Prim2SF 0) with (S754_zero false).
  destruct (Prim2SF a) as [sg | [ | ] | | [ | ] m e]; simpl;
    try discriminate; auto.
Qed.

Lemma SFcompare_refl (x : spec_float) :
  x <> S754_nan -> SFcompare x x = Some Eq.
Proof.
  destruct x as [sg | [ | ] | | [ | ] m e]; simpl; try reflexivity;
    try congruence; intros _;
    rewrite Z.compare_refl, Pos.compare_cont_refl; reflexivity.
Qed.

(** There is one not-a-number. *)
Lemma is_nan_eq (a : float) : PrimFloat.is_nan a = true -> a = nan.
Proof.
  unfold PrimFloat.is_nan. rewrite eqb_spec. unfold SFeqb. intros H.
  assert (Hnan : Prim2SF a = S754_nan).
  { destruct (Prim2SF a) eqn:E; try reflexivity;
      rewrite SFcompare_refl in H by discriminate; discriminate. }
  rewrite <- (SF2Prim_Prim2SF a), Hnan. reflexivity.
Qed.

Lemma nan_passes_guard : (nan <=? 0)%float = false.
Proof. reflexivity. Qed.

Lemma sub_nan (x : float) : (x - nan)%float = nan.
Proof.
  rewrite <- (SF2Prim_Prim2SF (x - nan)), sub_spec.
  change (Prim2SF nan) with S754_nan.
  unfold SF64sub. destruct (Prim2SF x) as [sg | sg | | sg m e]; reflexivity.
Qed.

(** *** [add_expense] *)

Lemma read_amount_some (inp : list string) (a : float) (rest : list string) :
  read_amount inp = (Some a, rest) ->
  suffix rest inp
  /\ (a <=? 0)%float = false
  /\ exists line, In line inp /\ float_of_string line = Some a.
Proof.
  induction inp as [ | line inp IH]; simpl; [discriminate | ].
  destruct (float_of_string line) as [amount | ] eqn:E.
  - destruct (amount <=? 0)%float eqn:G.
    + intros H. destruct (IH H) as (Hs & Hg & l & Hl & Hp).
      split; [now apply suffix_cons | ]. split; [assumption | ].
      exists l. split; [now right | assumption].
    + intros [= <- <-]. split; [apply suffix_cons, suffix_refl | ].
      split; [assumption | ]. exists line. split; [now left | assumption].
  - intros H. destruct (IH H) as (Hs & Hg & l & Hl & Hp).
    split; [now apply suffix_cons | ]. split; [assumption | ].
    exists l. split; [now right | assumption].
Qed.

Lemma read_amount_none (inp rest : list string) :
  read_amount inp = (None, rest) -> rest = [].
Proof.
  induction inp as [ | line inp IH]; simpl; [now intros [= <-] | ].
  destruct (float_of_string line) as [amount | ]; [ | assumption].
  destruct (amount <=? 0)%float; [assumption | discriminate].
Qed.

Lemma read_category_suffix (cats inp : list string) (r : option string)
  (rest : list string) :
  read_category cats inp = Ret (r, rest) -> suffix rest inp.
Proof.
  induction inp as [ | line inp IH]; cbn [read_category].
  - intros [= _ <-]. apply suffix_refl.
  - destruct (Text.is_empty line).
    { intros [= _ <-]. apply suffix_cons, suffix_refl. }
    destruct (Text.isdigit line).
    + destruct (Text.int line) as [n | ]; [ | discriminate].
      destruct (category_at cats (n - 1)).
      * intros [= _ <-]. apply suffix_cons, suffix_refl.
      * intros H. now apply suffix_cons, IH.
    + destruct (Text.mem line cats).
      * intros [= _ <-]. apply suffix_cons, suffix_refl.
      * intros H. now apply suffix_cons, IH.
Qed.

Lemma too_long_not_empty (line : string) :
  (Text.MAX_STR_DIGITS < String.length line)%nat -> Text.is_empty line = false.
Proof. destruct line; [cbn; lia | reflexivity]. Qed.

Lemma read_category_too_long (cats : list string) (line : string)
  (rest : list string) :
  too_long_number line -> read_category cats (line :: rest) = Raise ValueError.
Proof.
  intros [Hd Hlong]. cbn [read_category].
  now rewrite (too_long_not_empty _ Hlong), Hd, (int_long _ Hlong).
Qed.


Lemma read_date_some (now : DT.datetime) (inp : list string)
  (date : DT.datetime) (rest : list string) :
  read_date now inp = (Some date, rest) ->
  suffix rest inp
  /\ (date = now \/ exists line, In line inp /\ strptime line = Some date).
Proof.
  induction inp as [ | line inp IH]; simpl; [discriminate | ].
  destruct (Text.is_empty line).
  { intros [= <- <-]. split; [apply suffix_cons, suffix_refl | now left]. }
  destruct (strptime line) as [d | ] eqn:E.
  - intros [= <- <-]. split; [apply suffix_cons, suffix_refl | ].
    right. exists line. split; [now left | assumption].
  - intros H. destruct (IH H) as (Hs & Hd).
    split; [now apply suffix_cons | ].
    destruct Hd as [-> | (l & Hl & Hp)]; [now left | ].
    right. exists l. split; [now right | assumption].
Qed.

Lemma read_date_none (now : DT.datetime) (inp rest : list string) :
  read_date now inp = (None, rest) -> rest = [].
Proof.
  induction inp as [ | line inp IH]; simpl; [now intros [= <-] | ].
  destruct (Text.is_empty line); [discriminate | ].
  destruct (strptime line); [discriminate | assumption].
Qed.


Lemma read_amount_skips (junk inp : list string) :
  Forall bad_amount junk -> read_amount (junk ++ inp) = read_amount inp.
Proof.
  induction 1 as [ | line junk [Hnone | (a & Ha & Hle)] _ IH]; simpl;
    [reflexivity | now rewrite Hnone | now rewrite Ha, Hle].
Qed.

Lemma read_category_skips (cats junk inp : list string) :
  Forall (bad_category cats) junk ->
  read_category cats (junk ++ inp) = read_category cats inp.
Proof.
  induction 1 as [ | line junk (Hne & [(Hd & n & Hi & Hn) | (Hd & _ & Hm)]) _ IH];
    cbn [read_category app];
    [reflexivity | now rewrite Hne, Hd, Hi, Hn | now rewrite Hne, Hd, Hm].
Qed.

Lemma read_date_skips (now : DT.datetime) (junk inp : list string) :
  Forall bad_date junk -> read_date now (junk ++ inp) = read_date now inp.
Proof.
  induction 1 as [ | line junk (Hne & Hp) _ IH]; simpl;
    [reflexivity | now rewrite Hne, Hp].
Qed.

(** X2. The prompts of [add_expense] ask again until the answer is
    acceptable: rejected amounts (not a number, zero, negative) before an
    accepted amount, rejected categories (a number that [int] reads and that
    is outside the list, an unknown ASCII name) before an accepted category,
    and rejected dates before the next answer change nothing: the dialogue
    ends as it does without them. *)
Theorem add_expense_asks_again
  (now : DT.datetime) (s : calc)
  (bad_amounts bad_categories bad_dates : list string)
  (amount_line category_line : string) (amount : float) (category : string)
  (rest : list string) :
  Forall bad_amount bad_amounts ->
  float_of_string amount_line = Some amount ->
  (amount <=? 0)%float = false ->
  Forall (bad_category (categories s)) bad_categories ->
  designates (categories s) category_line category ->
  Forall bad_date bad_dates ->
  add_expense now
    (bad_amounts ++ amount_line :: bad_categories ++ category_line
       :: bad_dates ++ rest) s
  = add_expense now (amount_line :: category_line :: rest) s.
Proof.
  intros Hba Hparse Hg Hbc Hcat Hbd. unfold add_expense.
  rewrite (read_amount_skips _ _ Hba). simpl read_amount.
  rewrite Hparse, Hg.
  rewrite (read_category_skips _ _ _ Hbc).
  rewrite !(read_category_designated _ _ _ _ Hcat).
  now rewrite (read_date_skips now _ _ Hbd).
Qed.

(** X3. The amount prompt accepts not-a-number: the test [amount <= 0] is
    false for it.  The expense is recorded with that amount and the balance
    becomes not-a-number. *)
Theorem add_expense_accepts_nan
  (now : DT.datetime) (s : calc)
  (amount_line category_line date_line : string) (rest : list string)
  (category : string) (date : DT.datetime) :
  float_of_string amount_line = Some nan ->
  designates (categories s) category_line category ->
  Text.is_empty date_line = false ->
  strptime date_line = Some date ->
  exists s',
    add_expense now (amount_line :: category_line :: date_line :: rest) s
    = Ret (s', rest)
    /\ expenses s' = expenses s ++ [(date, category, nan)]
    /\ balance s' = nan
    /\ PrimFloat.is_nan (balance s') = true.
Proof.
  intros Hparse Hcat Hne Hdate.
  exists (record_expense date category nan s). unfold add_expense.
  simpl read_amount. rewrite Hparse, nan_passes_guard.
  rewrite (read_category_designated _ _ _ _ Hcat).
  rewrite (read_date_parsed now _ _ _ Hne Hdate).
  simpl. rewrite sub_nan. repeat split.
Qed.

(** *** [add_money], [set_budget], [set_category_budget] *)

Lemma add_money_skips (now : DT.datetime) (junk inp : list string) (s : calc) :
  Forall bad_amount junk -> add_money now (junk ++ inp) s = add_money now inp s.
Proof.
  induction 1 as [ | line junk [Hnone | (a & Ha & Hle)] _ IH];
    cbn [add_money app];
    [reflexivity | now rewrite Hnone | now rewrite Ha, Hle].
Qed.

(** X4. [add_money] asks again about every line that is not a number or is
    a number [<= 0].  When the input ends after such lines the calculator is
    as it was.  With the first line that is a number not [<= 0] it returns
    having read up to that line: the balance is the old balance plus that
    amount, the history gets the one entry
    [("Deposit", now, "Deposit", amount)] (and is then trimmed), and no other
    field changes. *)
Theorem add_money_outcome (now : DT.datetime) (s : calc) :
  (forall junk,
      Forall bad_amount junk -> add_money now junk s = (s, []))
  /\ (forall junk line rest amount,
        Forall bad_amount junk ->
        float_of_string line = Some amount ->
        (amount <=? 0)%float = false ->
        exists s',
          add_money now (junk ++ line :: rest) s = (s', rest)
          /\ balance s' = (balance s + amount)%float
          /\ transaction_history s'
             = trim (history_length s)
                    (transaction_history s
                     ++ [("Deposit", now, "Deposit", amount)])
          /\ expenses s' = expenses s
          /\ categories s' = categories s
          /\ history_length s' = history_length s
          /\ budget s' = budget s
          /\ budget_interval s' = budget_interval s
          /\ category_budgets s' = category_budgets s).
Proof.
  split.
  - intros junk Hjunk.
    rewrite <- (app_nil_r junk), (add_money_skips now junk [] s Hjunk).
    reflexivity.
  - intros junk line rest amount Hjunk Hparse Hg.
    exists (record_deposit now amount s).
    rewrite (add_money_skips now junk _ s Hjunk).
    rewrite (add_money_accepted now s line rest amount Hparse Hg).
    repeat split.
Qed.

Lemma set_budget_skips (junk inp : list string) (s : calc) :
  Forall bad_amount junk -> set_budget (junk ++ inp) s = set_budget inp s.
Proof.
  induction 1 as [ | line junk [Hnone | (a & Ha & Hle)] _ IH];
    cbn [set_budget app];
    [reflexivity | now rewrite Hnone | now rewrite Ha, Hle].
Qed.

Lemma read_category_budget_skips (category : string) (junk inp : list string)
  (s : calc) :
  Forall bad_amount junk ->
  read_category_budget category (junk ++ inp) s
  = read_category_budget category inp s.
Proof.
  induction 1 as [ | line junk [Hnone | (a & Ha & Hle)] _ IH];
    cbn [read_category_budget app];
    [reflexivity | now rewrite Hnone | now rewrite Ha, Hle].
Qed.

(** X5. The two budget dialogues change nothing but the budget they are
    about, and what they store is the number typed.  [set_budget] asks again
    about every line that is not a number or is a number [<= 0], leaves the
    calculator when the input ends after such lines, and with the first line
    that is a number not [<= 0] makes that number the budget.
    [set_category_budget] asks again about the rejected categories; it leaves
    the calculator on an empty line and at the end of the input, raises
    [ValueError] on a number of more digits than [int] reads, and after a
    line that chooses a category it asks for the amount as [set_budget] does
    and gives that category the number typed, the budgets of the other
    categories and every other field staying as they were. *)
Theorem budget_setters_outcome (s : calc) :
  (forall junk, Forall bad_amount junk -> set_budget junk s = (s, []))
  /\ (forall junk line rest b,
        Forall bad_amount junk ->
        float_of_string line = Some b ->
        (b <=? 0)%float = false ->
        exists s',
          set_budget (junk ++ line :: rest) s = (s', rest)
          /\ budget s' = b
          /\ expenses s' = expenses s
          /\ categories s' = categories s
          /\ balance s' = balance s
          /\ transaction_history s' = transaction_history s
          /\ history_length s' = history_length s
          /\ budget_interval s' = budget_interval s
          /\ category_budgets s' = category_budgets s)
  /\ (forall asked_again,
        Forall (bad_category (categories s)) asked_again ->
        set_category_budget asked_again s = Ret (s, [])
        /\ (forall rest,
              set_category_budget (asked_again ++ "" :: rest) s
              = Ret (s, rest))
        /\ (forall line rest,
              too_long_number line ->
              set_category_budget (asked_again ++ line :: rest) s
              = Raise ValueError)
        /\ (forall category_line category junk,
              designates (categories s) category_line category ->
              Forall bad_amount junk ->
              set_category_budget (asked_again ++ category_line :: junk) s
              = Ret (s, []))
        /\ (forall category_line category junk line rest b,
              designates (categories s) category_line category ->
              Forall bad_amount junk ->
              float_of_string line = Some b ->
              (b <=? 0)%float = false ->
              exists s',
                set_category_budget
                  (asked_again ++ category_line :: junk ++ line :: rest) s
                = Ret (s', rest)
                /\ In category (categories s)
                /\ Dict.lookup category (category_budgets s') = Some b
                /\ (forall other,
                      other <> category ->
                      Dict.lookup other (category_budgets s')
                      = Dict.lookup other (category_budgets s))
                /\ expenses s' = expenses s
                /\ categories s' = categories s
                /\ balance s' = balance s
                /\ transaction_history s' = transaction_history s
                /\ history_length s' = history_length s
                /\ budget s' = budget s
                /\ budget_interval s' = budget_interval s)).
Proof.
  split; [ | split; [ | intros asked_again Hagain; repeat split]].
  - intros junk Hjunk.
    rewrite <- (app_nil_r junk), (set_budget_skips junk [] s Hjunk).
    reflexivity.
  - intros junk line rest b Hjunk Hparse Hg. exists (with_budget b s).
    rewrite (set_budget_skips junk _ s Hjunk). cbn [set_budget].
    rewrite Hparse, Hg. repeat split.
  - unfold set_category_budget.
    rewrite <- (app_nil_r asked_again), (read_category_skips _ _ _ Hagain).
    reflexivity.
  - intros rest. unfold set_category_budget.
    rewrite (read_category_skips _ _ _ Hagain). reflexivity.
  - intros line rest Hlong. unfold set_category_budget.
    rewrite (read_category_skips _ _ _ Hagain).
    now rewrite (read_category_too_long _ _ _ Hlong).
  - intros category_line category junk Hcat Hjunk.
    unfold set_category_budget.
    rewrite (read_category_skips _ _ _ Hagain).
    rewrite (read_category_designated _ _ _ _ Hcat).
    rewrite <- (app_nil_r junk), (read_category_budget_skips _ junk [] s Hjunk).
    reflexivity.
  - intros category_line category junk line rest b Hcat Hjunk Hparse Hg.
    exists (with_categories (categories s)
                            (Dict.set category b (category_budgets s)) s).
    unfold set_category_budget.
    rewrite (read_category_skips _ _ _ Hagain).
    rewrite (read_category_designated _ _ _ _ Hcat).
    rewrite (read_category_budget_skips _ junk _ s Hjunk).
    cbn [read_category_budget]. rewrite Hparse, Hg.
    split; [reflexivity | ].
    split; [now apply (designates_In _ category_line) | ].
    cbn [with_categories category_budgets].
    split; [apply dict_lookup_set_same | ].
    split; [intros other Hne; now apply dict_lookup_set_other | ].
    repeat split.
Qed.

(** *** [add_category], [delete_category] *)

Lemma add_category_skips (taken inp : list string) (s : calc) :
  Forall (fun line => Text.is_empty line = false /\ In line (categories s))
         taken ->
  add_category (taken ++ inp) s = add_category inp s.
Proof.
  induction 1 as [ | line taken (Hne & Hin) _ IH]; simpl; [reflexivity | ].
  apply mem_In in Hin. now rewrite Hne, Hin.
Qed.

Lemma nth_error_last (cats : list string) (name : string) :
  nth_error (cats ++ [name]) (List.length cats) = Some name.
Proof.
  rewrite nth_error_app2 by lia. now rewrite Nat.sub_diag.
Qed.

(** X6. [add_category] asks again for every name that is already in the
    list, and with the first new, non-empty name it puts the name at the end
    of the list and gives it the budget 0; the budgets of the other
    categories stay, and from then on the new category is the one chosen at
    the category prompt by the number after the old length of the list (a
    numeral that [int] reads). *)
Theorem add_category_outcome
  (taken : list string) (name : string) (rest : list string) (s : calc) :
  Forall (fun line => Text.is_empty line = false /\ In line (categories s))
         taken ->
  Text.is_empty name = false ->
  ~ In name (categories s) ->
  exists s',
    add_category (taken ++ name :: rest) s = (s', rest)
    /\ categories s' = categories s ++ [name]
    /\ Dict.lookup name (category_budgets s') = Some 0%float
    /\ (forall other, other <> name ->
          Dict.lookup other (category_budgets s')
          = Dict.lookup other (category_budgets s))
    /\ expenses s' = expenses s
    /\ balance s' = balance s
    /\ (forall pending,
          (String.length (numeral (S (List.length (categories s))))
           <= Text.MAX_STR_DIGITS)%nat ->
          read_category (categories s')
            (numeral (S (List.length (categories s))) :: pending)
          = Ret (Some name, pending)).
Proof.
  intros Htaken Hne Hnew. apply mem_false in Hnew.
  rewrite (add_category_skips _ _ _ Htaken). simpl. rewrite Hne, Hnew.
  eexists. split; [reflexivity | ]. simpl. repeat split.
  - apply dict_lookup_set_same.
  - intros other Hother. now apply dict_lookup_set_other.
  - intros pending Hshort.
    apply read_category_designated, number_designates; [ | assumption].
    apply nth_error_last.
Qed.

Lemma delete_category_skips (unknown inp : list string) (s : calc) :
  Forall (fun line => Text.is_empty line = false /\ ~ In line (categories s))
         unknown ->
  delete_category (unknown ++ inp) s = delete_category inp s.
Proof.
  induction 1 as [ | line unknown (Hne & Hin) _ IH]; simpl; [reflexivity | ].
  apply mem_false in Hin. now rewrite Hne, Hin.
Qed.

Lemma remove_first_last (name : string) (cats : list string) :
  ~ In name cats -> Text.remove_first name (cats ++ [name]) = cats.
Proof.
  induction cats as [ | c cats IH]; simpl; intros Hnot.
  - now rewrite String.eqb_refl.
  - destruct (String.eqb name c) eqn:E.
    + apply String.eqb_eq in E. subst. exfalso. apply Hnot. now left.
    + f_equal. apply IH. intros H. apply Hnot. now right.
Qed.

Lemma dict_del_absent {V : Type} (k : string) (d : Dict.t V) :
  ~ In k (Dict.keys d) -> Dict.del k d = d.
Proof.
  unfold Dict.del.
  induction d as [ | [k' v] d IH]; simpl; intros Hnot; [reflexivity | ].
  destruct (String.eqb k k') eqn:E; simpl.
  - apply String.eqb_eq in E. subst. exfalso. apply Hnot. now left.
  - rewrite IH; [reflexivity | ].
    intros H. apply Hnot. now right.
Qed.

Lemma dict_del_set_new {V : Type} (k : string) (v : V) (d : Dict.t V) :
  ~ In k (Dict.keys d) -> Dict.del k (Dict.set k v d) = d.
Proof.
  unfold Dict.del.
  induction d as [ | [k' v'] d IH]; simpl; intros Hnot.
  - now rewrite String.eqb_refl.
  - destruct (String.eqb k k') eqn:E.
    + apply String.eqb_eq in E. subst. exfalso. apply Hnot. now left.
    + simpl. rewrite E. simpl. rewrite IH; [reflexivity | ].
      intros H. apply Hnot. now right.
Qed.

Lemma dict_contains_set {V : Type} (k : string) (v : V) (d : Dict.t V) :
  Dict.contains k (Dict.set k v d) = true.
Proof. unfold Dict.contains. now rewrite dict_lookup_set_same. Qed.

(** X7. Adding a category and deleting it again gives back the calculator:
    when the category budgets have no key outside the list of categories (as
    in every run of the program), a new name added by [add_category] and
    then deleted by [delete_category] leaves every field as it was. *)
Theorem add_then_delete_category (name : string) (s : calc) :
  calc_ok s ->
  Text.is_empty name = false ->
  ~ In name (categories s) ->
  fst (delete_category [name] (fst (add_category [name] s))) = s.
Proof.
  intros [_ _ _ Hkeys] Hne Hnew.
  assert (Hnokey : ~ In name (Dict.keys (category_budgets s))).
  { intros H. apply Hnew. now apply Hkeys. }
  pose proof Hnew as Hmem. apply mem_false in Hmem.
  simpl. rewrite Hne, Hmem. simpl.
  assert (Hin : Text.mem name (categories s ++ [name]) = true).
  { apply mem_In, in_or_app. right. now left. }
  rewrite Hin. simpl.
  rewrite dict_contains_set, dict_del_set_new by assumption.
  rewrite remove_first_last by assumption.
  destruct s. reflexivity.
Qed.



(** *** [set_budget_interval] *)

Lemma to_lower_facts (c : ascii) :
  Text.to_lower (Text.to_lower c) = Text.to_lower c
  /\ Text.to_upper (Text.to_lower c) = Text.to_upper c
  /\ Text.is_cased (Text.to_lower c) = Text.is_cased c.
Proof.
  destruct c as [[ | ] [ | ] [ | ] [ | ] [ | ] [ | ] [ | ] [ | ]];
    repeat split; reflexivity.
Qed.

Lemma title_from_lower (b : bool) (text : string) :
  Text.title_from b (Text.lower text) = Text.title_from b text.
Proof.
  revert b. induction text as [ | c text IH]; intros b; simpl;
    [reflexivity | ].
  destruct (to_lower_facts c) as (Hl & Hu & Hc).
  rewrite Hc, IH. now destruct b; rewrite ?Hl, ?Hu.
Qed.

Lemma title_same_letters (a b : string) :
  Text.lower a = Text.lower b -> Text.title a = Text.title b.
Proof.
  intros H. unfold Text.title.
  now rewrite <- (title_from_lower false a), H, title_from_lower.
Qed.

Lemma title_of_interval (name : string) :
  In name budget_intervals -> Text.title name = name.
Proof.
  intros [<- | [<- | [<- | [<- | [<- | []]]]]]; reflexivity.
Qed.

Lemma mem_title_In (line : string) :
  Text.mem (Text.title line) budget_intervals = true ->
  In (Text.title line) budget_intervals.
Proof. apply mem_In. Qed.

Lemma to_lower_of_cased (c : ascii) :
  Text.to_lower (Text.to_upper c) = Text.to_lower c.
Proof.
  destruct c as [[ | ] [ | ] [ | ] [ | ] [ | ] [ | ] [ | ] [ | ]];
    reflexivity.
Qed.

Lemma lower_title_from (b : bool) (text : string) :
  Text.lower (Text.title_from b text) = Text.lower text.
Proof.
  revert b. induction text as [ | c text IH]; intros b; simpl;
    [reflexivity | ].
  rewrite IH. destruct (to_lower_facts c) as (Hl & _ & _).
  now destruct b; rewrite ?Hl, ?to_lower_of_cased.
Qed.

(** X10. [set_budget_interval] takes the name of an interval in any letter
    case and stores it in the spelling of the list, and asks again about any
    other ASCII line: a line is accepted exactly when its letters, case
    apart, are those of a name of the list.  Whatever is typed it reads a
    prefix of the pending lines and leaves in [budget_interval] either what
    was there or a name of the list. *)
Theorem set_budget_interval_outcome (inp : list string) (s : calc) :
  (forall name line rest,
     In name budget_intervals ->
     Text.lower line = Text.lower name ->
     set_budget_interval (line :: rest) s = (with_interval name s, rest))
  /\ (forall line rest,
        Text.is_ascii line = true ->
        (forall name,
            In name budget_intervals -> Text.lower line <> Text.lower name) ->
        set_budget_interval (line :: rest) s = set_budget_interval rest s)
  /\ set_budget_interval [] s = (s, [])
  /\ suffix (snd (set_budget_interval inp s)) inp
  /\ (fst (set_budget_interval inp s) = s
      \/ exists name,
           In name budget_intervals
           /\ fst (set_budget_interval inp s) = with_interval name s).
Proof.
  split; [ | split; [ | split; [reflexivity | ]]].
  - intros name line rest Hin Hsame.
    cbn -[Text.mem Text.title budget_intervals].
    rewrite (title_same_letters _ _ Hsame), (title_of_interval _ Hin).
    apply mem_In in Hin. now rewrite Hin.
  - intros line rest _ Hother.
    cbn -[Text.mem Text.title budget_intervals].
    destruct (Text.mem (Text.title line) budget_intervals) eqn:E;
      [ | reflexivity].
    exfalso. apply (Hother (Text.title line)); [now apply mem_In | ].
    unfold Text.title. now rewrite lower_title_from.
  - induction inp as [ | line inp (Hs & Hcases)].
    + split; [apply suffix_refl | now left].
    + cbn -[Text.mem Text.title budget_intervals].
      destruct (Text.mem (Text.title line) budget_intervals) eqn:E;
        cbn -[Text.mem Text.title budget_intervals].
      * split; [apply suffix_cons, suffix_refl | ].
        right. exists (Text.title line). split; [now apply mem_In | reflexivity].
      * split; [now apply suffix_cons | assumption].
Qed.

(** *** What else every run keeps *)

(** An entry of the history: an expense that is still recorded, or a
    deposit of an accepted amount. *)
Definition history_entry_ok (es : list expense) (t : transaction) : Prop :=
  (exists date category amount,
     t = ("Expense", date, category, amount) /\ In (date, category, amount) es)
  \/ (exists now amount,
        t = ("Deposit", now, "Deposit", amount)
        /\ (amount <=? 0)%float = false).

Record calc_sound (s : calc) : Prop := mkCalcSound {
  sound_ok : calc_ok s;
  sound_interval : In (budget_interval s) budget_intervals;
  sound_budget : budget s = 0%float \/ (budget s <=? 0)%float = false;
  sound_keys : NoDup (Dict.keys (category_budgets s));
  sound_names : Forall (fun c => Text.is_empty c = false) (categories s);
  sound_amounts :
    Forall (fun e => (expense_amount e <=? 0)%float = false) (expenses s);
  sound_history :
    Forall (history_entry_ok (expenses s)) (transaction_history s)
}.

Definition file_sound (fs : filesystem blob) : Prop :=
  forall b, file fs = Some b ->
            exists s0, calc_sound s0 /\ b = pickle_dump (data_of s0).

Definition world_sound (w : world) : Prop :=
  calc_sound (fst w) /\ file_sound (snd w).

Lemma trim_Forall (P : transaction -> Prop) (limit : nat)
  (h : list transaction) :
  Forall P h -> Forall P (trim limit h).
Proof.
  intros H. unfold trim. destruct (Nat.ltb limit (List.length h));
    [ | assumption].
  destruct H; simpl; [constructor | assumption].
Qed.

Lemma history_entry_ok_more (es : list expense) (e : expense) (t : transaction) :
  history_entry_ok es t -> history_entry_ok (es ++ [e]) t.
Proof.
  intros [(d & c & a & -> & Hin) | Hdep]; [left | now right].
  exists d, c, a. split; [reflexivity | ]. apply in_or_app. now left.
Qed.

Lemma record_expense_sound (date : DT.datetime) (category : string)
  (amount : float) (s : calc) :
  (amount <=? 0)%float = false ->
  calc_sound s -> calc_sound (record_expense date category amount s).
Proof.
  intros Hg [Hok Hi Hb Hk Hn Ha Hh]. constructor; simpl; try assumption.
  - now apply record_expense_ok.
  - apply Forall_app. split; [assumption | ]. now repeat constructor.
  - apply trim_Forall, Forall_app. split.
    + eapply Forall_impl; [ | exact Hh].
      intros t. apply history_entry_ok_more.
    + constructor; [ | constructor]. left. exists date, category, amount.
      split; [reflexivity | ]. apply in_or_app. right. now left.
Qed.

Lemma record_deposit_sound (now : DT.datetime) (amount : float) (s : calc) :
  (amount <=? 0)%float = false ->
  calc_sound s -> calc_sound (record_deposit now amount s).
Proof.
  intros Hg [Hok Hi Hb Hk Hn Ha Hh]. constructor; simpl; try assumption.
  - now apply record_deposit_ok.
  - apply trim_Forall, Forall_app. split; [assumption | ].
    constructor; [ | constructor]. right. now exists now, amount.
Qed.

Lemma add_expense_sound (now : DT.datetime) (inp : list string) (s : calc) :
  calc_sound s -> calc_sound (state_after (add_expense now inp s) s).
Proof.
  intros Hs. unfold add_expense.
  destruct (read_amount inp) as [[amount | ] rest] eqn:Ea; [ | assumption].
  apply read_amount_some in Ea as (_ & Hg & _).
  destruct (read_category (categories s) rest) as [[[category | ] rest'] | e];
    [ | assumption | assumption].
  destruct (read_date now rest') as [[date | ] rest'']; [ | assumption].
  now apply record_expense_sound.
Qed.

Lemma add_money_sound (now : DT.datetime) (inp : list string) (s : calc) :
  calc_sound s -> calc_sound (fst (add_money now inp s)).
Proof.
  intros Hs. induction inp as [ | line inp IH]; simpl; [assumption | ].
  destruct (float_of_string line) as [amount | ]; [ | assumption].
  destruct (amount <=? 0)%float eqn:G; [assumption | ].
  now apply record_deposit_sound.
Qed.

Lemma set_budget_sound (inp : list string) (s : calc) :
  calc_sound s -> calc_sound (fst (set_budget inp s)).
Proof.
  intros Hs. induction inp as [ | line inp IH]; simpl; [assumption | ].
  destruct (float_of_string line) as [b | ]; [ | assumption].
  destruct (b <=? 0)%float eqn:G; [assumption | ].
  destruct Hs as [[Hl Hlen Hnd Hsub] Hi Hb Hk Hn Ha Hh].
  constructor; simpl; try assumption; [now constructor | now right].
Qed.

Lemma set_budget_interval_sound (inp : list string) (s : calc) :
  calc_sound s -> calc_sound (fst (set_budget_interval inp s)).
Proof.
  intros Hs. induction inp as [ | line inp IH]; [assumption | ].
  cbn -[Text.mem Text.title budget_intervals].
  destruct (Text.mem (Text.title line) budget_intervals) eqn:E;
    cbn -[Text.mem Text.title budget_intervals]; [ | assumption].
  destruct Hs as [[Hl Hlen Hnd Hsub] Hi Hb Hk Hn Ha Hh].
  constructor; cbn -[budget_intervals Text.title]; try assumption;
    [now constructor | now apply mem_In].
Qed.

Lemma dict_keys_set_present {V : Type} (k : string) (v : V) (d : Dict.t V) :
  In k (Dict.keys d) -> Dict.keys (Dict.set k v d) = Dict.keys d.
Proof.
  induction d as [ | [k' v'] d IH]; simpl; [intros [] | ].
  destruct (String.eqb k k') eqn:E; simpl.
  - apply String.eqb_eq in E. now subst.
  - apply String.eqb_neq in E. intros [H | H]; [congruence | ].
    now rewrite IH.
Qed.

Lemma dict_keys_set_absent {V : Type} (k : string) (v : V) (d : Dict.t V) :
  ~ In k (Dict.keys d) -> Dict.keys (Dict.set k v d) = Dict.keys d ++ [k].
Proof.
  induction d as [ | [k' v'] d IH]; simpl; intros Hnot; [reflexivity | ].
  destruct (String.eqb k k') eqn:E; simpl.
  - apply String.eqb_eq in E. subst. exfalso. apply Hnot. now left.
  - rewrite IH; [reflexivity | ]. intros H. apply Hnot. now right.
Qed.

Lemma dict_set_NoDup {V : Type} (k : string) (v : V) (d : Dict.t V) :
  NoDup (Dict.keys d) -> NoDup (Dict.keys (Dict.set k v d)).
Proof.
  intros Hnd. destruct (in_dec string_dec k (Dict.keys d)) as [Hin | Hnot].
  - now rewrite dict_keys_set_present.
  - rewrite dict_keys_set_absent by assumption.
    apply (Permutation_NoDup (l := k :: Dict.keys d));
      [apply Permutation_cons_append | now constructor].
Qed.

Lemma dict_del_NoDup {V : Type} (k : string) (d : Dict.t V) :
  NoDup (Dict.keys d) -> NoDup (Dict.keys (Dict.del k d)).
Proof.
  unfold Dict.keys, Dict.del.
  induction d as [ | [k' v] d IH]; simpl; intros Hnd; [constructor | ].
  inversion Hnd as [ | ? ? Hnot Hnd']; subst.
  destruct (negb (String.eqb k k')); simpl; [ | now apply IH].
  constructor; [ | now apply IH].
  intros Hin. apply Hnot. apply in_map_iff in Hin as (kv & Hk & Hin).
  apply filter_In in Hin as [Hin _]. apply in_map_iff. now exists kv.
Qed.

Lemma read_category_budget_sound (category : string) (inp : list string)
  (s : calc) :
  In category (categories s) ->
  calc_sound s -> calc_sound (fst (read_category_budget category inp s)).
Proof.
  intros Hin Hs. pose proof (read_category_budget_ok category inp s Hin) as Hok.
  induction inp as [ | line inp IH]; simpl in *; [assumption | ].
  destruct (float_of_string line) as [b | ]; [ | now apply IH].
  destruct (b <=? 0)%float; [now apply IH | ].
  destruct Hs as [Hok0 Hi Hb Hk Hn Ha Hh].
  constructor; simpl in *; try assumption; [now apply Hok | ].
  now apply dict_set_NoDup.
Qed.

Lemma set_category_budget_sound (inp : list string) (s : calc) :
  calc_sound s -> calc_sound (state_after (set_category_budget inp s) s).
Proof.
  intros Hs. unfold set_category_budget.
  destruct (read_category (categories s) inp)
    as [[[category | ] rest] | e] eqn:E; [ | assumption | assumption].
  pose proof (read_category_budget_sound category rest s) as H.
  destruct (read_category_budget category rest s) as [s' rest'].
  apply H; [ | assumption].
  eapply read_category_In; eassumption.
Qed.

Lemma add_category_sound (inp : list string) (s : calc) :
  calc_sound s -> calc_sound (fst (add_category inp s)).
Proof.
  intros Hs. pose proof (add_category_ok inp s (sound_ok s Hs)) as Hok.
  induction inp as [ | line inp IH]; simpl in *; [assumption | ].
  destruct (Text.is_empty line) eqn:Hne; [assumption | ].
  destruct (Text.mem line (categories s)); [now apply IH | ].
  destruct Hs as [Hok0 Hi Hb Hk Hn Ha Hh].
  constructor; simpl in *; try assumption.
  - now apply dict_set_NoDup.
  - apply Forall_app. split; [assumption | now repeat constructor].
Qed.

Lemma remove_first_Forall (P : string -> Prop) (x : string) (xs : list string) :
  Forall P xs -> Forall P (Text.remove_first x xs).
Proof.
  induction 1 as [ | y xs Hy Hxs IH]; simpl; [constructor | ].
  destruct (String.eqb x y); [assumption | now constructor].
Qed.

Lemma delete_category_sound (inp : list string) (s : calc) :
  calc_sound s -> calc_sound (fst (delete_category inp s)).
Proof.
  intros Hs. pose proof (delete_category_ok inp s (sound_ok s Hs)) as Hok.
  induction inp as [ | line inp IH]; simpl in *; [assumption | ].
  destruct (Text.is_empty line); [assumption | ].
  destruct (negb (Text.mem line (categories s))); [now apply IH | ].
  destruct Hs as [Hok0 Hi Hb Hk Hn Ha Hh].
  constructor; simpl in *; try assumption.
  - destruct (Dict.contains line (category_budgets s));
      [now apply dict_del_NoDup | assumption].
  - now apply remove_first_Forall.
Qed.

Lemma cleared_sound (s : calc) : calc_sound s -> calc_sound (cleared s).
Proof.
  intros [Hok Hi Hb Hk Hn Ha Hh]. constructor; simpl; try assumption.
  - now apply cleared_ok.
  - now left.
  - constructor.
  - constructor.
  - constructor.
Qed.

Lemma save_data_sound (s : calc) (fs : filesystem blob) :
  calc_sound s -> file_sound fs -> file_sound (save_data s fs).
Proof.
  intros Hs Hfs. unfold save_data.
  destruct (writable fs); [ | assumption].
  intros b [= <-]. exists s. now split.
Qed.

Lemma clear_all_data_sound (inp : list string) (s : calc)
  (fs : filesystem blob) (s' : calc) (fs' : filesystem blob)
  (rest : list string) :
  clear_all_data inp s fs = Ret (s', fs', rest) ->
  world_sound (s, fs) -> world_sound (s', fs').
Proof.
  intros Hrun [Hs Hfs]. simpl in *.
  induction inp as [ | line inp IH]; simpl in Hrun; [discriminate | ].
  destruct (String.eqb (Text.lower line) "yes").
  - injection Hrun as <- <- _. split; simpl.
    + now apply cleared_sound.
    + apply save_data_sound; [now apply cleared_sound | assumption].
  - destruct (String.eqb (Text.lower line) "no").
    + injection Hrun as <- <- _. now split.
    + now apply IH.
Qed.

Lemma initialize_NoDup (cats : list string) (d : Dict.t float) :
  NoDup (Dict.keys d) ->
  NoDup (Dict.keys
           (fold_left
              (fun d category =>
                 if Dict.contains category d then d
                 else Dict.set category 0%float d)
              cats d)).
Proof.
  revert d. induction cats as [ | c cats IH]; intros d Hnd; simpl;
    [assumption | ].
  apply IH. destruct (Dict.contains c d); [assumption | ].
  now apply dict_set_NoDup.
Qed.

Lemma initialize_category_budgets_sound (s : calc) :
  calc_sound s -> calc_sound (initialize_category_budgets s).
Proof.
  intros [Hok Hi Hb Hk Hn Ha Hh]. constructor; simpl; try assumption.
  - now apply initialize_category_budgets_ok.
  - now apply initialize_NoDup.
Qed.

Lemma fresh_sound : calc_sound fresh.
Proof.
  constructor; simpl.
  - apply fresh_ok.
  - right. right. right. now left.
  - now left.
  - constructor.
  - repeat constructor.
  - constructor.
  - constructor.
Qed.

Lemma init_sound (fs : filesystem blob) :
  pickle_round_trip -> file_sound fs -> calc_sound (init fs).
Proof.
  intros Hrt Hfs. unfold init. apply initialize_category_budgets_sound.
  unfold load_data. destruct (file fs) as [b | ] eqn:E; [ | apply fresh_sound].
  destruct (Hfs b E) as (s0 & [[Hl Hlen Hnd Hsub] Hi Hb Hk Hn Ha Hh] & ->).
  rewrite Hrt. simpl. constructor; simpl; try assumption.
  constructor; simpl; try assumption; try reflexivity.
  now rewrite <- Hl.
Qed.

Lemma step_sound (w w' : world) :
  pickle_round_trip -> step w w' -> world_sound w -> world_sound w'.
Proof.
  intros Hrt Hstep. destruct Hstep; intros [Hs Hfs]; simpl in *.
  - split; [now apply add_expense_sound | assumption].
  - split; [now apply add_money_sound | assumption].
  - split; [now apply set_budget_sound | assumption].
  - split; [now apply set_category_budget_sound | assumption].
  - split; [now apply set_budget_interval_sound | assumption].
  - split; [now apply add_category_sound | assumption].
  - split; [now apply delete_category_sound | assumption].
  - eapply clear_all_data_sound; [eassumption | now split].
  - split; [assumption | now apply save_data_sound].
  - split; [now apply init_sound | assumption].
  - split; [assumption | ]. intros b Hb. simpl in Hb. now apply Hfs.
Qed.

Lemma reachable_sound (w : world) :
  pickle_round_trip -> reachable w -> world_sound w.
Proof.
  intros Hrt. induction 1 as [[s fs] [Hfile Hinit] | w w' _ IH Hstep].
  - simpl in *. assert (Hfs : file_sound fs).
    { intros b Hb. congruence. }
    split; simpl; [ | assumption]. subst s. now apply init_sound.
  - eapply step_sound; eassumption.
Qed.

(** X11. In every world reached from the first run: the budget interval is
    one of the five names; the budget is 0 or a number that is not [<= 0];
    no category is the empty text; no recorded expense has an amount
    [<= 0]; and every entry of the transaction history is an "Expense" entry
    of an expense that is in the list of expenses, or a "Deposit" entry with
    category "Deposit" and an amount that is not [<= 0]. *)
Theorem reachable_worlds_are_sound (w : world) :
  pickle_round_trip ->
  reachable w ->
  In (budget_interval (fst w)) budget_intervals
  /\ (budget (fst w) = 0%float \/ (budget (fst w) <=? 0)%float = false)
  /\ Forall (fun c => Text.is_empty c = false) (categories (fst w))
  /\ Forall (fun e => (expense_amount e <=? 0)%float = false)
            (expenses (fst w))
  /\ Forall (history_entry_ok (expenses (fst w)))
            (transaction_history (fst w)).
Proof.
  intros Hrt Hreach.
  destruct (reachable_sound w Hrt Hreach) as [[_ Hi Hb _ Hn Ha Hh] _].
  repeat split; assumption.
Qed.

(** *** The status screen *)

Lemma interval_start_known (interval : string) (now : DT.datetime) :
  In interval budget_intervals ->
  exists label r, interval_start interval now = Some (label, r).
Proof.
  intros [<- | [<- | [<- | [<- | [<- | []]]]]];
    eexists; eexists; reflexivity.
Qed.

Lemma dict_get_after_set (k : string) (v default : float) (d : Dict.t float) :
  Dict.get k (Dict.set k v d) default = v.
Proof. unfold Dict.get. now rewrite dict_lookup_set_same. Qed.

Lemma dict_get_after_set_other (k k' : string) (v default : float)
  (d : Dict.t float) :
  k' <> k -> Dict.get k' (Dict.set k v d) default = Dict.get k' d default.
Proof. intros H. unfold Dict.get. now rewrite dict_lookup_set_other. Qed.

Lemma category_fold_get (c : string) (es : list expense) (d : Dict.t float) :
  Dict.get c
    (fold_left
       (fun d e =>
          Dict.set (expense_category e)
                   (Dict.get (expense_category e) d 0 + expense_amount e)%float
                   d)
       es d) 0%float
  = fold_left PrimFloat.add (amounts_of c es) (Dict.get c d 0%float).
Proof.
  revert d. induction es as [ | [[date category] amount] es IH]; intros d;
    [reflexivity | ].
  cbn [fold_left]. rewrite IH. unfold amounts_of.
  cbn [filter expense_category expense_amount fst snd].
  destruct (String.eqb c category) eqn:E.
  - apply String.eqb_eq in E. subst category.
    cbn [map fold_left expense_amount snd].
    now rewrite dict_get_after_set.
  - apply String.eqb_neq in E. now rewrite dict_get_after_set_other.
Qed.

Lemma category_expenses_get (c : string) (es : list expense) :
  Dict.get c (category_expenses es) 0%float = running_sum (amounts_of c es).
Proof. unfold category_expenses. now rewrite category_fold_get. Qed.

(** X12. The "Category Budgets" lines of the status screen: there is one
    line per entry of [category_budgets], in the order of the dictionary, and
    on the line of a category "Spent" is the sum, from 0 and in the order of
    entry, of the amounts of all the recorded expenses of that category
    (whatever the budget interval), and "Remaining" is the budget minus that
    sum.  Expenses of a category without a budget entry are on no line. *)
Theorem status_category_lines (s : calc) :
  category_lines s
  = map (fun '(category, budget) =>
           (category, budget,
            running_sum (amounts_of category (expenses s)),
            (budget - running_sum (amounts_of category (expenses s)))%float))
        (category_budgets s).
Proof.
  unfold category_lines.
  destruct (category_budgets s) as [ | item items] eqn:E; [reflexivity | ].
  apply map_ext. intros [category budget].
  now rewrite category_expenses_get.
Qed.

(** X13. In every world reached from the first run, at any time of the
    years 1 to 9999 but its first two weeks, the status screen is shown
    without an exception, with the balance, with all the transactions of
    the history (5 at most), newest first; when the budget is positive it
    shows the spending of the current period and a remaining budget that is
    the budget minus that spending, and when it is not, no budget at all. *)
Theorem status_of_reachable_world (w : world) (now : DT.datetime) :
  pickle_round_trip ->
  reachable w ->
  14 <= DT.toordinal now <= DT.MAXORDINAL ->
  exists r,
    display_status now (fst w) = Ret r
    /\ shown_balance r = balance (fst w)
    /\ shown_transactions r = rev (transaction_history (fst w))
    /\ (List.length (shown_transactions r) <= 5)%nat
    /\ ((0 <? budget (fst w))%float = false -> shown_budget r = None)
    /\ ((0 <? budget (fst w))%float = true ->
        exists p,
          shown_budget r
          = Some (budget_interval (fst w), budget (fst w), Some p)
          /\ period_remaining p
             = (budget (fst w) - period_spending p)%float).
Proof.
  intros Hrt Hreach Hnow.
  destruct (reachable_sound w Hrt Hreach) as [[[Hl Hlen _ _] Hi _ _ _ _ _] _].
  destruct (interval_start_known _ now Hi) as (label & o & Hstart).
  destruct (interval_start_returns (budget_interval (fst w)) now Hnow)
    as [Hnone | (label' & start & Hsome)]; [congruence | ].
  unfold display_status. rewrite Hsome.
  destruct (0 <? budget (fst w))%float; eexists;
    (split; [reflexivity | ]); simpl;
    (split; [reflexivity | ]); (split; [reflexivity | ]);
    (split; [rewrite length_rev, <- Hl; exact Hlen | ]);
    split; try discriminate; try reflexivity.
  intros _. eexists. split; reflexivity.
Qed.

(** *** The data file *)

Lemma initialize_get (c : string) (cats : list string) (d : Dict.t float) :
  Dict.get c
    (fold_left
       (fun d category =>
          if Dict.contains category d then d
          else Dict.set category 0%float d)
       cats d) 0%float
  = Dict.get c d 0%float.
Proof.
  revert d. induction cats as [ | k cats IH]; intros d; simpl;
    [reflexivity | ].
  rewrite IH. destruct (Dict.contains k d) eqn:E; [reflexivity | ].
  destruct (String.eqb c k) eqn:Ek.
  - apply String.eqb_eq in Ek. subst k. rewrite dict_get_after_set.
    unfold Dict.get, Dict.contains in *.
    now destruct (Dict.lookup c d).
  - apply String.eqb_neq in Ek. now apply dict_get_after_set_other.
Qed.

Lemma initialize_keeps_key (c : string) (cats : list string) (d : Dict.t float) :
  Dict.contains c d = true ->
  Dict.contains c
    (fold_left
       (fun d category =>
          if Dict.contains category d then d
          else Dict.set category 0%float d)
       cats d) = true.
Proof.
  revert d. induction cats as [ | k cats IH]; intros d Hc; simpl;
    [assumption | ].
  apply IH. destruct (Dict.contains k d) eqn:E; [assumption | ].
  unfold Dict.contains in *.
  destruct (String.eqb c k) eqn:Ek.
  - apply String.eqb_eq in Ek. subst k. now rewrite dict_lookup_set_same.
  - apply String.eqb_neq in Ek. now rewrite dict_lookup_set_other.
Qed.

Lemma initialize_adds_key (c : string) (cats : list string) (d : Dict.t float) :
  In c cats ->
  Dict.contains c
    (fold_left
       (fun d category =>
          if Dict.contains category d then d
          else Dict.set category 0%float d)
       cats d) = true.
Proof.
  revert d. induction cats as [ | k cats IH]; intros d; simpl; [intros [] | ].
  intros [-> | Hin]; [ | now apply IH].
  apply initialize_keeps_key.
  destruct (Dict.contains c d) eqn:E; [assumption | ].
  apply dict_contains_set.
Qed.

Lemma initialize_nothing_to_add (cats : list string) (d : Dict.t float) :
  (forall c, In c cats -> Dict.contains c d = true) ->
  fold_left
    (fun d category =>
       if Dict.contains category d then d else Dict.set category 0%float d)
    cats d = d.
Proof.
  induction cats as [ | k cats IH]; intros Hall; simpl; [reflexivity | ].
  rewrite (Hall k (or_introl eq_refl)). apply IH.
  intros c Hc. apply Hall. now right.
Qed.

(** X14. [initialize_category_budgets] gives every category of the list a
    budget entry, keeps every budget that is set, reads 0 for the entries it
    adds, touches no other field (the expenses, the categories, the balance,
    the history and its bound, the budget and its interval are as they
    were), and changes nothing when every category has an entry already. *)
Theorem initialize_category_budgets_outcome (s : calc) :
  (forall c, In c (categories s) ->
     Dict.contains c (category_budgets (initialize_category_budgets s)) = true)
  /\ (forall c,
        Dict.get c (category_budgets (initialize_category_budgets s)) 0%float
        = Dict.get c (category_budgets s) 0%float)
  /\ expenses (initialize_category_budgets s) = expenses s
  /\ categories (initialize_category_budgets s) = categories s
  /\ balance (initialize_category_budgets s) = balance s
  /\ transaction_history (initialize_category_budgets s)
     = transaction_history s
  /\ history_length (initialize_category_budgets s) = history_length s
  /\ budget (initialize_category_budgets s) = budget s
  /\ budget_interval (initialize_category_budgets s) = budget_interval s
  /\ ((forall c, In c (categories s) ->
         Dict.contains c (category_budgets s) = true) ->
      initialize_category_budgets s = s).
Proof.
  split; [intros c Hc; now apply initialize_adds_key | ].
  split; [intros c; apply initialize_get | ].
  repeat split.
  intros Hall. unfold initialize_category_budgets.
  rewrite initialize_nothing_to_add by assumption.
  destruct s. reflexivity.
Qed.

(** X15. A data file that is missing, or that [pickle.load] cannot read,
    leaves the calculator that loads it as it was; so a run that finds such
    a file starts from the defaults: no expenses, balance 0, interval
    "Month", the six default categories, each with the budget 0. *)
Theorem load_data_falls_back (s : calc) (fs : filesystem blob) :
  file fs = None \/ (exists b, file fs = Some b /\ pickle_load b = None) ->
  load_data s fs = s
  /\ init fs = initialize_category_budgets fresh
  /\ expenses (init fs) = []
  /\ balance (init fs) = 0%float
  /\ budget_interval (init fs) = "Month"
  /\ categories (init fs) = default_categories
  /\ category_budgets (init fs)
     = map (fun c => (c, 0%float)) default_categories.
Proof.
  intros Hfile.
  assert (Hload : forall s0, load_data s0 fs = s0).
  { intros s0. unfold load_data.
    destruct Hfile as [-> | (b & -> & ->)]; reflexivity. }
  unfold init. rewrite !Hload. repeat split.
Qed.

(** X16. Leaving with "x" and starting again resumes the calculator: when
    the file can be written and [pickle] is faithful, [__init__] on the file
    that [save_data] wrote gives the saved expenses, categories, balance,
    history, budget and interval, and category budgets that read the same
    for every category; they are the very same dictionary when every
    category had an entry. *)
Theorem save_then_new_run (s : calc) (fs : filesystem blob) :
  pickle_round_trip ->
  writable fs = true ->
  calc_ok s ->
  let s' := init (save_data s fs) in
  expenses s' = expenses s
  /\ categories s' = categories s
  /\ balance s' = balance s
  /\ transaction_history s' = transaction_history s
  /\ history_length s' = history_length s
  /\ budget s' = budget s
  /\ budget_interval s' = budget_interval s
  /\ (forall c, Dict.get c (category_budgets s') 0%float
                = Dict.get c (category_budgets s) 0%float)
  /\ ((forall c, In c (categories s) ->
         Dict.contains c (category_budgets s) = true) ->
      s' = s).
Proof.
  intros Hrt Hw [Hl _ _ _]. unfold init, load_data, save_data.
  rewrite Hw. cbn [file]. rewrite Hrt. simpl.
  repeat split; try (now rewrite Hl).
  - intros c. apply initialize_get.
  - intros Hall. unfold initialize_category_budgets. simpl.
    rewrite initialize_nothing_to_add by assumption.
    destruct s. simpl in *. now subst.
Qed.

(** X17. A save that fails is absorbed, and what was to be saved is lost:
    when the file cannot be written, [save_data] leaves it as it is, a
    confirmed [clear_all_data] clears the calculator in memory only, and the
    next run loads the expenses, the balance, the history and the budget of
    the old file again. *)
Theorem clear_without_save_comes_back
  (line : string) (rest : list string) (s old : calc) (fs : filesystem blob) :
  pickle_round_trip ->
  writable fs = false ->
  file fs = Some (pickle_dump (data_of old)) ->
  Text.lower line = "yes" ->
  save_data s fs = fs
  /\ clear_all_data (line :: rest) s fs = Ret (cleared s, fs, rest)
  /\ expenses (init fs) = expenses old
  /\ balance (init fs) = balance old
  /\ transaction_history (init fs) = transaction_history old
  /\ budget (init fs) = budget old.
Proof.
  intros Hrt Hw Hfile Hyes.
  assert (Hsave : forall s0, save_data s0 fs = fs).
  { intros s0. unfold save_data. now rewrite Hw. }
  split; [apply Hsave | ]. split.
  - simpl. rewrite Hyes. simpl. now rewrite Hsave.
  - unfold init, load_data. rewrite Hfile, Hrt. simpl. repeat split.
Qed.

(** *** The menus and the main loop

    The loops of the menus call dialogues that return what is left of the
    input, so they recurse on a count of iterations ([fuel]); a loop reads at
    least one line per iteration, and more fuel than pending lines is always
    enough.  What a menu prints is kept as the list of screens it shows.
    [time.sleep] and the clearing of the terminal are left out. *)

(** What [budget_menu] prints before its options. *)
Record budget_report := mkBudgetReport {
  menu_budget : float;
  menu_interval : string;
  menu_lines : list (string * float * float * float);
  menu_total_expenses : float;
  menu_remaining_budget : float
}.

Definition budget_screen (s : calc) : budget_report :=
  let spent := category_expenses (expenses s) in
  let total_expenses := py_sum (map expense_amount (expenses s)) in
  {| menu_budget := budget s;
     menu_interval := budget_interval s;
     menu_lines :=
       map (fun '(category, budget) =>
              let expense := Dict.get category spent 0%float in
              (category, budget, expense, (budget - expense)%float))
           (category_budgets s);
     menu_total_expenses := total_expenses;
     menu_remaining_budget := (budget s - total_expenses)%float |}.

Inductive screen :=
| StatusScreen (r : status_report)
| SummaryScreen (r : option summary)
| BudgetScreen (r : budget_report)
| CategoryScreen (cats : list string).

(** [category_menu] *)
Fixpoint category_menu (fuel : nat) (inp : list string) (s : calc)
  : option (calc * list string * list screen) :=
  match fuel with
  | O => None
  | S fuel' =>
      let shown := CategoryScreen (categories s) in
      let again s' rest :=
        match category_menu fuel' rest s' with
        | Some (s'', rest', screens) => Some (s'', rest', shown :: screens)
        | None => None
        end in
      match inp with
      | [] => Some (s, [], [shown])
      | choice :: rest =>
          if String.eqb choice "1" then
            let '(s', rest') := add_category rest s in again s' rest'
          else if String.eqb choice "2" then
            let '(s', rest') := delete_category rest s in again s' rest'
          else if String.eqb (Text.lower choice) "x" then
            Some (s, rest, [shown])
          else again s rest
      end
  end.

(** [budget_menu]: the calculator at its end, the input that is left when it
    returns or the exception that leaves it (that of [set_category_budget],
    which it does not catch), and the screens shown. *)
Fixpoint budget_menu (fuel : nat) (inp : list string) (s : calc)
  : option (calc * outcome (list string) * list screen) :=
  match fuel with
  | O => None
  | S fuel' =>
      let shown := BudgetScreen (budget_screen s) in
      let again s' rest :=
        match budget_menu fuel' rest s' with
        | Some (s'', r, screens) => Some (s'', r, shown :: screens)
        | None => None
        end in
      match inp with
      | [] => Some (s, Ret [], [shown])
      | choice :: rest =>
          if String.eqb choice "1" then
            let '(s', rest') := set_budget rest s in again s' rest'
          else if String.eqb choice "2" then
            match set_category_budget rest s with
            | Ret (s', rest') => again s' rest'
            | Raise e => Some (s, Raise e, [shown])
            end
          else if String.eqb choice "3" then
            let '(s', rest') := set_budget_interval rest s in again s' rest'
          else if String.eqb (Text.lower choice) "x" then
            Some (s, Ret rest, [shown])
          else again s rest
      end
  end.

(** How [run] ends: the choice "x" (after [save_data]), the end of the input
    at the main prompt (nothing is saved), or an exception that nothing
    catches. *)
Inductive ending :=
| Exited
| EndOfInput
| Crashed (e : exn).

(** [run]: [clock] gives the time of each reading of the clock, [tick]
    counts them.  The result is the ending, the calculator and the file at
    that point, and the screens shown. *)
Fixpoint run (fuel : nat) (clock : nat -> DT.datetime) (tick : nat)
  (inp : list string) (w : world) : option (ending * world * list screen) :=
  match fuel with
  | O => None
  | S fuel' =>
      let '(s, fs) := w in
      match display_status (clock tick) s with
      | Raise e => Some (Crashed e, w, [])
      | Ret report =>
          let again w' rest screens :=
            match run fuel' clock (S (S tick)) rest w' with
            | Some (e, w'', later) =>
                Some (e, w'', StatusScreen report :: screens ++ later)
            | None => None
            end in
          match inp with
          | [] => Some (EndOfInput, w, [StatusScreen report])
          | choice :: rest =>
              if String.eqb choice "1" then
                match add_expense (clock (S tick)) rest s with
                | Ret (s', rest') => again (s', fs) rest' []
                | Raise e => Some (Crashed e, w, [StatusScreen report])
                end
              else if String.eqb choice "2" then
                let '(s', rest') := add_money (clock (S tick)) rest s in
                again (s', fs) rest' []
              else if String.eqb choice "3" then
                again w rest [SummaryScreen (update_summary s)]
              else if String.eqb choice "4" then
                match budget_menu fuel' rest s with
                | Some (s', Ret rest', screens) => again (s', fs) rest' screens
                | Some (s', Raise e, screens) =>
                    Some (Crashed e, (s', fs), StatusScreen report :: screens)
                | None => None
                end
              else if String.eqb choice "5" then
                match category_menu fuel' rest s with
                | Some (s', rest', screens) => again (s', fs) rest' screens
                | None => None
                end
              else if String.eqb choice "6" then
                match clear_all_data rest s fs with
                | Ret (s', fs', rest') => again (s', fs') rest' []
                | Raise e => Some (Crashed e, w, [StatusScreen report])
                end
              else if String.eqb (Text.lower choice) "x" then
                Some (Exited, (s, save_data s fs), [StatusScreen report])
              else again w rest []
          end
      end
  end.

(** The program: a new calculator on the file, then [run]. *)
Definition main (fuel : nat) (clock : nat -> DT.datetime) (inp : list string)
  (fs : filesystem blob) : option (ending * world * list screen) :=
  run fuel clock 0 inp (init fs, fs).

(** A line that does not confirm [clear_all_data]. *)
Definition not_yes (line : string) : Prop := Text.lower line <> "yes".

Lemma add_expense_suffix (now : DT.datetime) (inp : list string) (s s' : calc)
  (left : list string) :
  add_expense now inp s = Ret (s', left) -> suffix left inp.
Proof.
  unfold add_expense.
  destruct (read_amount inp) as [[amount | ] rest] eqn:Ea.
  2:{ apply read_amount_none in Ea. subst. intros [= _ <-]. apply suffix_nil. }
  apply read_amount_some in Ea as (Hs1 & _).
  destruct (read_category (categories s) rest)
    as [[[category | ] rest'] | e] eqn:Ec; [ | | discriminate];
    apply read_category_suffix in Ec.
  2:{ intros [= _ <-]. eapply suffix_trans; eassumption. }
  destruct (read_date now rest') as [[date | ] rest''] eqn:Ed.
  - apply read_date_some in Ed as (Hs3 & _). intros [= _ <-].
    eapply suffix_trans; [eassumption | ]. eapply suffix_trans; eassumption.
  - apply read_date_none in Ed. subst. intros [= _ <-]. apply suffix_nil.
Qed.

Lemma add_money_suffix (now : DT.datetime) (inp : list string) (s : calc) :
  suffix (snd (add_money now inp s)) inp.
Proof.
  induction inp as [ | line inp IH]; simpl; [apply suffix_refl | ].
  destruct (float_of_string line) as [amount | ]; [ | now apply suffix_cons].
  destruct (amount <=? 0)%float; [now apply suffix_cons | ].
  apply suffix_cons, suffix_refl.
Qed.

Lemma set_budget_suffix (inp : list string) (s : calc) :
  suffix (snd (set_budget inp s)) inp.
Proof.
  induction inp as [ | line inp IH]; simpl; [apply suffix_refl | ].
  destruct (float_of_string line) as [b | ]; [ | now apply suffix_cons].
  destruct (b <=? 0)%float; [now apply suffix_cons | ].
  apply suffix_cons, suffix_refl.
Qed.

Lemma read_category_budget_suffix (category : string) (inp : list string)
  (s : calc) :
  suffix (snd (read_category_budget category inp s)) inp.
Proof.
  induction inp as [ | line inp IH]; simpl; [apply suffix_refl | ].
  destruct (float_of_string line) as [b | ]; [ | now apply suffix_cons].
  destruct (b <=? 0)%float; [now apply suffix_cons | ].
  apply suffix_cons, suffix_refl.
Qed.

Lemma set_category_budget_suffix (inp : list string) (s s' : calc)
  (left : list string) :
  set_category_budget inp s = Ret (s', left) -> suffix left inp.
Proof.
  unfold set_category_budget.
  destruct (read_category (categories s) inp)
    as [[[category | ] rest] | e] eqn:E; [ | | discriminate];
    apply read_category_suffix in E.
  - pose proof (read_category_budget_suffix category rest s) as H.
    destruct (read_category_budget category rest s) as [s1 rest1].
    intros [= _ <-]. eapply suffix_trans; eassumption.
  - now intros [= _ <-].
Qed.

Lemma set_budget_interval_suffix (inp : list string) (s : calc) :
  suffix (snd (set_budget_interval inp s)) inp.
Proof.
  induction inp as [ | line inp IH]; [apply suffix_refl | ].
  cbn -[Text.mem Text.title budget_intervals].
  destruct (negb (Text.mem (Text.title line) budget_intervals));
    [now apply suffix_cons | apply suffix_cons, suffix_refl].
Qed.

Lemma add_category_suffix (inp : list string) (s : calc) :
  suffix (snd (add_category inp s)) inp.
Proof.
  induction inp as [ | line inp IH]; simpl; [apply suffix_refl | ].
  destruct (Text.is_empty line); [apply suffix_cons, suffix_refl | ].
  destruct (Text.mem line (categories s));
    [now apply suffix_cons | apply suffix_cons, suffix_refl].
Qed.

Lemma delete_category_suffix (inp : list string) (s : calc) :
  suffix (snd (delete_category inp s)) inp.
Proof.
  induction inp as [ | line inp IH]; simpl; [apply suffix_refl | ].
  destruct (Text.is_empty line); [apply suffix_cons, suffix_refl | ].
  destruct (negb (Text.mem line (categories s)));
    [now apply suffix_cons | apply suffix_cons, suffix_refl].
Qed.

Lemma clear_all_data_returned (inp : list string) (s : calc)
  (fs : filesystem blob) (s' : calc) (fs' : filesystem blob)
  (rest : list string) :
  clear_all_data inp s fs = Ret (s', fs', rest) ->
  suffix rest inp
  /\ writable fs' = writable fs
  /\ (Forall not_yes inp -> fs' = fs).
Proof.
  induction inp as [ | line inp IH]; simpl; [discriminate | ].
  destruct (String.eqb (Text.lower line) "yes") eqn:Ey.
  - intros [= <- <- <-]. split; [apply suffix_cons, suffix_refl | ].
    split.
    + unfold save_data. destruct (writable fs) eqn:W; [reflexivity | exact W].
    + intros H. inversion H as [ | ? ? Hny _]; subst.
      apply String.eqb_eq in Ey. now elim Hny.
  - destruct (String.eqb (Text.lower line) "no").
    + intros [= <- <- <-]. split; [apply suffix_cons, suffix_refl | ].
      now split.
    + intros H. destruct (IH H) as (Hs & Hw & Hf).
      split; [now apply suffix_cons | ]. split; [assumption | ].
      intros Hall. apply Hf. now inversion Hall.
Qed.

Lemma clear_all_data_end_of_input (inp : list string) (s : calc)
  (fs : filesystem blob) :
  Forall unclear inp -> clear_all_data inp s fs = Raise EOFError.
Proof.
  induction 1 as [ | line inp [Hyes Hno] _ IH]; simpl; [reflexivity | ].
  apply String.eqb_neq in Hyes, Hno. now rewrite Hyes, Hno.
Qed.

Lemma category_menu_enough (fuel : nat) (inp : list string) (s : calc) :
  (List.length inp < fuel)%nat ->
  exists s' rest screens,
    category_menu fuel inp s = Some (s', rest, screens) /\ suffix rest inp.
Proof.
  revert inp s. induction fuel as [ | fuel IH]; intros inp s Hlen; [lia | ].
  destruct inp as [ | choice rest].
  { simpl. do 3 eexists. split; [reflexivity | apply suffix_refl]. }
  simpl in Hlen. cbn [category_menu].
  assert (Hagain : forall s1 rest1,
             suffix rest1 rest ->
             exists s' rest' screens,
               match category_menu fuel rest1 s1 with
               | Some (s'', rest', screens) =>
                   Some (s'', rest', CategoryScreen (categories s) :: screens)
               | None => None
               end = Some (s', rest', screens)
               /\ suffix rest' (choice :: rest)).
  { intros s1 rest1 Hs. pose proof (suffix_length _ _ Hs) as Hl.
    destruct (IH rest1 s1) as (s' & rest' & screens & -> & Hs'); [lia | ].
    do 3 eexists. split; [reflexivity | ].
    apply suffix_cons. eapply suffix_trans; eassumption. }
  destruct (String.eqb choice "1").
  { pose proof (add_category_suffix rest s) as Hs.
    destruct (add_category rest s) as [s1 rest1]. now apply Hagain. }
  destruct (String.eqb choice "2").
  { pose proof (delete_category_suffix rest s) as Hs.
    destruct (delete_category rest s) as [s1 rest1]. now apply Hagain. }
  destruct (String.eqb (Text.lower choice) "x").
  { do 3 eexists. split; [reflexivity | apply suffix_cons, suffix_refl]. }
  apply Hagain, suffix_refl.
Qed.

Lemma budget_menu_enough (fuel : nat) (inp : list string) (s : calc) :
  (List.length inp < fuel)%nat ->
  exists s' r screens,
    budget_menu fuel inp s = Some (s', r, screens)
    /\ forall rest, r = Ret rest -> suffix rest inp.
Proof.
  revert inp s. induction fuel as [ | fuel IH]; intros inp s Hlen; [lia | ].
  destruct inp as [ | choice rest].
  { simpl. do 3 eexists. split; [reflexivity | ].
    intros rest [= <-]. apply suffix_refl. }
  simpl in Hlen. cbn [budget_menu].
  assert (Hagain : forall s1 rest1,
             suffix rest1 rest ->
             exists s' r screens,
               match budget_menu fuel rest1 s1 with
               | Some (s'', r, screens) =>
                   Some (s'', r, BudgetScreen (budget_screen s) :: screens)
               | None => None
               end = Some (s', r, screens)
               /\ forall rest', r = Ret rest' -> suffix rest' (choice :: rest)).
  { intros s1 rest1 Hs. pose proof (suffix_length _ _ Hs) as Hl.
    destruct (IH rest1 s1) as (s' & r & screens & -> & Hs'); [lia | ].
    do 3 eexists. split; [reflexivity | ].
    intros rest' Hr. apply suffix_cons.
    eapply suffix_trans; [now apply Hs' | eassumption]. }
  destruct (String.eqb choice "1").
  { pose proof (set_budget_suffix rest s) as Hs.
    destruct (set_budget rest s) as [s1 rest1]. now apply Hagain. }
  destruct (String.eqb choice "2").
  { destruct (set_category_budget rest s) as [[s1 rest1] | e] eqn:E.
    - apply set_category_budget_suffix in E. now apply Hagain.
    - do 3 eexists. split; [reflexivity | discriminate]. }
  destruct (String.eqb choice "3").
  { pose proof (set_budget_interval_suffix rest s) as Hs.
    destruct (set_budget_interval rest s) as [s1 rest1]. now apply Hagain. }
  destruct (String.eqb (Text.lower choice) "x").
  { do 3 eexists. split; [reflexivity | ].
    intros rest' [= <-]. apply suffix_cons, suffix_refl. }
  apply Hagain, suffix_refl.
Qed.

Lemma category_menu_reachable (fuel : nat) (inp : list string) (s : calc)
  (fs : filesystem blob) (s' : calc) (rest : list string)
  (screens : list screen) :
  category_menu fuel inp s = Some (s', rest, screens) ->
  reachable (s, fs) -> reachable (s', fs).
Proof.
  revert inp s screens. induction fuel as [ | fuel IH]; intros inp s screens;
    [discriminate | ].
  destruct inp as [ | choice inp]; cbn [category_menu].
  { now intros [= <- _ _]. }
  assert (Hagain : forall s1 rest1 screens1,
             match category_menu fuel rest1 s1 with
             | Some (s'', rest', later) =>
                 Some (s'', rest', CategoryScreen (categories s) :: later)
             | None => None
             end = Some (s', rest, screens1) ->
             reachable (s1, fs) -> reachable (s', fs)).
  { intros s1 rest1 screens1 H Hr.
    destruct (category_menu fuel rest1 s1) as [[[s2 rest2] later] | ] eqn:E;
      [ | discriminate].
    injection H as <- <- _. eapply IH; eassumption. }
  destruct (String.eqb choice "1").
  { pose proof (step_add_category inp s fs) as Hstep.
    destruct (add_category inp s) as [s1 rest1]. intros H Hr.
    eapply Hagain; [exact H | ]. eapply reachable_step; eassumption. }
  destruct (String.eqb choice "2").
  { pose proof (step_delete_category inp s fs) as Hstep.
    destruct (delete_category inp s) as [s1 rest1]. intros H Hr.
    eapply Hagain; [exact H | ]. eapply reachable_step; eassumption. }
  destruct (String.eqb (Text.lower choice) "x").
  { now intros [= <- _ _]. }
  intros H Hr. eapply Hagain; eassumption.
Qed.

Lemma budget_menu_reachable (fuel : nat) (inp : list string) (s : calc)
  (fs : filesystem blob) (s' : calc) (r : outcome (list string))
  (screens : list screen) :
  budget_menu fuel inp s = Some (s', r, screens) ->
  reachable (s, fs) -> reachable (s', fs).
Proof.
  revert inp s screens. induction fuel as [ | fuel IH]; intros inp s screens;
    [discriminate | ].
  destruct inp as [ | choice inp]; cbn [budget_menu].
  { now intros [= <- _ _]. }
  assert (Hagain : forall s1 rest1 screens1,
             match budget_menu fuel rest1 s1 with
             | Some (s'', r', later) =>
                 Some (s'', r', BudgetScreen (budget_screen s) :: later)
             | None => None
             end = Some (s', r, screens1) ->
             reachable (s1, fs) -> reachable (s', fs)).
  { intros s1 rest1 screens1 H Hr.
    destruct (budget_menu fuel rest1 s1) as [[[s2 r2] later] | ] eqn:E;
      [ | discriminate].
    injection H as <- <- _. eapply IH; eassumption. }
  destruct (String.eqb choice "1").
  { pose proof (step_set_budget inp s fs) as Hstep.
    destruct (set_budget inp s) as [s1 rest1]. intros H Hr.
    eapply Hagain; [exact H | ]. eapply reachable_step; eassumption. }
  destruct (String.eqb choice "2").
  { pose proof (step_set_category_budget inp s fs) as Hstep.
    destruct (set_category_budget inp s) as [[s1 rest1] | e]; intros H Hr.
    - eapply Hagain; [exact H | ]. eapply reachable_step; eassumption.
    - now injection H as <- _ _. }
  destruct (String.eqb choice "3").
  { pose proof (step_set_budget_interval inp s fs) as Hstep.
    destruct (set_budget_interval inp s) as [s1 rest1]. intros H Hr.
    eapply Hagain; [exact H | ]. eapply reachable_step; eassumption. }
  destruct (String.eqb (Text.lower choice) "x").
  { now intros [= <- _ _]. }
  intros H Hr. eapply Hagain; eassumption.
Qed.

Lemma run_ends (fuel : nat) (clock : nat -> DT.datetime) (tick : nat)
  (inp : list string) (w : world) :
  (List.length inp < fuel)%nat ->
  reachable w ->
  exists e w' screens,
    run fuel clock tick inp w = Some (e, w', screens) /\ reachable w'.
Proof.
  revert tick inp w.
  induction fuel as [ | fuel IH]; intros tick inp [s fs] Hlen Hr; [lia | ].
  cbn [run]. destruct (display_status (clock tick) s) as [report | e].
  2:{ do 3 eexists. split; [reflexivity | assumption]. }
  destruct inp as [ | choice rest].
  { do 3 eexists. split; [reflexivity | assumption]. }
  simpl in Hlen.
  assert (Hagain : forall w1 rest1 screens1,
             suffix rest1 rest -> reachable w1 ->
             exists e w' screens,
               match run fuel clock (S (S tick)) rest1 w1 with
               | Some (e, w'', later) =>
                   Some (e, w'', StatusScreen report :: screens1 ++ later)
               | None => None
               end = Some (e, w', screens)
               /\ reachable w').
  { intros w1 rest1 screens1 Hs Hr1. pose proof (suffix_length _ _ Hs) as Hl.
    destruct (IH (S (S tick)) rest1 w1) as (e & w' & later & -> & Hr');
      [lia | assumption | ].
    do 3 eexists. split; [reflexivity | assumption]. }
  destruct (String.eqb choice "1").
  { pose proof (step_add_expense (clock (S tick)) rest s fs) as Hstep.
    destruct (add_expense (clock (S tick)) rest s) as [[s1 rest1] | e] eqn:E.
    - apply add_expense_suffix in E.
      apply Hagain; [assumption | ]. eapply reachable_step; eassumption.
    - do 3 eexists. split; [reflexivity | assumption]. }
  destruct (String.eqb choice "2").
  { pose proof (add_money_suffix (clock (S tick)) rest s) as Hs.
    pose proof (step_add_money (clock (S tick)) rest s fs) as Hstep.
    destruct (add_money (clock (S tick)) rest s) as [s1 rest1].
    apply Hagain; [assumption | ]. eapply reachable_step; eassumption. }
  destruct (String.eqb choice "3").
  { apply Hagain; [apply suffix_refl | assumption]. }
  destruct (String.eqb choice "4").
  { destruct (budget_menu_enough fuel rest s)
      as (s1 & r & screens1 & Hm & Hs); [lia | ].
    rewrite Hm. pose proof (budget_menu_reachable _ _ _ fs _ _ _ Hm Hr) as Hr1.
    destruct r as [rest1 | e].
    - apply Hagain; [now apply Hs | assumption].
    - do 3 eexists. split; [reflexivity | assumption]. }
  destruct (String.eqb choice "5").
  { destruct (category_menu_enough fuel rest s)
      as (s1 & rest1 & screens1 & Hm & Hs); [lia | ].
    rewrite Hm. apply Hagain; [assumption | ].
    eapply category_menu_reachable; eassumption. }
  destruct (String.eqb choice "6").
  { destruct (clear_all_data rest s fs) as [[[s1 fs1] rest1] | e] eqn:E.
    - apply Hagain.
      + now apply clear_all_data_returned in E.
      + eapply reachable_step; [eassumption | ].
        eapply step_clear_all_data; eassumption.
    - do 3 eexists. split; [reflexivity | assumption]. }
  destruct (String.eqb (Text.lower choice) "x").
  { do 3 eexists. split; [reflexivity | ].
    eapply reachable_step; [eassumption | apply step_save]. }
  apply Hagain; [apply suffix_refl | assumption].
Qed.

(** What a run does to the file. *)
Definition file_after_run (inp : list string) (w : world) (e : ending)
  (w' : world) : Prop :=
  writable (snd w') = writable (snd w)
  /\ (e = Exited ->
      exists fs0, writable fs0 = writable (snd w)
                  /\ snd w' = save_data (fst w') fs0)
  /\ (e <> Exited -> Forall not_yes inp -> snd w' = snd w).

Lemma category_menu_suffix (fuel : nat) (inp : list string) (s s' : calc)
  (rest : list string) (screens : list screen) :
  category_menu fuel inp s = Some (s', rest, screens) -> suffix rest inp.
Proof.
  revert inp s screens. induction fuel as [ | fuel IH]; intros inp s screens;
    [discriminate | ].
  destruct inp as [ | choice inp]; cbn [category_menu].
  { intros [= _ <- _]. apply suffix_refl. }
  assert (Hagain : forall s1 rest1 screens1,
             suffix rest1 inp ->
             match category_menu fuel rest1 s1 with
             | Some (s'', rest', later) =>
                 Some (s'', rest', CategoryScreen (categories s) :: later)
             | None => None
             end = Some (s', rest, screens1) ->
             suffix rest (choice :: inp)).
  { intros s1 rest1 screens1 Hs H.
    destruct (category_menu fuel rest1 s1) as [[[s2 rest2] later] | ] eqn:E;
      [ | discriminate].
    injection H as <- <- _. apply suffix_cons.
    eapply suffix_trans; [eapply IH; eassumption | assumption]. }
  destruct (String.eqb choice "1").
  { pose proof (add_category_suffix inp s) as Hs.
    destruct (add_category inp s) as [s1 rest1]. intros H.
    eapply Hagain; eassumption. }
  destruct (String.eqb choice "2").
  { pose proof (delete_category_suffix inp s) as Hs.
    destruct (delete_category inp s) as [s1 rest1]. intros H.
    eapply Hagain; eassumption. }
  destruct (String.eqb (Text.lower choice) "x").
  { intros [= _ <- _]. apply suffix_cons, suffix_refl. }
  intros H. eapply Hagain; [apply suffix_refl | eassumption].
Qed.

Lemma budget_menu_suffix (fuel : nat) (inp : list string) (s s' : calc)
  (rest : list string) (screens : list screen) :
  budget_menu fuel inp s = Some (s', Ret rest, screens) -> suffix rest inp.
Proof.
  revert inp s screens. induction fuel as [ | fuel IH]; intros inp s screens;
    [discriminate | ].
  destruct inp as [ | choice inp]; cbn [budget_menu].
  { intros [= _ <- _]. apply suffix_refl. }
  assert (Hagain : forall s1 rest1 screens1,
             suffix rest1 inp ->
             match budget_menu fuel rest1 s1 with
             | Some (s'', r, later) =>
                 Some (s'', r, BudgetScreen (budget_screen s) :: later)
             | None => None
             end = Some (s', Ret rest, screens1) ->
             suffix rest (choice :: inp)).
  { intros s1 rest1 screens1 Hs H.
    destruct (budget_menu fuel rest1 s1) as [[[s2 r2] later] | ] eqn:E;
      [ | discriminate].
    injection H as <- -> _. apply suffix_cons.
    eapply suffix_trans; [eapply IH; eassumption | assumption]. }
  destruct (String.eqb choice "1").
  { pose proof (set_budget_suffix inp s) as Hs.
    destruct (set_budget inp s) as [s1 rest1]. intros H.
    eapply Hagain; eassumption. }
  destruct (String.eqb choice "2").
  { destruct (set_category_budget inp s) as [[s1 rest1] | e] eqn:E;
      [ | discriminate].
    apply set_category_budget_suffix in E. intros H.
    eapply Hagain; eassumption. }
  destruct (String.eqb choice "3").
  { pose proof (set_budget_interval_suffix inp s) as Hs.
    destruct (set_budget_interval inp s) as [s1 rest1]. intros H.
    eapply Hagain; eassumption. }
  destruct (String.eqb (Text.lower choice) "x").
  { intros [= _ <- _]. apply suffix_cons, suffix_refl. }
  intros H. eapply Hagain; [apply suffix_refl | eassumption].
Qed.

Lemma run_file (fuel : nat) (clock : nat -> DT.datetime) (tick : nat)
  (inp : list string) (w : world) (e : ending) (w' : world)
  (screens : list screen) :
  run fuel clock tick inp w = Some (e, w', screens) ->
  file_after_run inp w e w'.
Proof.
  revert tick inp w screens.
  induction fuel as [ | fuel IH]; intros tick inp [s fs] screens;
    [discriminate | ].
  cbn [run]. destruct (display_status (clock tick) s) as [report | ex].
  2:{ intros [= <- <- _].
      split; [reflexivity | split; [discriminate | reflexivity]]. }
  destruct inp as [ | choice rest].
  { intros [= <- <- _].
    split; [reflexivity | split; [discriminate | reflexivity]]. }
  assert (Hagain : forall s1 fs1 rest1 screens1,
             suffix rest1 rest ->
             writable fs1 = writable fs ->
             (Forall not_yes rest -> fs1 = fs) ->
             match run fuel clock (S (S tick)) rest1 (s1, fs1) with
             | Some (e, w'', later) =>
                 Some (e, w'', StatusScreen report :: screens1 ++ later)
             | None => None
             end = Some (e, w', screens) ->
             file_after_run (choice :: rest) (s, fs) e w').
  { intros s1 fs1 rest1 screens1 Hs Hw Hsame H.
    destruct (run fuel clock (S (S tick)) rest1 (s1, fs1))
      as [[[e1 w1] later] | ] eqn:E; [ | discriminate].
    injection H as <- <- _.
    destruct (IH _ _ _ _ E) as (Hw1 & Hexit & Hother).
    unfold file_after_run. simpl in *.
    split; [congruence | ]. split.
    - intros He. destruct (Hexit He) as (fs0 & Hw0 & Hf).
      exists fs0. split; [congruence | assumption].
    - intros He Hall. inversion Hall as [ | ? ? _ Hrest]; subst.
      rewrite (Hother He (suffix_Forall _ _ _ Hs Hrest)). now apply Hsame. }
  destruct (String.eqb choice "1").
  { destruct (add_expense (clock (S tick)) rest s) as [[s1 rest1] | ex] eqn:E.
    - apply add_expense_suffix in E. now apply Hagain.
    - intros [= <- <- _].
      split; [reflexivity | split; [discriminate | reflexivity]]. }
  destruct (String.eqb choice "2").
  { pose proof (add_money_suffix (clock (S tick)) rest s) as Hs.
    destruct (add_money (clock (S tick)) rest s) as [s1 rest1].
    now apply Hagain. }
  destruct (String.eqb choice "3").
  { apply Hagain; [apply suffix_refl | reflexivity | reflexivity]. }
  destruct (String.eqb choice "4").
  { destruct (budget_menu fuel rest s) as [[[s1 [rest1 | ex]] screens1] | ] eqn:E;
      [ | | discriminate].
    - apply Hagain; [ | reflexivity | reflexivity].
      eapply budget_menu_suffix; eassumption.
    - intros [= <- <- _].
      split; [reflexivity | split; [discriminate | reflexivity]]. }
  destruct (String.eqb choice "5").
  { destruct (category_menu fuel rest s) as [[[s1 rest1] screens1] | ] eqn:E;
      [ | discriminate].
    apply Hagain; [ | reflexivity | reflexivity].
    eapply category_menu_suffix; eassumption. }
  destruct (String.eqb choice "6").
  { destruct (clear_all_data rest s fs) as [[[s1 fs1] rest1] | ex] eqn:E.
    - apply clear_all_data_returned in E as (Hs & Hw & Hf).
      now apply Hagain.
    - intros [= <- <- _].
      split; [reflexivity | split; [discriminate | reflexivity]]. }
  destruct (String.eqb (Text.lower choice) "x").
  { intros [= <- <- _]. unfold file_after_run. simpl. split.
    - unfold save_data. destruct (writable fs) eqn:W; simpl; congruence.
    - split; [ | congruence]. intros _. now exists fs. }
  apply Hagain; [apply suffix_refl | reflexivity | reflexivity].
Qed.

(** X18. The main loop ends.  From any world reached from the first run,
    with more fuel than pending lines, [run] returns: it ends by the exit
    choice, by the end of the input or by an uncaught exception, after
    passing only through worlds that are themselves reached from the first
    run, so that all that holds of those holds at its end. *)
Theorem run_ends_in_a_reachable_world
  (fuel : nat) (clock : nat -> DT.datetime) (tick : nat)
  (inp : list string) (w : world) :
  pickle_round_trip ->
  (List.length inp < fuel)%nat ->
  reachable w ->
  exists e w' screens,
    run fuel clock tick inp w = Some (e, w', screens)
    /\ reachable w'
    /\ calc_ok (fst w')
    /\ calc_sound (fst w').
Proof.
  intros Hrt Hlen Hr.
  destruct (run_ends fuel clock tick inp w Hlen Hr)
    as (e & w' & screens & Hrun & Hr').
  exists e, w', screens. split; [assumption | ]. split; [assumption | ].
  split; [apply (reachable_ok w' Hrt Hr') | apply (reachable_sound w' Hrt Hr')].
Qed.

(** X19. What [run] leaves in the data file.  When it ends by the exit
    choice "x" and the file can be written, the file holds the pickled final
    calculator.  When it ends otherwise (the input ended at the main prompt,
    or an exception) and no pending line was a "yes", the file is exactly as
    it was before the run: nothing that was entered is saved.  The run never
    changes whether the file can be written. *)
Theorem run_and_the_file
  (fuel : nat) (clock : nat -> DT.datetime) (tick : nat)
  (inp : list string) (w : world) (e : ending) (w' : world)
  (screens : list screen) :
  run fuel clock tick inp w = Some (e, w', screens) ->
  writable (snd w') = writable (snd w)
  /\ (e = Exited -> writable (snd w) = true ->
      file (snd w') = Some (pickle_dump (data_of (fst w'))))
  /\ (e <> Exited -> Forall not_yes inp -> snd w' = snd w).
Proof.
  intros Hrun. destruct (run_file _ _ _ _ _ _ _ _ Hrun) as (Hw & Hexit & Hother).
  split; [assumption | ]. split; [ | assumption].
  intros He Hwr. destruct (Hexit He) as (fs0 & Hw0 & ->).
  unfold save_data. rewrite Hw0, Hwr. reflexivity.
Qed.

(** X20. Choosing "6" and then running out of input ends the program with
    an [EOFError] that nothing catches: whatever was answered to the
    confirmation, as long as it was neither "yes" nor "no", [run] stops
    there, with the calculator unchanged and without writing the file. *)
Theorem run_crashes_at_clear_prompt
  (fuel : nat) (clock : nat -> DT.datetime) (tick : nat)
  (answers : list string) (s : calc) (fs : filesystem blob)
  (report : status_report) :
  display_status (clock tick) s = Ret report ->
  Forall unclear answers ->
  run (S fuel) clock tick ("6" :: answers) (s, fs)
  = Some (Crashed EOFError, (s, fs), [StatusScreen report]).
Proof.
  intros Hstatus Hanswers. cbn [run]. rewrite Hstatus.
  cbn [String.eqb Ascii.eqb Bool.eqb].
  now rewrite (clear_all_data_end_of_input _ s fs Hanswers).
Qed.

(** X25. A number of more digits than [int] reads, typed at a category
    prompt, ends the program: [add_expense] and [set_category_budget] raise
    the [ValueError] of [int], neither they nor the menus nor [run] catch
    it, and [run] stops there with the calculator as it was and without
    writing the file, whether the prompt is that of "1. Add Expense" (after
    an accepted amount) or that of "2. Set Category Budget" in the budget
    menu. *)
Theorem run_crashes_at_category_prompt
  (fuel : nat) (clock : nat -> DT.datetime) (tick : nat)
  (amount_line line : string) (rest : list string) (amount : float)
  (s : calc) (fs : filesystem blob) (report : status_report) :
  display_status (clock tick) s = Ret report ->
  float_of_string amount_line = Some amount ->
  (amount <=? 0)%float = false ->
  too_long_number line ->
  add_expense (clock (S tick)) (amount_line :: line :: rest) s
  = Raise ValueError
  /\ set_category_budget (line :: rest) s = Raise ValueError
  /\ run (S fuel) clock tick ("1" :: amount_line :: line :: rest) (s, fs)
     = Some (Crashed ValueError, (s, fs), [StatusScreen report])
  /\ run (S (S fuel)) clock tick ("4" :: "2" :: line :: rest) (s, fs)
     = Some (Crashed ValueError, (s, fs),
             [StatusScreen report; BudgetScreen (budget_screen s)]).
Proof.
  intros Hstatus Hparse Hg Hlong.
  assert (He : add_expense (clock (S tick)) (amount_line :: line :: rest) s
               = Raise ValueError).
  { unfold add_expense. cbn [read_amount]. rewrite Hparse, Hg.
    now rewrite (read_category_too_long _ _ _ Hlong). }
  assert (Hb : set_category_budget (line :: rest) s = Raise ValueError).
  { unfold set_category_budget.
    now rewrite (read_category_too_long _ _ _ Hlong). }
  split; [exact He | ]. split; [exact Hb | ]. split.
  - cbn [run]. rewrite Hstatus. cbn [String.eqb Ascii.eqb Bool.eqb].
    now rewrite He.
  - cbn [run]. rewrite Hstatus. cbn [String.eqb Ascii.eqb Bool.eqb].
    cbn [budget_menu]. cbn [String.eqb Ascii.eqb Bool.eqb].
    now rewrite Hb.
Qed.

End Operations.

(** ** The calendar of the budget windows *)

Lemma days_before_year_split (a b c d : Z) :
  0 <= b <= 3 -> 0 <= c <= 24 -> 0 <= d <= 3 ->
  DT.days_before_year (a * 400 + 1 + b * 100 + c * 4 + d)
  = a * 146097 + b * 36524 + c * 1461 + d * 365.
Proof.
  intros Hb Hc Hd. unfold DT.days_before_year. cbv zeta.
  replace (a * 400 + 1 + b * 100 + c * 4 + d - 1)
    with (a * 400 + b * 100 + c * 4 + d) by lia.
  assert (H4 : (a * 400 + b * 100 + c * 4 + d) / 4 = a * 100 + b * 25 + c).
  { symmetry. apply (Z.div_unique _ _ _ d); lia. }
  assert (H100 : (a * 400 + b * 100 + c * 4 + d) / 100 = a * 4 + b).
  { symmetry. apply (Z.div_unique _ _ _ (c * 4 + d)); lia. }
  assert (H400 : (a * 400 + b * 100 + c * 4 + d) / 400 = a).
  { symmetry. apply (Z.div_unique _ _ _ (b * 100 + c * 4 + d)); lia. }
  rewrite H4, H100, H400. lia.
Qed.

Lemma mod_zero_at_top (k x : Z) :
  0 < x <= k -> (x mod k =? 0) = (x =? k).
Proof.
  intros Hx. destruct (Z.eqb_spec x k) as [-> | Hne].
  - rewrite Z.mod_same by lia. reflexivity.
  - rewrite Z.mod_small by lia. apply Z.eqb_neq. lia.
Qed.

Lemma is_leap_split (a b c d : Z) :
  0 <= b <= 3 -> 0 <= c <= 24 -> 0 <= d <= 3 ->
  DT.is_leap (a * 400 + 1 + b * 100 + c * 4 + d)
  = (d =? 3) && (negb (c =? 24) || (b =? 3)).
Proof.
  intros Hb Hc Hd. unfold DT.is_leap.
  set (y := a * 400 + 1 + b * 100 + c * 4 + d).
  assert (H4 : (y mod 4 =? 0) = (d =? 3)).
  { unfold y. replace (a * 400 + 1 + b * 100 + c * 4 + d)
      with ((d + 1) + (a * 100 + b * 25 + c) * 4) by lia.
    rewrite Z.mod_add, mod_zero_at_top by lia.
    destruct (Z.eqb_spec (d + 1) 4), (Z.eqb_spec d 3); try reflexivity; lia. }
  assert (H100 : (y mod 100 =? 0) = (c =? 24) && (d =? 3)).
  { unfold y. replace (a * 400 + 1 + b * 100 + c * 4 + d)
      with ((c * 4 + d + 1) + (a * 4 + b) * 100) by lia.
    rewrite Z.mod_add, mod_zero_at_top by lia.
    destruct (Z.eqb_spec (c * 4 + d + 1) 100), (Z.eqb_spec c 24),
      (Z.eqb_spec d 3); try reflexivity; lia. }
  assert (H400 : (y mod 400 =? 0) = (b =? 3) && (c =? 24) && (d =? 3)).
  { unfold y. replace (a * 400 + 1 + b * 100 + c * 4 + d)
      with ((b * 100 + c * 4 + d + 1) + a * 400) by lia.
    rewrite Z.mod_add, mod_zero_at_top by lia.
    destruct (Z.eqb_spec (b * 100 + c * 4 + d + 1) 400), (Z.eqb_spec b 3),
      (Z.eqb_spec c 24), (Z.eqb_spec d 3); try reflexivity; lia. }
  rewrite H4, H100, H400.
  destruct (d =? 3), (c =? 24), (b =? 3); reflexivity.
Qed.

Lemma month_step (m : Z) (leap : bool) :
  2 <= m <= 12 ->
  DT.DAYS_BEFORE_MONTH m + (if (2 <? m) && leap then 1 else 0)
  - (DT.DAYS_IN_MONTH (m - 1) + (if (m - 1 =? 2) && leap then 1 else 0))
  = DT.DAYS_BEFORE_MONTH (m - 1) + (if (2 <? m - 1) && leap then 1 else 0).
Proof.
  intros Hm.
  assert (H : m = 2 \/ m = 3 \/ m = 4 \/ m = 5 \/ m = 6 \/ m = 7 \/ m = 8
              \/ m = 9 \/ m = 10 \/ m = 11 \/ m = 12) by lia.
  destruct leap;
    destruct H
      as [-> | [-> | [-> | [-> | [-> | [-> | [-> | [-> | [-> | [-> | ->]]]]]]]]]];
    reflexivity.
Qed.

(** The date of an ordinal has that ordinal. *)
Lemma ord2ymd_ymd2ord (n : Z) :
  1 <= n ->
  let '(y, m, d) := DT.ord2ymd n in DT.ymd2ord y m d = n.
Proof.
  intros Hn. unfold DT.ord2ymd. cbv zeta.
  unfold DT.DI400Y, DT.DI100Y, DT.DI4Y.
  set (n0 := n - 1).
  pose proof (Z.div_mod n0 146097 ltac:(lia)) as E1.
  pose proof (Z.mod_pos_bound n0 146097 ltac:(lia)) as B1.
  set (a := n0 / 146097) in *. set (r1 := n0 mod 146097) in *.
  pose proof (Z.div_mod r1 36524 ltac:(lia)) as E2.
  pose proof (Z.mod_pos_bound r1 36524 ltac:(lia)) as B2.
  set (b := r1 / 36524) in *. set (r2 := r1 mod 36524) in *.
  pose proof (Z.div_mod r2 1461 ltac:(lia)) as E3.
  pose proof (Z.mod_pos_bound r2 1461 ltac:(lia)) as B3.
  set (c := r2 / 1461) in *. set (r3 := r2 mod 1461) in *.
  pose proof (Z.div_mod r3 365 ltac:(lia)) as E4.
  pose proof (Z.mod_pos_bound r3 365 ltac:(lia)) as B4.
  set (d := r3 / 365) in *. set (r4 := r3 mod 365) in *.
  assert (Hb : 0 <= b <= 4)
    by (unfold b; split;
        [apply Z.div_pos; lia | apply Z.lt_succ_r, Z.div_lt_upper_bound; lia]).
  assert (Hc : 0 <= c <= 24)
    by (unfold c; split;
        [apply Z.div_pos; lia | apply Z.lt_succ_r, Z.div_lt_upper_bound; lia]).
  assert (Hd : 0 <= d <= 4)
    by (unfold d; split;
        [apply Z.div_pos; lia | apply Z.lt_succ_r, Z.div_lt_upper_bound; lia]).
  destruct ((d =? 4) || (b =? 4)) eqn:Last.
  - (* the last day of a leap cycle *)
    unfold DT.ymd2ord, DT.days_before_month. simpl DT.DAYS_BEFORE_MONTH.
    replace (2 <? 12) with true by reflexivity. simpl andb.
    apply orb_true_iff in Last as [Hd4 | Hb4].
    + apply Z.eqb_eq in Hd4.
      assert (Hb3 : b <= 3 \/ b = 4) by lia.
      replace (a * 400 + 1 + b * 100 + c * 4 + d - 1)
        with (a * 400 + 1 + b * 100 + c * 4 + 3) by lia.
      destruct Hb3 as [Hb3 | Hb4]; [ | lia].
      rewrite days_before_year_split, is_leap_split by lia.
      replace (3 =? 3) with true by reflexivity.
      assert (Hc24 : c <> 24 \/ b = 3) by lia.
      replace (negb (c =? 24) || (b =? 3)) with true.
      * simpl. lia.
      * symmetry. apply orb_true_iff.
        destruct Hc24 as [H | H]; [left | right].
        -- apply negb_true_iff, Z.eqb_neq. exact H.
        -- now apply Z.eqb_eq.
    + apply Z.eqb_eq in Hb4.
      assert (r2 = 0 /\ c = 0 /\ d = 0 /\ r4 = 0) as (? & ? & ? & ?) by lia.
      replace (a * 400 + 1 + b * 100 + c * 4 + d - 1)
        with (a * 400 + 1 + 3 * 100 + 24 * 4 + 3) by lia.
      rewrite days_before_year_split, is_leap_split by lia.
      simpl. lia.
  - apply orb_false_iff in Last as [Hd4 Hb4].
    apply Z.eqb_neq in Hd4, Hb4.
    set (leapyear := (d =? 3) && (negb (c =? 24) || (b =? 3))).
    set (m := Z.shiftr (r4 + 50) 5).
    assert (Hm : 1 <= m <= 12).
    { unfold m. rewrite Z.shiftr_div_pow2 by lia. change (2 ^ 5) with 32.
      split; [apply Z.div_le_lower_bound; lia
             | apply Z.lt_succ_r, Z.div_lt_upper_bound; lia]. }
    assert (Hleap : DT.is_leap (a * 400 + 1 + b * 100 + c * 4 + d) = leapyear).
    { apply is_leap_split; lia. }
    assert (Hyear : DT.days_before_year (a * 400 + 1 + b * 100 + c * 4 + d)
                    = a * 146097 + b * 36524 + c * 1461 + d * 365).
    { apply days_before_year_split; lia. }
    destruct (r4 <? DT.DAYS_BEFORE_MONTH m
                    + (if (2 <? m) && leapyear then 1 else 0)) eqn:Early.
    + unfold DT.ymd2ord, DT.days_before_month. rewrite Hleap, Hyear.
      assert (Hm2 : 2 <= m).
      { destruct (Z.eq_dec m 1) as [E | E]; [ | lia].
        rewrite E in Early. simpl in Early. apply Z.ltb_lt in Early. lia. }
      rewrite <- (month_step m leapyear) by lia. lia.
    + unfold DT.ymd2ord, DT.days_before_month. rewrite Hleap, Hyear. lia.
Qed.

Lemma sub_days_toordinal (d r : DT.datetime) (k : Z) :
  DT.sub_days d k = Some r ->
  DT.toordinal r = DT.toordinal d - k
  /\ DT.hour r = DT.hour d /\ DT.minute r = DT.minute d
  /\ DT.second r = DT.second d /\ DT.microsecond r = DT.microsecond d.
Proof.
  unfold DT.sub_days. cbv zeta.
  destruct ((0 <? DT.toordinal d - k)
            && (DT.toordinal d - k <=? DT.MAXORDINAL)) eqn:E; [ | discriminate].
  apply andb_true_iff in E as [Hlo _]. apply Z.ltb_lt in Hlo.
  pose proof (ord2ymd_ymd2ord (DT.toordinal d - k) ltac:(lia)) as Hrt.
  destruct (DT.ord2ymd (DT.toordinal d - k)) as [[y m] dd].
  intros [= <-]. unfold DT.toordinal. simpl. repeat split. exact Hrt.
Qed.

Lemma monday_before (x : Z) : (x - (x + 6) mod 7 + 6) mod 7 = 0.
Proof.
  pose proof (Z.div_mod (x + 6) 7 ltac:(lia)) as H.
  replace (x - (x + 6) mod 7 + 6) with ((x + 6) / 7 * 7) by lia.
  apply Z.mod_mul. lia.
Qed.

Lemma diff_days_from_midnight (now : DT.datetime) :
  0 <= DT.micros_of_day now < 86400000000 ->
  DT.diff_days now DT.reference_monday
  = DT.toordinal now - DT.toordinal DT.reference_monday.
Proof.
  intros Hm. unfold DT.diff_days.
  change (DT.micros_of_day DT.reference_monday) with 0.
  symmetry. apply (Z.div_unique _ _ _ (DT.micros_of_day now - 0)); lia.
Qed.

(** X21. The window of the "week" interval starts on a Monday at 00:00:00,
    the Monday of the week of [now]: it is the day of [now] or one of the 6
    days before it. *)
Theorem week_starts_on_monday (now : DT.datetime) :
  7 <= DT.toordinal now <= DT.MAXORDINAL ->
  exists start,
    interval_start "Week" now = Some ("Spending this week", Ret start)
    /\ DT.weekday start = 0
    /\ DT.hour start = 0 /\ DT.minute start = 0
    /\ DT.second start = 0 /\ DT.microsecond start = 0
    /\ 0 <= DT.toordinal now - DT.toordinal start <= 6.
Proof.
  intros Hnow. pose proof (weekday_range now) as Hwd.
  assert (Hrange : 0 < DT.toordinal now - DT.weekday now <= DT.MAXORDINAL) by lia.
  destruct (sub_days_defined now (DT.weekday now) Hrange) as [r Hr].
  destruct (sub_days_toordinal _ _ _ Hr) as (Hord & _).
  exists (DT.replace_time_zero r). split.
  - unfold interval_start. cbn [Text.lower]. simpl String.eqb. now rewrite Hr.
  - assert (Hsame : DT.toordinal (DT.replace_time_zero r) = DT.toordinal r)
      by reflexivity.
    split.
    + unfold DT.weekday at 1. rewrite Hsame, Hord. unfold DT.weekday.
      apply monday_before.
    + repeat split; try reflexivity; rewrite Hsame, Hord; lia.
Qed.

(** X22. The window of the "bi-weekly" interval starts on a Monday at
    00:00:00, at most 13 days before the day of [now], and a whole number of
    14-day periods away from Monday 5 January 1970: the periods are fixed by
    the calendar, not by the day the budget was set. *)
Theorem bi_weekly_starts_on_even_monday (now : DT.datetime) :
  14 <= DT.toordinal now <= DT.MAXORDINAL ->
  0 <= DT.micros_of_day now < 86400000000 ->
  exists start,
    interval_start "Bi-Weekly" now
    = Some ("Spending this bi-weekly period", Ret start)
    /\ DT.weekday start = 0
    /\ DT.hour start = 0 /\ DT.minute start = 0
    /\ DT.second start = 0 /\ DT.microsecond start = 0
    /\ 0 <= DT.toordinal now - DT.toordinal start <= 13
    /\ (DT.toordinal start - DT.toordinal DT.reference_monday) mod 14 = 0.
Proof.
  intros Hnow Htime. pose proof (weekday_range now) as Hwd.
  set (weeks := DT.diff_days now DT.reference_monday / 7).
  set (back := if negb (weeks mod 2 =? 0) then DT.weekday now + 7
               else DT.weekday now).
  assert (Hback : DT.weekday now <= back <= DT.weekday now + 7).
  { unfold back. destruct (negb _); lia. }
  assert (Hrange : 0 < DT.toordinal now - back <= DT.MAXORDINAL) by lia.
  destruct (sub_days_defined now back Hrange) as [r Hr].
  destruct (sub_days_toordinal _ _ _ Hr) as (Hord & _).
  exists (DT.replace_time_zero r). split.
  - unfold interval_start. cbn [Text.lower]. simpl String.eqb.
    fold weeks. fold back. now rewrite Hr.
  - assert (Hsame : DT.toordinal (DT.replace_time_zero r) = DT.toordinal r)
      by reflexivity.
    rewrite Hsame, Hord.
    assert (Hweeks : weeks = (DT.toordinal now - 719167) / 7).
    { unfold weeks. now rewrite diff_days_from_midnight. }
    change (DT.toordinal DT.reference_monday) with 719167.
    unfold DT.weekday in *. rewrite Hsame, Hord.
    set (o := DT.toordinal now) in *.
    assert (Hmod : (o + 6) mod 7 = (o - 719167) mod 7).
    { replace (o + 6) with ((o - 719167) + 102739 * 7) by lia.
      apply Z.mod_add. lia. }
    pose proof (Z.div_mod (o - 719167) 7 ltac:(lia)) as Hdm.
    pose proof (Z.div_mod weeks 2 ltac:(lia)) as Hpar.
    pose proof (Z.mod_pos_bound weeks 2 ltac:(lia)) as Hpb.
    assert (Hstart : o - back - 719167 = 14 * (weeks / 2)).
    { unfold back. destruct (Z.eqb_spec (weeks mod 2) 0) as [E | E]; cbn [negb];
        lia. }
    split.
    + replace (o - back + 6) with ((2 * (weeks / 2) + 102739) * 7) by lia.
      apply Z.mod_mul. lia.
    + repeat split; try reflexivity; try lia.
      rewrite Hstart, Z.mul_comm. apply Z.mod_mul. lia.
Qed.

(** ** The order of dates *)

Lemma lex_compare_eq (a b : list Z) : DT.lex_compare a b = Eq -> a = b.
Proof.
  revert b. induction a as [ | x a IH]; intros [ | y b]; simpl;
    try discriminate; [reflexivity | ].
  destruct (Z.compare_spec x y) as [Hxy | Hxy | Hxy]; try discriminate.
  intros Hrest. subst. f_equal. now apply IH.
Qed.

Lemma lex_compare_antisym (a b : list Z) :
  DT.lex_compare b a = CompOpp (DT.lex_compare a b).
Proof.
  revert b. induction a as [ | x a IH]; intros [ | y b]; simpl;
    try reflexivity.
  rewrite (Z.compare_antisym x y).
  destruct (x ?= y)%Z; simpl; auto.
Qed.

Lemma lex_compare_trans (a b c : list Z) :
  DT.lex_compare a b <> Gt -> DT.lex_compare b c <> Gt ->
  DT.lex_compare a c <> Gt.
Proof.
  revert b c. induction a as [ | x a IH]; intros [ | y b] [ | z c]; simpl;
    try congruence.
  destruct (Z.compare_spec x y), (Z.compare_spec y z), (Z.compare_spec x z);
    subst; try congruence; try lia; try apply IH.
Qed.

Lemma fields_inj (a b : DT.datetime) : DT.fields a = DT.fields b -> a = b.
Proof.
  destruct a, b. unfold DT.fields. simpl. intros [= -> -> -> -> -> -> ->].
  reflexivity.
Qed.

Lemma leb_total (a b : DT.datetime) : DT.leb a b = false -> DT.leb b a = true.
Proof.
  unfold DT.leb, DT.compare.
  rewrite (lex_compare_antisym (DT.fields a) (DT.fields b)).
  destruct (DT.lex_compare (DT.fields a) (DT.fields b)); simpl; congruence.
Qed.

Lemma leb_trans (a b c : DT.datetime) :
  DT.leb a b = true -> DT.leb b c = true -> DT.leb a c = true.
Proof.
  unfold DT.leb, DT.compare. intros Hab Hbc.
  pose proof (lex_compare_trans (DT.fields a) (DT.fields b) (DT.fields c)) as H.
  destruct (DT.lex_compare (DT.fields a) (DT.fields b)),
           (DT.lex_compare (DT.fields b) (DT.fields c)),
           (DT.lex_compare (DT.fields a) (DT.fields c));
    try discriminate; try reflexivity; exfalso; apply H; congruence.
Qed.

Lemma leb_antisym (a b : DT.datetime) :
  DT.leb a b = true -> DT.leb b a = true -> a = b.
Proof.
  unfold DT.leb, DT.compare.
  rewrite (lex_compare_antisym (DT.fields a) (DT.fields b)).
  destruct (DT.lex_compare (DT.fields a) (DT.fields b)) eqn:E; simpl;
    try discriminate.
  intros _ _. now apply fields_inj, lex_compare_eq.
Qed.

(** ** Sorting the expenses by date *)

Lemma insert_by_date_perm (e : expense) (l : list expense) :
  Permutation (insert_by_date e l) (e :: l).
Proof.
  induction l as [ | x l IH]; simpl; [reflexivity | ].
  destruct (DT.leb (expense_date e) (expense_date x)); [reflexivity | ].
  rewrite IH. apply perm_swap.
Qed.

Lemma sorted_by_date_perm (l : list expense) :
  Permutation (sorted_by_date l) l.
Proof.
  induction l as [ | e l IH]; simpl; [reflexivity | ].
  rewrite insert_by_date_perm. now constructor.
Qed.

Lemma insert_by_date_sorted (e : expense) (l : list expense) :
  StronglySorted date_le l -> StronglySorted date_le (insert_by_date e l).
Proof.
  induction 1 as [ | x l Hs IH Hx]; simpl.
  - repeat constructor.
  - destruct (DT.leb (expense_date e) (expense_date x)) eqn:E.
    + constructor; [now constructor | ].
      constructor; [assumption | ].
      eapply Forall_impl; [ | exact Hx].
      intros y Hy. unfold date_le in *. eapply leb_trans; eassumption.
    + constructor; [assumption | ].
      apply (Permutation_Forall (x := e :: l));
        [symmetry; apply insert_by_date_perm | ].
      constructor; [ | assumption]. now apply leb_total.
Qed.

Lemma sorted_by_date_sorted (l : list expense) :
  StronglySorted date_le (sorted_by_date l).
Proof.
  induction l as [ | e l IH]; simpl; [constructor | ].
  now apply insert_by_date_sorted.
Qed.

(** With pairwise distinct dates there is one sorted arrangement. *)
Lemma sorted_unique (l1 l2 : list expense) :
  StronglySorted date_le l1 -> StronglySorted date_le l2 ->
  Permutation l1 l2 -> NoDup (map expense_date l1) -> l1 = l2.
Proof.
  intros Hs1. revert l2.
  induction Hs1 as [ | a l1 Hs1 IH Ha]; intros l2 Hs2 Hp Hnd.
  - now apply Permutation_nil in Hp.
  - destruct l2 as [ | b l2].
    { symmetry in Hp. now apply Permutation_nil in Hp. }
    inversion Hs2 as [ | ? ? Hs2' Hb]; subst.
    inversion Hnd as [ | ? ? Hnotin Hnd']; subst.
    assert (Hab : a = b).
    { assert (Hin_a : In a (b :: l2))
        by (eapply Permutation_in; [exact Hp | now left]).
      assert (Hin_b : In b (a :: l1))
        by (eapply Permutation_in; [symmetry; exact Hp | now left]).
      destruct Hin_a as [-> | Hin_a]; [reflexivity | ].
      destruct Hin_b as [-> | Hin_b]; [reflexivity | ].
      exfalso. apply Hnotin.
      rewrite Forall_forall in Ha, Hb.
      rewrite (leb_antisym _ _ (Ha b Hin_b) (Hb a Hin_a)).
      now apply in_map. }
    subst b. f_equal. apply IH; try assumption.
    eapply Permutation_cons_inv; eassumption.
Qed.

Lemma sorted_by_date_order_free (l1 l2 : list expense) :
  Permutation l1 l2 -> NoDup (map expense_date l1) ->
  sorted_by_date l1 = sorted_by_date l2.
Proof.
  intros Hp Hnd. apply sorted_unique.
  - apply sorted_by_date_sorted.
  - apply sorted_by_date_sorted.
  - now rewrite !sorted_by_date_perm.
  - apply (Permutation_NoDup (l := map expense_date l1)); [ | assumption].
    apply Permutation_map. symmetry. apply sorted_by_date_perm.
Qed.

(** ** The totals of the summary *)

Lemma summary_total (l : list expense) (total : float) (totals : Dict.t float) :
  fst (fold_left summary_step l (total, totals))
  = fold_left PrimFloat.add (map expense_amount l) total.
Proof.
  revert total totals.
  induction l as [ | [[date category] amount] l IH]; intros total totals;
    simpl; [reflexivity | ].
  apply IH.
Qed.

Lemma dict_get_set_same (k : string) (v default : float) (d : Dict.t float) :
  Dict.get k (Dict.set k v d) default = v.
Proof. unfold Dict.get. now rewrite dict_lookup_set_same. Qed.

Lemma dict_get_set_other (k k' : string) (v default : float) (d : Dict.t float) :
  k' <> k -> Dict.get k' (Dict.set k v d) default = Dict.get k' d default.
Proof. intros H. unfold Dict.get. now rewrite dict_lookup_set_other. Qed.

Lemma summary_category_total (c : string) (l : list expense)
  (total : float) (totals : Dict.t float) :
  Dict.lookup c (snd (fold_left summary_step l (total, totals)))
  = match amounts_of c l with
    | [] => Dict.lookup c totals
    | amounts =>
        Some (fold_left PrimFloat.add amounts (Dict.get c totals 0%float))
    end.
Proof.
  revert total totals.
  induction l as [ | [[date category] amount] l IH]; intros total totals;
    [reflexivity | ].
  cbn [fold_left summary_step]. rewrite IH. unfold amounts_of.
  cbn [filter expense_category fst snd].
  destruct (String.eqb c category) eqn:E.
  - apply String.eqb_eq in E. subst category.
    cbn [map expense_amount snd fold_left].
    rewrite dict_get_set_same, dict_lookup_set_same.
    now destruct (map _ _).
  - apply String.eqb_neq in E.
    rewrite dict_get_set_other, dict_lookup_set_other by assumption.
    reflexivity.
Qed.

(** C4, amended. When expenses are recorded, [update_summary] lists them in
    date order (a sorted rearrangement of the recorded list), its grand total
    is the sum of their amounts taken from 0 in that order, and the total of
    each category with an expense is the sum of that category's amounts taken
    from 0 in that order; and two calculators whose expenses are the same up
    to the order of entry give the same summary when no two expenses share a
    date. *)
Theorem summary_totals (s1 s2 : calc) :
  expenses s1 <> [] ->
  (exists r,
     update_summary s1 = Some r
     /\ sorted_expenses r = sorted_by_date (expenses s1)
     /\ Permutation (sorted_expenses r) (expenses s1)
     /\ StronglySorted date_le (sorted_expenses r)
     /\ total_spending r
        = running_sum (map expense_amount (sorted_expenses r))
     /\ forall c,
          Dict.lookup c (category_totals r)
          = match amounts_of c (sorted_expenses r) with
            | [] => None
            | amounts => Some (running_sum amounts)
            end)
  /\ (Permutation (expenses s1) (expenses s2) ->
      NoDup (map expense_date (expenses s1)) ->
      update_summary s1 = update_summary s2).
Proof.
  intros Hne. split.
  - unfold update_summary.
    destruct (expenses s1) as [ | e es] eqn:E; [congruence | ]. cbv zeta.
    remember (sorted_by_date (e :: es)) as sorted eqn:Hsorted.
    pose proof (summary_total sorted 0%float []) as Ht.
    pose proof (fun c => summary_category_total c sorted 0%float []) as Hc.
    destruct (fold_left summary_step sorted (0%float, [])) as [total totals]
      eqn:F.
    eexists. split; [reflexivity | ].
    cbn [sorted_expenses total_spending category_totals].
    subst sorted. repeat split.
    + apply (sorted_by_date_perm (e :: es)).
    + apply (sorted_by_date_sorted (e :: es)).
    + exact (eq_trans (eq_sym (f_equal fst F)) Ht).
    + intros c.
      exact (eq_trans (f_equal (Dict.lookup c) (eq_sym (f_equal snd F))) (Hc c)).
  - intros Hp Hnd. unfold update_summary.
    rewrite (sorted_by_date_order_free _ _ Hp Hnd).
    destruct (expenses s1) as [ | e es]; [congruence | ].
    destruct (expenses s2) as [ | e' es'];
      [now apply Permutation_sym, Permutation_nil in Hp | reflexivity].
Qed.

Lemma leb_refl (d : DT.datetime) : DT.leb d d = true.
Proof.
  destruct (DT.leb d d) eqn:E; [reflexivity | ].
  now rewrite (leb_total d d E) in E.
Qed.

Lemma sorted_by_date_of_sorted (l : list expense) :
  StronglySorted date_le l -> sorted_by_date l = l.
Proof.
  induction 1 as [ | e l Hs IH He]; simpl; [reflexivity | ].
  rewrite IH. destruct l as [ | x l']; [reflexivity | ].
  simpl. inversion He as [ | ? ? Hex _]; subst.
  unfold date_le in Hex. now rewrite Hex.
Qed.

(** The expenses of one date, in the order of the list. *)
Definition dated (d : DT.datetime) (l : list expense) : list expense :=
  filter (fun e => DT.leb d (expense_date e) && DT.leb (expense_date e) d) l.

Lemma insert_by_date_dated (d : DT.datetime) (e : expense) (l : list expense) :
  dated d (insert_by_date e l) = dated d (e :: l).
Proof.
  induction l as [ | x l IH]; [reflexivity | ].
  cbn [insert_by_date].
  destruct (DT.leb (expense_date e) (expense_date x)) eqn:E; [reflexivity | ].
  unfold dated in *. cbn [filter] in *. rewrite IH.
  destruct (DT.leb d (expense_date e) && DT.leb (expense_date e) d) eqn:De;
    [ | reflexivity].
  destruct (DT.leb d (expense_date x) && DT.leb (expense_date x) d) eqn:Dx;
    [ | reflexivity].
  apply andb_true_iff in De as [De1 De2], Dx as [Dx1 Dx2].
  rewrite (leb_trans _ _ _ De2 Dx1) in E. discriminate.
Qed.

(** X23. The summary lists the expenses of one date in the order in which
    they were entered: sorting by date is stable. *)
Theorem summary_keeps_entry_order_within_a_date (s : calc) (d : DT.datetime) :
  expenses s <> [] ->
  exists r,
    update_summary s = Some r
    /\ dated d (sorted_expenses r) = dated d (expenses s).
Proof.
  intros Hne. unfold update_summary.
  destruct (expenses s) as [ | e es] eqn:E; [congruence | ]. cbv zeta.
  destruct (fold_left summary_step (sorted_by_date (e :: es)) (0%float, []))
    as [total totals].
  eexists. split; [reflexivity | ]. cbn [sorted_expenses].
  generalize (e :: es). intros l.
  induction l as [ | x l IH]; [reflexivity | ].
  cbn [sorted_by_date fold_right]. rewrite insert_by_date_dated.
  unfold dated in *. cbn [filter]. fold (sorted_by_date l). now rewrite IH.
Qed.

(** X24. The budget menu shows the category lines of the status screen,
    whatever the calculator holds; and when the expenses were entered in date
    order, the summary lists them in the order of entry and its "Total
    Spending" is the sum of the amounts taken from 0 in that order. *)
Theorem summary_and_budget_menu_agree (s : calc) :
  menu_lines (budget_screen s) = category_lines s
  /\ (StronglySorted date_le (expenses s) ->
      expenses s <> [] ->
      exists r,
        update_summary s = Some r
        /\ sorted_expenses r = expenses s
        /\ total_spending r = running_sum (map expense_amount (expenses s))).
Proof.
  split.
  { unfold budget_screen, category_lines. cbn [menu_lines].
    now destruct (category_budgets s). }
  intros Hsorted Hne. unfold update_summary.
  destruct (expenses s) as [ | e es] eqn:E; [congruence | ]. cbv zeta.
  rewrite (sorted_by_date_of_sorted _ Hsorted).
  pose proof (summary_total (e :: es) 0%float []) as Ht.
  destruct (fold_left summary_step (e :: es) (0%float, [])) as [total totals]
    eqn:F.
  eexists. split; [reflexivity | ].
  cbn [sorted_expenses total_spending]. split; [reflexivity | ].
  exact (eq_trans (eq_sym (f_equal fst F)) Ht).
Qed.

(** ** Sample library functions

    Restrictions of the library functions to a few inputs, on which they
    agree with the interpreter; they serve to run the operations. *)

(** The number that a few decimal digits write. *)
Definition digits_value (text : string) : Z := Text.int_from 0 text.

(** [float] on at most 18 decimal digits: the nearest float of the integer. *)
Definition float_of_digits (text : string) : option float :=
  if Text.isdigit text && (String.length text <=? 18)%nat
  then Some (PrimFloat.of_uint63 (Uint63.of_Z (digits_value text)))
  else None.

(** [strptime(text, "%Y-%m-%d")] on the ten characters [YYYY-MM-DD]. *)
Definition strptime_iso (text : string) : option DT.datetime :=
  let y := substring 0 4 text in
  let m := substring 5 2 text in
  let d := substring 8 2 text in
  if (String.length text =? 10)%nat
     && String.eqb (substring 4 1 text) "-"
     && String.eqb (substring 7 1 text) "-"
     && Text.isdigit y && Text.isdigit m && Text.isdigit d
     && (1 <=? digits_value y)
     && (1 <=? digits_value m) && (digits_value m <=? 12)
     && (1 <=? digits_value d)
     && (digits_value d <=? DT.days_in_month (digits_value y) (digits_value m))
  then Some (DT.mk (digits_value y) (digits_value m) (digits_value d) 0 0 0 0)
  else None.

(** A pickle whose bytes are the dictionary itself. *)
Definition sample_dump (d : pickled) : pickled := d.
Definition sample_load (b : pickled) : option pickled := Some b.

Definition no_file : filesystem pickled := {| file := None; writable := true |}.

Definition sample_init : calc := init pickled sample_load no_file.

Example float_of_digits_40 : float_of_digits "40" = Some 40%float.
Proof. vm_compute. reflexivity. Qed.

Example strptime_iso_leap : strptime_iso "2024-02-29"
                            = Some (DT.mk 2024 2 29 0 0 0 0).
Proof. vm_compute. reflexivity. Qed.

Example strptime_iso_rejects : strptime_iso "2023-02-29" = None.
Proof. vm_compute. reflexivity. Qed.

Example sample_init_budgets :
  category_budgets sample_init
  = [("Food", 0%float); ("Housing", 0%float); ("Transportation", 0%float);
     ("Entertainment", 0%float); ("Utilities", 0%float); ("Other", 0%float)].
Proof. vm_compute. reflexivity. Qed.

Definition march_15_noon : DT.datetime := DT.mk 2024 3 15 12 0 0 0.

Definition jan_10 : DT.datetime := DT.mk 2024 1 10 0 0 0 0.

(** ** The summary and the order of entry *)

(** One dialogue of [add_expense], on the lines given. *)
Definition enter (lines : list string) (s : calc) : calc :=
  state_after (add_expense float_of_digits strptime_iso march_15_noon lines s)
              s.

(** Three expenses of one day, entered largest first and largest last. *)
Definition largest_first : calc :=
  enter ["1"; "Food"; "2024-01-10"]
        (enter ["1"; "Food"; "2024-01-10"]
               (enter ["10000000000000000"; "Housing"; "2024-01-10"]
                      sample_init)).

Definition largest_last : calc :=
  enter ["10000000000000000"; "Housing"; "2024-01-10"]
        (enter ["1"; "Food"; "2024-01-10"]
               (enter ["1"; "Food"; "2024-01-10"] sample_init)).

Example largest_first_expenses :
  expenses largest_first
  = [(jan_10, "Housing", 1e16%float); (jan_10, "Food", 1%float);
     (jan_10, "Food", 1%float)].
Proof. vm_compute. reflexivity. Qed.

Example largest_last_expenses :
  expenses largest_last
  = [(jan_10, "Food", 1%float); (jan_10, "Food", 1%float);
     (jan_10, "Housing", 1e16%float)].
Proof. vm_compute. reflexivity. Qed.

Example largest_first_total :
  option_map total_spending (update_summary largest_first) = Some 1e16%float.
Proof. vm_compute. reflexivity. Qed.

Example largest_last_total :
  option_map total_spending (update_summary largest_last)
  = Some 10000000000000002%float.
Proof. vm_compute. reflexivity. Qed.

(** C4, as stated, fails: the same three expenses of one day total
    10000000000000000.00 entered largest first and 10000000000000002.00
    entered largest last. *)
Lemma total_depends_on_order : ~ total_is_order_free.
Proof.
  intros H. specialize (H largest_first largest_last).
  assert (Hp : Permutation (expenses largest_first) (expenses largest_last)).
  { rewrite largest_first_expenses, largest_last_expenses.
    eapply perm_trans; [apply perm_swap | ].
    apply perm_skip, perm_swap. }
  specialize (H Hp). vm_compute in H. discriminate H.
Qed.

(** ** The spending of the current period *)

(** A first run: the budget is set to 100 (the interval is "Month"), and one
    expense of 40 is entered for the first day of the month. *)
Definition budgeted : calc :=
  fst (set_budget float_of_digits ["100"] sample_init).

Definition spent_on_the_first : calc :=
  enter ["40"; "Food"; "2024-03-01"] budgeted.

(** The same with the interval "Week" and the expense on that week's Monday. *)
Definition spent_on_monday : calc :=
  enter ["40"; "Food"; "2024-03-11"]
        (fst (set_budget_interval ["week"] budgeted)).

Example spent_on_the_first_state :
  expenses spent_on_the_first = [(DT.mk 2024 3 1 0 0 0 0, "Food", 40%float)]
  /\ budget spent_on_the_first = 100%float
  /\ budget_interval spent_on_the_first = "Month"
  /\ balance spent_on_the_first = (-40)%float.
Proof. vm_compute. repeat split. Qed.

(** The "week" branch starts its window at midnight: the Monday counts. *)
Example display_status_week_counts_monday :
  interval_start "Week" march_15_noon
  = Some ("Spending this week", Ret (DT.mk 2024 3 11 0 0 0 0))
  /\ exists r,
       display_status march_15_noon spent_on_monday = Ret r
       /\ shown_budget r
          = Some ("Week", 100%float,
                  Some {| period_label := "Spending this week";
                          period_spending := 40%float;
                          period_remaining := 60%float |}).
Proof. vm_compute. split; [reflexivity | ]. eexists. split; reflexivity. Qed.

(** On the first day of a month the window of the "month" branch is
    [[now, now]]: an expense entered a second earlier with the default date
    is already outside. *)
Example display_status_month_on_the_first :
  let entered := DT.mk 2024 3 1 14 0 0 0 in
  let shown := DT.mk 2024 3 1 14 0 1 0 in
  let s := state_after (add_expense float_of_digits strptime_iso entered
                                    ["40"; "Food"; ""] budgeted)
                       budgeted in
  expenses s = [(entered, "Food", 40%float)]
  /\ exists r,
       display_status shown s = Ret r
       /\ shown_budget r
          = Some ("Month", 100%float,
                  Some {| period_label := "Spending this month";
                          period_spending := 0%float;
                          period_remaining := 100%float |}).
Proof. vm_compute. split; [reflexivity | ]. eexists. split; reflexivity. Qed.

(** C5 on the code: the "month" branch keeps the time of day of [now] in the
    start of its window ([now.replace(day=1)]), so on 15 March at noon the
    window starts on 1 March at noon, and the expense of 40 dated 1 March
    (midnight, as [strptime] dates it) is left out: the report shows a
    spending of 0 and a remaining budget of 100, where the window from the
    start of the month holds 40. *)
Theorem display_status_month_misses_first_day :
  interval_start "Month" march_15_noon
  = Some ("Spending this month", Ret (DT.mk 2024 3 1 12 0 0 0))
  /\ (exists r,
        display_status march_15_noon spent_on_the_first = Ret r
        /\ shown_budget r
           = Some ("Month", 100%float,
                   Some {| period_label := "Spending this month";
                           period_spending := 0%float;
                           period_remaining := 100%float |}))
  /\ spent_between (DT.mk 2024 3 1 0 0 0 0) march_15_noon
                   (expenses spent_on_the_first)
     = 40%float.
Proof.
  vm_compute. split; [reflexivity | ]. split; [ | reflexivity].
  eexists. split; reflexivity.
Qed.

(** What [display_status] shows of the budget, in general: the spending is
    the sum over the window from the start the branch computes to [now], and
    the remaining budget is the budget minus that spending. *)
Lemma display_status_period (now start : DT.datetime) (label : string) (s : calc) :
  (0 <? budget s)%float = true ->
  interval_start (budget_interval s) now = Some (label, Ret start) ->
  exists r,
    display_status now s = Ret r
    /\ shown_budget r
       = Some (budget_interval s, budget s,
               Some {| period_label := label;
                       period_spending := spent_between start now (expenses s);
                       period_remaining :=
                         (budget s - spent_between start now (expenses s))%float |}).
Proof.
  intros Hb Hi. unfold display_status. rewrite Hb, Hi.
  eexists. split; reflexivity.
Qed.

(** The "month" and "year" branches leave the time of day of [now] in the
    start of the window; the "day" branch resets it. *)
Lemma interval_start_time_of_day (now : DT.datetime) :
  interval_start "Month" now
  = Some ("Spending this month",
          Ret (DT.mk (DT.year now) (DT.month now) 1 (DT.hour now)
                     (DT.minute now) (DT.second now) (DT.microsecond now)))
  /\ interval_start "Year" now
     = Some ("Spending this year",
             Ret (DT.mk (DT.year now) 1 1 (DT.hour now)
                        (DT.minute now) (DT.second now) (DT.microsecond now)))
  /\ interval_start "Day" now
     = Some ("Spending today",
             Ret (DT.mk (DT.year now) (DT.month now) (DT.day now) 0 0 0 0)).
Proof. repeat split. Qed.

(** ** An expense that the balance does not show *)

(** A first run in which one expense of 10000000000000000 is entered. *)
Definition overdrawn : calc :=
  enter ["10000000000000000"; "Housing"; "2024-01-10"] sample_init.

Lemma overdrawn_reachable :
  reachable float_of_digits strptime_iso pickled sample_dump sample_load
            (overdrawn, no_file).
Proof.
  apply (reachable_step _ _ _ _ _ (sample_init, no_file)).
  - apply reachable_first. split; reflexivity.
  - apply (step_add_expense float_of_digits strptime_iso pickled sample_dump
             sample_load march_15_noon
             ["10000000000000000"; "Housing"; "2024-01-10"] sample_init
             no_file).
Qed.

(** C1, as stated, fails: with the balance at -10000000000000000, the valid
    expense of 1 for "Food" on 2024-01-10 is recorded, and the balance after
    it is the balance before it: it has not decreased, by 1 or at all (the
    binary64 difference rounds back to the old balance). *)
Lemma add_expense_can_leave_the_balance :
  balance overdrawn = (-1e16)%float
  /\ float_of_digits "1" = Some 1%float
  /\ (0 <? 1)%float = true
  /\ In "Food" (categories overdrawn)
  /\ strptime_iso "2024-01-10" = Some jan_10
  /\ exists s',
       add_expense float_of_digits strptime_iso march_15_noon
                   ["1"; "Food"; "2024-01-10"] overdrawn
       = Ret (s', [])
       /\ expenses s' = expenses overdrawn ++ [(jan_10, "Food", 1%float)]
       /\ balance s' = balance overdrawn
       /\ (balance s' <? balance overdrawn)%float = false
       /\ (balance overdrawn - balance s')%float = 0%float.
Proof.
  split; [vm_compute; reflexivity | ].
  split; [vm_compute; reflexivity | ].
  split; [reflexivity | ].
  split; [vm_compute; now left | ].
  split; [vm_compute; reflexivity | ].
  eexists. split; [vm_compute; reflexivity | ].
  vm_compute. repeat split.
Qed.

(** ** The theorems at concrete inputs *)

Lemma designates_food : designates (categories sample_init) "Food" "Food".
Proof.
  split; [reflexivity | ]. right.
  split; [reflexivity | ]. split; [reflexivity | ].
  split; [reflexivity | now left].
Qed.

Example numeral_12 : numeral 12 = "12".
Proof. reflexivity. Qed.

Lemma designates_second : designates (categories sample_init) "2" "Housing".
Proof.
  split; [reflexivity | ]. left.
  split; [reflexivity | ]. exists 2.
  split; [vm_compute; reflexivity | ]. split; [lia | reflexivity].
Qed.

Lemma sample_round_trip : pickle_round_trip pickled sample_dump sample_load.
Proof. intros d. reflexivity. Qed.

Lemma add_expense_valid_input_witness :
  exists s',
    add_expense float_of_digits strptime_iso march_15_noon
                ["50"; "Food"; "2024-01-10"] sample_init
    = Ret (s', [])
    /\ expenses s' = [(jan_10, "Food", 50%float)]
    /\ balance s' = (0 - 50)%float
    /\ transaction_history s' = [("Expense", jan_10, "Food", 50%float)].
Proof.
  destruct (add_expense_valid_input float_of_digits strptime_iso march_15_noon
              sample_init "50" "2024-01-10" [] 50%float "Food" jan_10)
    as (_ & Hrun).
  - vm_compute. reflexivity.
  - vm_compute. reflexivity.
  - vm_compute. now left.
  - reflexivity.
  - vm_compute. reflexivity.
  - destruct (Hrun "Food" designates_food) as (s' & Hs' & He & Hb & Hh & _).
    exists s'. repeat split; assumption.
Defined.

Lemma add_expense_empty_date_is_now_witness :
  add_expense float_of_digits strptime_iso march_15_noon
              ["30"; "2"; ""; "x"] sample_init
  = Ret (record_expense march_15_noon "Housing" 30%float sample_init, ["x"])
  /\ expenses (record_expense march_15_noon "Housing" 30%float sample_init)
     = expenses sample_init ++ [(march_15_noon, "Housing", 30%float)]
  /\ read_date strptime_iso march_15_noon [""; "x"] = (Some march_15_noon, ["x"]).
Proof.
  apply (add_expense_empty_date_is_now float_of_digits strptime_iso
           march_15_noon sample_init "30" "2" ["x"] 30%float "Housing").
  - vm_compute. reflexivity.
  - vm_compute. reflexivity.
  - exact designates_second.
Defined.

Lemma save_then_load_witness :
  let s' := load_data pickled sample_load fresh
              (save_data pickled sample_dump spent_on_the_first no_file) in
  expenses s' = expenses spent_on_the_first
  /\ categories s' = categories spent_on_the_first
  /\ balance s' = balance spent_on_the_first
  /\ transaction_history s' = transaction_history spent_on_the_first
  /\ budget s' = budget spent_on_the_first
  /\ budget_interval s' = budget_interval spent_on_the_first
  /\ category_budgets s' = category_budgets spent_on_the_first.
Proof.
  apply (save_then_load pickled sample_dump sample_load spent_on_the_first
           fresh no_file).
  - exact sample_round_trip.
  - reflexivity.
Defined.

Lemma unclear_maybe : Forall unclear ["maybe"].
Proof.
  constructor; [ | constructor].
  split; vm_compute; discriminate.
Qed.


Lemma clear_all_data_no_witness :
  clear_all_data pickled sample_dump ["maybe"; "No"; "x"]
                 spent_on_the_first no_file
  = Ret (spent_on_the_first, no_file, ["x"]).
Proof.
  apply (clear_all_data_no pickled sample_dump ["maybe"] "No" ["x"]
           spent_on_the_first no_file unclear_maybe).
  reflexivity.
Defined.

(** The world after the expense of the first of March, in a first run. *)
Definition after_expense : world pickled := (spent_on_the_first, no_file).

Lemma after_expense_reachable :
  reachable float_of_digits strptime_iso pickled sample_dump sample_load
            after_expense.
Proof.
  apply (reachable_step _ _ _ _ _ (budgeted, no_file)).
  - apply (reachable_step _ _ _ _ _ (sample_init, no_file)).
    + apply reachable_first. split; reflexivity.
    + apply (step_set_budget float_of_digits strptime_iso pickled sample_dump
               sample_load ["100"] sample_init no_file).
  - apply (step_add_expense float_of_digits strptime_iso pickled sample_dump
             sample_load march_15_noon ["40"; "Food"; "2024-03-01"] budgeted
             no_file).
Qed.

(** A first run in which five deposits are made: the history is full. *)
Definition deposit (line : string) (s : calc) : calc :=
  fst (add_money float_of_digits march_15_noon [line] s).

Definition five_deposits : calc :=
  deposit "5" (deposit "4" (deposit "3" (deposit "2" (deposit "1" sample_init)))).

Definition deposit_of (amount : float) : transaction :=
  ("Deposit", march_15_noon, "Deposit", amount).

Example five_deposits_history :
  transaction_history five_deposits
  = [deposit_of 1; deposit_of 2; deposit_of 3; deposit_of 4; deposit_of 5].
Proof. vm_compute. reflexivity. Qed.

Lemma five_deposits_reachable :
  reachable float_of_digits strptime_iso pickled sample_dump sample_load
            (five_deposits, no_file).
Proof.
  unfold five_deposits.
  repeat
    (eapply reachable_step;
     [ | apply (step_add_money float_of_digits strptime_iso pickled sample_dump
                  sample_load march_15_noon [_] _ no_file)]).
  apply reachable_first. split; reflexivity.
Qed.

Lemma history_bounded_fifo_witness :
  history_length five_deposits = 5%nat
  /\ List.length (transaction_history five_deposits) = 5%nat
  /\ (exists s',
        add_money float_of_digits march_15_noon ["6"; "x"] five_deposits
        = (s', ["x"])
        /\ transaction_history s'
           = [deposit_of 2; deposit_of 3; deposit_of 4; deposit_of 5;
              deposit_of 6])
  /\ (exists s',
        add_expense float_of_digits strptime_iso march_15_noon
                    ["7"; "Food"; "2024-01-10"; "x"] five_deposits
        = Ret (s', ["x"])
        /\ transaction_history s'
           = [deposit_of 2; deposit_of 3; deposit_of 4; deposit_of 5;
              ("Expense", jan_10, "Food", 7%float)]).
Proof.
  destruct (history_bounded_fifo float_of_digits strptime_iso pickled
              sample_dump sample_load (five_deposits, no_file)
              sample_round_trip five_deposits_reachable)
    as (Hl & _ & He & Hm).
  split; [exact Hl | ]. split; [reflexivity | ]. split.
  - destruct (Hm march_15_noon "6" ["x"] 6%float eq_refl eq_refl)
      as (s' & Hrun & _ & Hfull).
    exists s'. split; [exact Hrun | ].
    rewrite (Hfull eq_refl). vm_compute. reflexivity.
  - destruct (He march_15_noon "7" "Food" "2024-01-10" ["x"] 7%float "Food"
                 jan_10 eq_refl eq_refl designates_food
                 (or_intror (conj eq_refl eq_refl)))
      as (s' & Hrun & _ & Hfull).
    exists s'. split; [exact Hrun | ].
    rewrite (Hfull eq_refl). vm_compute. reflexivity.
Defined.

Lemma budget_keys_within_categories_witness :
  incl (Dict.keys (category_budgets (fst after_expense)))
       (categories (fst after_expense)).
Proof.
  destruct (budget_keys_within_categories float_of_digits strptime_iso pickled
              sample_dump sample_load after_expense sample_round_trip
              after_expense_reachable) as [Hkeys _].
  exact Hkeys.
Defined.



Lemma summary_totals_witness :
  exists r,
    update_summary largest_first = Some r
    /\ total_spending r
       = running_sum (map expense_amount (sorted_expenses r)).
Proof.
  destruct (summary_totals largest_first largest_last)
    as ((r & Hr & _ & _ & _ & Ht & _) & _).
  - rewrite largest_first_expenses. discriminate.
  - exists r. split; assumption.
Defined.

(** ** The further theorems at concrete inputs *)

(** [float] on "nan" and on digits. *)
Definition float_of_text (text : string) : option float :=
  if String.eqb text "nan" then Some nan else float_of_digits text.

(** A run of the program with the sample library functions, at a clock that
    stands still. *)
Definition sample_run (fuel : nat) (inp : list string) (w : world pickled)
  : option (ending * world pickled * list screen) :=
  run float_of_digits strptime_iso pickled sample_dump fuel
      (fun _ => march_15_noon) 0 inp w.

(** A file that holds the calculator [spent_on_the_first] and cannot be
    written. *)
Definition read_only_file : filesystem pickled :=
  {| file := Some (sample_dump (data_of spent_on_the_first));
     writable := false |}.

Lemma spent_on_the_first_ok : calc_ok spent_on_the_first.
Proof.
  apply (reachable_ok float_of_digits strptime_iso pickled sample_dump
           sample_load after_expense sample_round_trip after_expense_reachable).
Qed.

Lemma march_15_in_range : 14 <= DT.toordinal march_15_noon <= DT.MAXORDINAL.
Proof. split; vm_compute; discriminate. Qed.

Lemma add_expense_asks_again_witness :
  add_expense float_of_digits strptime_iso march_15_noon
    (["abc"; "0"] ++ "50" :: ["9"; "Nowhere"] ++ "Food"
       :: ["yesterday"] ++ ["2024-01-10"]) sample_init
  = add_expense float_of_digits strptime_iso march_15_noon
      ["50"; "Food"; "2024-01-10"] sample_init.
Proof.
  apply (add_expense_asks_again float_of_digits strptime_iso march_15_noon
           sample_init ["abc"; "0"] ["9"; "Nowhere"] ["yesterday"]
           "50" "Food" 50%float "Food" ["2024-01-10"]).
  - constructor; [now left | ]. constructor; [ | constructor].
    right. exists 0%float. split; reflexivity.
  - vm_compute. reflexivity.
  - reflexivity.
  - constructor; [ | constructor; [ | constructor]].
    + split; [reflexivity | ]. left. split; [reflexivity | ].
      exists 9. split; vm_compute; reflexivity.
    + split; [reflexivity | ]. right. repeat split.
  - exact designates_food.
  - constructor; [ | constructor]. split; reflexivity.
Defined.

Lemma add_expense_accepts_nan_witness :
  exists s',
    add_expense float_of_text strptime_iso march_15_noon
                ["nan"; "Food"; "2024-01-10"] sample_init
    = Ret (s', [])
    /\ PrimFloat.is_nan (balance s') = true.
Proof.
  destruct (add_expense_accepts_nan float_of_text strptime_iso march_15_noon
              sample_init "nan" "Food" "2024-01-10" [] "Food" jan_10)
    as (s' & Hrun & _ & _ & Hnan).
  - reflexivity.
  - exact designates_food.
  - reflexivity.
  - vm_compute. reflexivity.
  - exists s'. split; assumption.
Defined.

Lemma add_category_outcome_witness :
  exists s',
    add_category ["Food"; "Pets"; "x"] sample_init = (s', ["x"])
    /\ categories s' = categories sample_init ++ ["Pets"]
    /\ Dict.lookup "Pets" (category_budgets s') = Some 0%float
    /\ read_category (categories s') ["7"] = Ret (Some "Pets", []).
Proof.
  destruct (add_category_outcome ["Food"] "Pets" ["x"] sample_init)
    as (s' & Hrun & Hcats & Hbudget & _ & _ & _ & Hnumber).
  - constructor; [ | constructor]. split; [reflexivity | ].
    vm_compute. now left.
  - reflexivity.
  - vm_compute. intros H. repeat destruct H as [H | H]; try discriminate H.
    exact H.
  - exists s'. repeat split; try assumption. apply (Hnumber []).
    apply Nat.leb_le. reflexivity.
Defined.

Lemma not_a_category (name : string) :
  Text.mem name (categories spent_on_the_first) = false ->
  ~ In name (categories spent_on_the_first).
Proof. apply mem_false. Qed.

Lemma add_then_delete_category_witness :
  fst (delete_category ["Pets"]
         (fst (add_category ["Pets"] spent_on_the_first)))
  = spent_on_the_first.
Proof.
  apply (add_then_delete_category "Pets" spent_on_the_first).
  - exact spent_on_the_first_ok.
  - reflexivity.
  - apply not_a_category. reflexivity.
Defined.


Lemma reachable_worlds_are_sound_witness :
  In (budget_interval (fst after_expense)) budget_intervals
  /\ Forall (fun e => (expense_amount e <=? 0)%float = false)
            (expenses (fst after_expense)).
Proof.
  destruct (reachable_worlds_are_sound float_of_digits strptime_iso pickled
              sample_dump sample_load after_expense sample_round_trip
              after_expense_reachable) as (Hi & _ & _ & Ha & _).
  split; assumption.
Defined.

Lemma status_of_reachable_world_witness :
  exists r,
    display_status march_15_noon (fst after_expense) = Ret r
    /\ (List.length (shown_transactions r) <= 5)%nat.
Proof.
  destruct (status_of_reachable_world float_of_digits strptime_iso pickled
              sample_dump sample_load after_expense march_15_noon
              sample_round_trip after_expense_reachable march_15_in_range)
    as (r & Hr & _ & _ & Hlen & _).
  exists r. split; assumption.
Defined.

Lemma load_data_falls_back_witness :
  load_data pickled sample_load spent_on_the_first no_file
  = spent_on_the_first
  /\ categories (init pickled sample_load no_file) = default_categories.
Proof.
  destruct (load_data_falls_back pickled sample_load spent_on_the_first
              no_file (or_introl eq_refl))
    as (Hload & _ & _ & _ & _ & Hcats & _).
  split; assumption.
Defined.

Lemma save_then_new_run_witness :
  init pickled sample_load
       (save_data pickled sample_dump spent_on_the_first no_file)
  = spent_on_the_first.
Proof.
  destruct (save_then_new_run pickled sample_dump sample_load
              spent_on_the_first no_file sample_round_trip eq_refl
              spent_on_the_first_ok) as (_ & _ & _ & _ & _ & _ & _ & _ & Hsame).
  apply Hsame. intros c Hc. vm_compute in Hc.
  repeat destruct Hc as [<- | Hc]; try reflexivity. destruct Hc.
Defined.

Lemma clear_without_save_comes_back_witness :
  clear_all_data pickled sample_dump ["yes"] sample_init read_only_file
  = Ret (cleared sample_init, read_only_file, [])
  /\ expenses (init pickled sample_load read_only_file)
     = expenses spent_on_the_first.
Proof.
  destruct (clear_without_save_comes_back pickled sample_dump sample_load
              "yes" [] sample_init spent_on_the_first read_only_file
              sample_round_trip eq_refl eq_refl eq_refl)
    as (_ & Hclear & Hexp & _).
  split; assumption.
Defined.

Lemma first_world_reachable :
  reachable float_of_digits strptime_iso pickled sample_dump sample_load
            (sample_init, no_file).
Proof. apply reachable_first. split; reflexivity. Qed.

Lemma run_ends_in_a_reachable_world_witness :
  exists e w' screens,
    sample_run 6 ["1"; "40"; "Food"; ""; "x"] (sample_init, no_file)
    = Some (e, w', screens)
    /\ calc_ok (fst w').
Proof.
  destruct (run_ends_in_a_reachable_world float_of_digits strptime_iso pickled
              sample_dump sample_load 6 (fun _ => march_15_noon) 0
              ["1"; "40"; "Food"; ""; "x"] (sample_init, no_file)
              sample_round_trip)
    as (e & w' & screens & Hrun & _ & Hok & _).
  - simpl. lia.
  - exact first_world_reachable.
  - exists e, w', screens. split; assumption.
Defined.

Example sample_run_exits :
  let s' := record_expense march_15_noon "Food" 40%float sample_init in
  exists screens,
    sample_run 6 ["1"; "40"; "Food"; ""; "x"] (sample_init, no_file)
    = Some (Exited,
            (s', {| file := Some (sample_dump (data_of s'));
                    writable := true |}),
            screens)
    /\ List.length screens = 2%nat.
Proof. vm_compute. eexists. split; reflexivity. Qed.

Lemma run_and_the_file_witness :
  exists w' screens,
    sample_run 6 ["1"; "40"; "Food"; ""] (sample_init, no_file)
    = Some (EndOfInput, w', screens)
    /\ expenses (fst w') = [(march_15_noon, "Food", 40%float)]
    /\ snd w' = no_file.
Proof.
  destruct (sample_run 6 ["1"; "40"; "Food"; ""] (sample_init, no_file))
    as [[[e w'] screens] | ] eqn:E; [ | vm_compute in E; discriminate E].
  destruct (run_and_the_file float_of_digits strptime_iso pickled sample_dump
              6 (fun _ => march_15_noon) 0 ["1"; "40"; "Food"; ""]
              (sample_init, no_file) e w' screens E) as (_ & _ & Hkept).
  vm_compute in E. injection E as <- <- <-.
  eexists. eexists. split; [reflexivity | ]. split; [reflexivity | ].
  apply Hkept; [discriminate | ].
  repeat constructor; vm_compute; discriminate.
Defined.

Lemma run_crashes_at_clear_prompt_witness :
  exists report,
    sample_run 1 ["6"; "maybe"] (spent_on_the_first, no_file)
    = Some (Crashed EOFError, (spent_on_the_first, no_file),
            [StatusScreen report]).
Proof.
  destruct (display_status_returns march_15_noon spent_on_the_first
              march_15_in_range) as [report Hreport].
  exists report.
  apply (run_crashes_at_clear_prompt float_of_digits strptime_iso pickled
           sample_dump 0 (fun _ => march_15_noon) 0 ["maybe"]
           spent_on_the_first no_file report Hreport unclear_maybe).
Defined.

Lemma week_starts_on_monday_witness :
  exists start,
    interval_start "Week" march_15_noon
    = Some ("Spending this week", Ret start)
    /\ DT.weekday start = 0.
Proof.
  destruct (week_starts_on_monday march_15_noon) as (start & Hs & Hm & _).
  - split; vm_compute; discriminate.
  - exists start. split; assumption.
Defined.

Lemma bi_weekly_starts_on_even_monday_witness :
  exists start,
    interval_start "Bi-Weekly" march_15_noon
    = Some ("Spending this bi-weekly period", Ret start)
    /\ (DT.toordinal start - DT.toordinal DT.reference_monday) mod 14 = 0.
Proof.
  destruct (bi_weekly_starts_on_even_monday march_15_noon)
    as (start & Hs & _ & _ & _ & _ & _ & _ & Hperiod).
  - exact march_15_in_range.
  - split; vm_compute; [discriminate | reflexivity].
  - exists start. split; assumption.
Defined.

Example bi_weekly_start_of_march_15 :
  interval_start "Bi-Weekly" march_15_noon
  = Some ("Spending this bi-weekly period", Ret (DT.mk 2024 3 4 0 0 0 0)).
Proof. vm_compute. reflexivity. Qed.

Lemma summary_keeps_entry_order_within_a_date_witness :
  exists r,
    update_summary largest_first = Some r
    /\ dated jan_10 (sorted_expenses r) = dated jan_10 (expenses largest_first).
Proof.
  apply (summary_keeps_entry_order_within_a_date largest_first jan_10).
  rewrite largest_first_expenses. discriminate.
Defined.

(** Three expenses entered in date order, on three days. *)
Definition three_days : calc :=
  enter ["30"; "Transportation"; "2024-01-15"]
        (enter ["50"; "Food"; "2024-01-10"]
               (enter ["20"; "Food"; "2024-01-05"] sample_init)).

Example three_days_expenses :
  expenses three_days
  = [(DT.mk 2024 1 5 0 0 0 0, "Food", 20%float);
     (jan_10, "Food", 50%float);
     (DT.mk 2024 1 15 0 0 0 0, "Transportation", 30%float)].
Proof. vm_compute. reflexivity. Qed.

Lemma summary_and_budget_menu_agree_witness :
  menu_lines (budget_screen three_days) = category_lines three_days
  /\ exists r,
       update_summary three_days = Some r
       /\ sorted_expenses r = expenses three_days
       /\ total_spending r = 100%float.
Proof.
  destruct (summary_and_budget_menu_agree three_days) as (Hmenu & Hsum).
  split; [exact Hmenu | ].
  destruct Hsum as (r & Hr & Hs & Ht).
  - rewrite three_days_expenses.
    repeat (constructor; try (vm_compute; reflexivity)).
  - rewrite three_days_expenses. discriminate.
  - exists r. split; [exact Hr | ]. split; [exact Hs | ].
    rewrite Ht. vm_compute. reflexivity.
Defined.

(** A category prompt that is answered with a number of 4301 digits. *)
Definition long_number : string :=
  String.concat "" (repeat "0" 4300) ++ "1".

Example long_number_is_too_long : too_long_number long_number.
Proof. split; [vm_compute; reflexivity | apply Nat.ltb_lt; reflexivity]. Qed.

Example add_expense_raises :
  add_expense float_of_digits strptime_iso march_15_noon
              ["40"; long_number; "2024-01-10"] sample_init
  = Raise ValueError.
Proof. vm_compute. reflexivity. Qed.


Lemma run_crashes_at_category_prompt_witness :
  exists report,
    sample_run 1 ["1"; "40"; long_number; "2024-01-10"; "x"]
               (spent_on_the_first, no_file)
    = Some (Crashed ValueError, (spent_on_the_first, no_file),
            [StatusScreen report]).
Proof.
  destruct (display_status_returns march_15_noon spent_on_the_first
              march_15_in_range) as [report Hreport].
  exists report.
  destruct (run_crashes_at_category_prompt float_of_digits strptime_iso
              pickled sample_dump 0 (fun _ => march_15_noon) 0 "40"
              long_number ["2024-01-10"; "x"] 40%float spent_on_the_first
              no_file report Hreport eq_refl eq_refl long_number_is_too_long)
    as (_ & _ & Hrun & _).
  exact Hrun.
Defined.
